(** * The spreadsheet-to-schema compiler of the policy engine

    A shallow embedding of [XlsxResult] and [XlsxToJson]
    (api-gateway/src/helpers/policy-engine.ts).  Objects the code mutates
    are threaded explicitly: an [XlsxResult] is a record passed from call
    to call, a field or schema that receives an error is returned next to
    the new result, and the arrays of a worksheet parse that share objects
    (the fields, the accumulated conditions) are modelled as a store of
    objects plus references into it. *)

From stdpp Require Import base option list strings gmap pretty.
From Stdlib Require Import ZArith.

Local Open Scope string_scope.
Local Open Scope list_scope.

(** ** JavaScript values *)

(** The values that reach a field's [type], a registry attribute or a
    literal of a visibility formula.  Numeric literals are integers. *)
Inductive JsVal :=
| VUndef
| VNull
| VBool (b : bool)
| VNum (n : Z)
| VStr (s : string).

#[global] Instance JsVal_eq_dec : EqDecision JsVal.
Proof. solve_decision. Defined.

(** [!!v] *)
Definition truthy (v : JsVal) : bool :=
  match v with
  | VUndef | VNull => false
  | VBool b => b
  | VNum n => negb (n =? 0)%Z
  | VStr s => negb (String.eqb s "")
  end.

(** [a === b] *)
Definition strict_eq (a b : JsVal) : bool := bool_decide (a = b).

(** [a || b] *)
Definition js_or (a b : JsVal) : JsVal := if truthy a then a else b.

(** The text a template literal substitutes for a value. *)
Definition toStr (v : JsVal) : string :=
  match v with
  | VUndef => "undefined"
  | VNull => "null"
  | VBool true => "true"
  | VBool false => "false"
  | VNum n => pretty n
  | VStr s => s
  end.

(** A value typed [string] in the source that may be absent: the text of
    a cell, a name, an IRI.  [None] is [undefined] (or [null], where the
    code only tests truthiness). *)
Definition text_truthy (t : option string) : bool :=
  match t with
  | Some s => negb (String.eqb s "")
  | None => false
  end.

Definition ofText (t : option string) : JsVal :=
  match t with
  | Some s => VStr s
  | None => VUndef
  end.

Definition textStr (t : option string) : string := toStr (ofText t).

(** The text a value typed [string] holds; a value that is no text
    counts as absent where the code only tests truthiness. *)
Definition asText (v : JsVal) : option string :=
  match v with
  | VStr s => Some s
  | _ => None
  end.

(** ** Exceptions *)

Inductive Exn :=
| Error (msg : string)
| TypeError (msg : string).

(** [error?.toString()]: the name of the error, then its message when
    there is one. *)
Definition Exn_toString (e : Exn) : string :=
  let named (name m : string) :=
    if String.eqb m "" then name else name +:+ ": " +:+ m in
  match e with
  | Error m => named "Error" m
  | TypeError m => named "TypeError" m
  end.

(** A computation that returns or throws. *)
Definition Throws (A : Type) : Type := Exn + A.

Definition tbind {A B} (m : Throws A) (k : A -> Throws B) : Throws B :=
  match m with
  | inl e => inl e
  | inr a => k a
  end.

(** [try { body } catch (error) { handler }] *)
Definition try_catch {A} (body : Throws A) (handler : Exn -> A) : A :=
  match body with
  | inl e => handler e
  | inr a => a
  end.

Notation "x <- m ;; k" := (tbind m (fun x => k))
  (at level 100, m at next level, right associativity).

(** ** Errors *)

Module XlsxError.
Record t := mk {
    type : string;
    text : string;
    message : string;
    worksheet : option string;
    cell : option string;
    row : option Z;
    col : option Z
  }.
End XlsxError.

(** [target.errors.push(error)], or [target.errors = [error]] when the
    target has no list yet. *)
Definition push_error (e : XlsxError.t) (errors : option (list XlsxError.t))
  : option (list XlsxError.t) :=
  match errors with
  | Some l => Some (l ++ [e])
  | None => Some [e]
  end.

(** ** Fields *)

Module Font.
Record t := mk { bold : JsVal; color : JsVal; size : JsVal }.
End Font.

Module SchemaField.
Record t := mk {
    name : string;
    description : option string;
    required : bool;
    isArray : bool;
    readOnly : bool;
    hidden : JsVal;
    type : JsVal;
    format : JsVal;
    pattern : JsVal;
    unit : JsVal;
    unitSystem : JsVal;
    customType : JsVal;
    property : JsVal;
    isRef : JsVal;
    enum : option (list string);
    font : option Font.t;
    textBold : JsVal;
    textColor : JsVal;
    textSize : JsVal;
    examples : option (list string);
    errors : option (list XlsxError.t)
  }.

Definition set_name v (f : t) : t :=
  let 'mk _ a2 a3 a4 a5 a6 a7 a8 a9 a10 a11 a12 a13 a14 a15 a16 a17 a18 a19 a20 a21 := f in
  mk v a2 a3 a4 a5 a6 a7 a8 a9 a10 a11 a12 a13 a14 a15 a16 a17 a18 a19 a20 a21.
Definition set_description v (f : t) : t :=
  let 'mk a1 _ a3 a4 a5 a6 a7 a8 a9 a10 a11 a12 a13 a14 a15 a16 a17 a18 a19 a20 a21 := f in
  mk a1 v a3 a4 a5 a6 a7 a8 a9 a10 a11 a12 a13 a14 a15 a16 a17 a18 a19 a20 a21.
Definition set_required v (f : t) : t :=
  let 'mk a1 a2 _ a4 a5 a6 a7 a8 a9 a10 a11 a12 a13 a14 a15 a16 a17 a18 a19 a20 a21 := f in
  mk a1 a2 v a4 a5 a6 a7 a8 a9 a10 a11 a12 a13 a14 a15 a16 a17 a18 a19 a20 a21.
Definition set_isArray v (f : t) : t :=
  let 'mk a1 a2 a3 _ a5 a6 a7 a8 a9 a10 a11 a12 a13 a14 a15 a16 a17 a18 a19 a20 a21 := f in
  mk a1 a2 a3 v a5 a6 a7 a8 a9 a10 a11 a12 a13 a14 a15 a16 a17 a18 a19 a20 a21.
Definition set_hidden v (f : t) : t :=
  let 'mk a1 a2 a3 a4 a5 _ a7 a8 a9 a10 a11 a12 a13 a14 a15 a16 a17 a18 a19 a20 a21 := f in
  mk a1 a2 a3 a4 a5 v a7 a8 a9 a10 a11 a12 a13 a14 a15 a16 a17 a18 a19 a20 a21.
Definition set_type v (f : t) : t :=
  let 'mk a1 a2 a3 a4 a5 a6 _ a8 a9 a10 a11 a12 a13 a14 a15 a16 a17 a18 a19 a20 a21 := f in
  mk a1 a2 a3 a4 a5 a6 v a8 a9 a10 a11 a12 a13 a14 a15 a16 a17 a18 a19 a20 a21.
Definition set_format v (f : t) : t :=
  let 'mk a1 a2 a3 a4 a5 a6 a7 _ a9 a10 a11 a12 a13 a14 a15 a16 a17 a18 a19 a20 a21 := f in
  mk a1 a2 a3 a4 a5 a6 a7 v a9 a10 a11 a12 a13 a14 a15 a16 a17 a18 a19 a20 a21.
Definition set_pattern v (f : t) : t :=
  let 'mk a1 a2 a3 a4 a5 a6 a7 a8 _ a10 a11 a12 a13 a14 a15 a16 a17 a18 a19 a20 a21 := f in
  mk a1 a2 a3 a4 a5 a6 a7 a8 v a10 a11 a12 a13 a14 a15 a16 a17 a18 a19 a20 a21.
Definition set_unit v (f : t) : t :=
  let 'mk a1 a2 a3 a4 a5 a6 a7 a8 a9 _ a11 a12 a13 a14 a15 a16 a17 a18 a19 a20 a21 := f in
  mk a1 a2 a3 a4 a5 a6 a7 a8 a9 v a11 a12 a13 a14 a15 a16 a17 a18 a19 a20 a21.
Definition set_unitSystem v (f : t) : t :=
  let 'mk a1 a2 a3 a4 a5 a6 a7 a8 a9 a10 _ a12 a13 a14 a15 a16 a17 a18 a19 a20 a21 := f in
  mk a1 a2 a3 a4 a5 a6 a7 a8 a9 a10 v a12 a13 a14 a15 a16 a17 a18 a19 a20 a21.
Definition set_customType v (f : t) : t :=
  let 'mk a1 a2 a3 a4 a5 a6 a7 a8 a9 a10 a11 _ a13 a14 a15 a16 a17 a18 a19 a20 a21 := f in
  mk a1 a2 a3 a4 a5 a6 a7 a8 a9 a10 a11 v a13 a14 a15 a16 a17 a18 a19 a20 a21.
Definition set_isRef v (f : t) : t :=
  let 'mk a1 a2 a3 a4 a5 a6 a7 a8 a9 a10 a11 a12 a13 _ a15 a16 a17 a18 a19 a20 a21 := f in
  mk a1 a2 a3 a4 a5 a6 a7 a8 a9 a10 a11 a12 a13 v a15 a16 a17 a18 a19 a20 a21.
Definition set_enum v (f : t) : t :=
  let 'mk a1 a2 a3 a4 a5 a6 a7 a8 a9 a10 a11 a12 a13 a14 _ a16 a17 a18 a19 a20 a21 := f in
  mk a1 a2 a3 a4 a5 a6 a7 a8 a9 a10 a11 a12 a13 a14 v a16 a17 a18 a19 a20 a21.
Definition set_font v (f : t) : t :=
  let 'mk a1 a2 a3 a4 a5 a6 a7 a8 a9 a10 a11 a12 a13 a14 a15 _ a17 a18 a19 a20 a21 := f in
  mk a1 a2 a3 a4 a5 a6 a7 a8 a9 a10 a11 a12 a13 a14 a15 v a17 a18 a19 a20 a21.
Definition set_textBold v (f : t) : t :=
  let 'mk a1 a2 a3 a4 a5 a6 a7 a8 a9 a10 a11 a12 a13 a14 a15 a16 _ a18 a19 a20 a21 := f in
  mk a1 a2 a3 a4 a5 a6 a7 a8 a9 a10 a11 a12 a13 a14 a15 a16 v a18 a19 a20 a21.
Definition set_textColor v (f : t) : t :=
  let 'mk a1 a2 a3 a4 a5 a6 a7 a8 a9 a10 a11 a12 a13 a14 a15 a16 a17 _ a19 a20 a21 := f in
  mk a1 a2 a3 a4 a5 a6 a7 a8 a9 a10 a11 a12 a13 a14 a15 a16 a17 v a19 a20 a21.
Definition set_textSize v (f : t) : t :=
  let 'mk a1 a2 a3 a4 a5 a6 a7 a8 a9 a10 a11 a12 a13 a14 a15 a16 a17 a18 _ a20 a21 := f in
  mk a1 a2 a3 a4 a5 a6 a7 a8 a9 a10 a11 a12 a13 a14 a15 a16 a17 a18 v a20 a21.
Definition set_examples v (f : t) : t :=
  let 'mk a1 a2 a3 a4 a5 a6 a7 a8 a9 a10 a11 a12 a13 a14 a15 a16 a17 a18 a19 _ a21 := f in
  mk a1 a2 a3 a4 a5 a6 a7 a8 a9 a10 a11 a12 a13 a14 a15 a16 a17 a18 a19 v a21.
Definition set_errors v (f : t) : t :=
  let 'mk a1 a2 a3 a4 a5 a6 a7 a8 a9 a10 a11 a12 a13 a14 a15 a16 a17 a18 a19 a20 _ := f in
  mk a1 a2 a3 a4 a5 a6 a7 a8 a9 a10 a11 a12 a13 a14 a15 a16 a17 a18 a19 a20 v.

  (** The target half of [addError(error, field)]. *)
Definition addError (e : XlsxError.t) (f : t) : t :=
    set_errors (push_error e (errors f)) f.
End SchemaField.

(** ** Schemas *)

Inductive SchemaCategory := POLICY | TOOL.

Module SchemaCondition.
(** Modelled from the spec: the condition type of the schema model is not
    among the sources.  A condition is "a driving field reference, a
    comparison value, and a set of (dependent field, invert-flag) pairs".
    Field objects are shared with the schema's own field array, so a
    field reference is the position of the field in that array; a
    dependent that was [undefined] when it was added is [None]. *)
Record t := mk {
  field : nat;
  value : JsVal;
  dependents : list (option nat * bool)
}.
End SchemaCondition.

Module Schema.
(** Modelled from the spec: class Schema of the interfaces package is not
    among the sources.  The record keeps what this compiler reads or
    writes ("name, description, entity-category enum, ordered sequence of
    SchemaField, derived conditions, category, optional external message
    identifier") and the attributes [toJson] projects; the JSON document
    of a schema is outside the model. *)
Record t := mk {
  id : JsVal;
  iri : option string;
  name : option string;
  description : option string;
  version : JsVal;
  status : JsVal;
  entity : JsVal;
  category : SchemaCategory;
  messageId : option string;
  fields : list SchemaField.t;
  conditions : list SchemaCondition.t;
  errors : option (list XlsxError.t)
}.

Definition set_iri v (s : t) : t :=
  let 'mk a1 _ a3 a4 a5 a6 a7 a8 a9 a10 a11 a12 := s in
  mk a1 v a3 a4 a5 a6 a7 a8 a9 a10 a11 a12.
Definition set_name v (s : t) : t :=
  let 'mk a1 a2 _ a4 a5 a6 a7 a8 a9 a10 a11 a12 := s in
  mk a1 a2 v a4 a5 a6 a7 a8 a9 a10 a11 a12.
Definition set_description v (s : t) : t :=
  let 'mk a1 a2 a3 _ a5 a6 a7 a8 a9 a10 a11 a12 := s in
  mk a1 a2 a3 v a5 a6 a7 a8 a9 a10 a11 a12.
Definition set_entity v (s : t) : t :=
  let 'mk a1 a2 a3 a4 a5 a6 _ a8 a9 a10 a11 a12 := s in
  mk a1 a2 a3 a4 a5 a6 v a8 a9 a10 a11 a12.
Definition set_category v (s : t) : t :=
  let 'mk a1 a2 a3 a4 a5 a6 a7 _ a9 a10 a11 a12 := s in
  mk a1 a2 a3 a4 a5 a6 a7 v a9 a10 a11 a12.
Definition set_messageId v (s : t) : t :=
  let 'mk a1 a2 a3 a4 a5 a6 a7 a8 _ a10 a11 a12 := s in
  mk a1 a2 a3 a4 a5 a6 a7 a8 v a10 a11 a12.
Definition set_fields v (s : t) : t :=
  let 'mk a1 a2 a3 a4 a5 a6 a7 a8 a9 _ a11 a12 := s in
  mk a1 a2 a3 a4 a5 a6 a7 a8 a9 v a11 a12.
Definition set_conditions v (s : t) : t :=
  let 'mk a1 a2 a3 a4 a5 a6 a7 a8 a9 a10 _ a12 := s in
  mk a1 a2 a3 a4 a5 a6 a7 a8 a9 a10 v a12.
Definition set_errors v (s : t) : t :=
  let 'mk a1 a2 a3 a4 a5 a6 a7 a8 a9 a10 a11 _ := s in
  mk a1 a2 a3 a4 a5 a6 a7 a8 a9 a10 a11 v.

(** Modelled from the spec: the constructor is not among the sources.
    [new Schema()] has no fields, no conditions and no identity yet
    ("tool-category schemas carry only identity, no fields"; a sheet
    with a missing header "yields no fields"). *)
Definition new : t :=
  mk VUndef None None None VUndef VUndef VUndef POLICY None [] [] None.

(** The target half of [addError(error, schema)]. *)
Definition addError (e : XlsxError.t) (s : t) : t :=
  set_errors (push_error e (errors s)) s.
End Schema.

(** ** The caches of a result *)

(** The tool id of an entry is compared with [===] and the message id
    of a tool is a key of a [Map]: both are values, so that [undefined],
    [null] and a text stay apart. *)
Module ICache.
Record t := mk {
  name : option string;
  iri : option string;
  toolId : JsVal
}.
End ICache.

Module ITool.
Record t := mk {
  uuid : JsVal;
  name : JsVal;
  messageId : JsVal
}.
End ITool.

Module ILink.
Record t := mk {
  name : option string;
  worksheet : option string
}.
End ILink.

Module Hyperlink.
Record t := mk { worksheet : option string }.
End Hyperlink.

(** A tool as [updateTool] is given it: an object of the caller, whose
    attributes may hold a text, [undefined] or [null]. *)
Module PolicyTool.
Record t := mk {
  uuid : JsVal;
  name : JsVal;
  messageId : JsVal
}.
End PolicyTool.

(** A schema of a tool as [updateTool] reads it ([ISchema]): its name,
    compared with [===], and its IRI. *)
Module ISchema.
Record t := mk {
  name : JsVal;
  iri : JsVal
}.
End ISchema.

(** A [Map] whose order of insertion is observed (by [values()]):
    [set] replaces the value of a key in place or appends a new entry. *)
Fixpoint omap_set {K V} `{EqDecision K} (k : K) (v : V) (m : list (K * V))
  : list (K * V) :=
  match m with
  | [] => [(k, v)]
  | (k', v') :: m' =>
      if decide (k' = k) then (k, v) :: m' else (k', v') :: omap_set k v m'
  end.

Definition omap_values {K V} (m : list (K * V)) : list V := map snd m.

(** ** The tabular document

    The workbook primitives are collaborators of the compiler.  A
    worksheet is an addressable grid: its accessors are total functions
    of a column and a row. *)

Module Addr.
Record t := mk { c : Z; r : Z }.
End Addr.

Module Range.
Record t := mk { s : Addr.t; e : Addr.t }.
End Range.

(** The styling metadata of a cell, as [getFont()] hands it over. *)
Module Style.
Record t := mk { bold : bool; color : option string; size : option Z }.
End Style.

Module Cell.
Record t := mk {
  isFormulae : bool;
  getFormulae : string;
  isValue : bool;
  getValue : option string;
  getLink : option Hyperlink.t;
  getFormat : option string;
  getList : option (list string);
  getFont : Style.t
}.
End Cell.

Module Worksheet.
Record t := mk {
  name : string;
  getRange : Range.t;
  getValue : Z -> Z -> option string;
  getPath : Z -> Z -> string;
  getFullPath : Z -> Z -> string;
  getCell : Z -> Z -> Cell.t;
  outColumnRange : Z -> bool
}.
End Worksheet.

Definition Buffer : Type := list Byte.byte.

(** ** The header table

    Class Table of models/header-utils is not among the sources: the
    sheet parser is written against its interface. *)

Module ITableHeader.
Record t := mk { title : string }.
End ITableHeader.

Module Table.
Class Ops (T : Type) := {
  new : Addr.t -> T;
  isName : T -> option string -> bool;
  isSchemaHeader : T -> option string -> bool;
  isFieldHeader : T -> option string -> bool;
  setRow : option string -> Z -> T -> T;
  setCol : option string -> Z -> T -> T;
  setEnd : Z -> Z -> T -> T;
  getErrorHeader : T -> option ITableHeader.t;
  getRow : string -> T -> Z;
  getCol : string -> T -> Z;
  tend : T -> Addr.t
}.
End Table.

(** ** The field-type registry and the dictionary of labels *)

Module IFieldTypes.
Record t := mk {
  name : string;
  type : JsVal;
  format : JsVal;
  pattern : JsVal;
  unit : JsVal;
  unitSystem : JsVal;
  customType : JsVal;
  hidden : JsVal;
  isRef : JsVal
}.
End IFieldTypes.

(** The labels of models/dictionary, which is not among the sources,
    are parameters of the compiler. *)
Module Dictionary.
Class t := mk {
  SCHEMA_NAME : string;
  SCHEMA_DESCRIPTION : string;
  SCHEMA_TYPE : string;
  SCHEMA_TOOL : string;
  SCHEMA_TOOL_ID : string;
  REQUIRED_FIELD : string;
  FIELD_TYPE : string;
  PARAMETER : string;
  VISIBILITY : string;
  QUESTION : string;
  ALLOW_MULTIPLE_ANSWERS : string;
  ANSWER : string;
  AUTO_CALCULATE : string
}.
End Dictionary.

(** ** Expression trees of mathjs *)

(** The nodes [parseCondition] tells apart by their [type], and any
    other node with its [type] and its [name], if it has one. *)
#[warnings="-register-all"]
Inductive MathNode :=
| ConstantNode (value : JsVal)
| SymbolNode (name : string)
| FunctionNode (fn : MathNode) (args : list MathNode)
| OtherNode (type : string) (name : JsVal).

(** [node.name]: the name of a symbol; for a call, the name of what is
    called, or the empty string. *)
Fixpoint MathNode_name (n : MathNode) : JsVal :=
  match n with
  | ConstantNode _ => VUndef
  | SymbolNode name => VStr name
  | FunctionNode fn _ => js_or (MathNode_name fn) (VStr "")
  | OtherNode _ name => name
  end.

(** The tree of a call [name(args)]. *)
Definition call (name : string) (args : list MathNode) : MathNode :=
  FunctionNode (SymbolNode name) args.

(** What [xlsxToFont] converts: the styling of a cell or the text of a
    parameter cell. *)
Inductive FontSource :=
| OfStyle (style : Style.t)
| OfText (text : string).

(** ** Collaborators

    Code the compiler calls and that is not among the sources: the value
    converters (total: "these never raise"), the registry lookup, the
    expression parser, the workbook reader and the document side of a
    schema.  [Workbook_read] is [new Workbook()], [read(buffer)] and
    [getWorksheets()] in one.  [Schema_buildDocument], the part of
    [schema.update] that follows the assignment of the fields and the
    conditions, and [Schema_updateRefs] rebuild the JSON document of a
    schema, which is outside the model: only whether they throw is
    observed.  [SchemaHelper_updateIRI] gives the IRI it assigns. *)
Class Collaborators := {
  #[global] dictionary :: Dictionary.t;
  FieldTypes_findByName : option string -> option IFieldTypes.t;
  xlsxToBoolean : option string -> bool;
  xlsxToArray : option string -> bool -> list string;
  xlsxToEntity : option string -> JsVal;
  xlsxToUnit : option string -> JsVal;
  xlsxToFont : FontSource -> Font.t;
  mathjs_parse : string -> Throws MathNode;
  Workbook_read : Buffer -> Throws (list Worksheet.t);
  Schema_buildDocument : Schema.t -> Throws unit;
  Schema_updateRefs : Schema.t -> list Schema.t -> Throws unit;
  SchemaHelper_updateIRI : Schema.t -> option string
}.

(** ** XlsxResult: the result aggregator *)

Module SchemaSummary.
Record t := mk {
  id : JsVal;
  iri : option string;
  name : option string;
  description : option string;
  version : JsVal;
  status : JsVal
}.
End SchemaSummary.

Module ResultJson.
Record t := mk {
  schemas : list SchemaSummary.t;
  tools : list ITool.t;
  errors : list XlsxError.t
}.
End ResultJson.

Module XlsxResult.
Record t := mk {
  _schemas : list Schema.t;
  _tools : list PolicyTool.t;
  _errors : list XlsxError.t;
  _toolsCache : list (JsVal * ITool.t);
  _schemaWorksheetCache : gmap string ICache.t;
  _schemaNameCache : gmap (option string) ICache.t;
  _linkCache : gmap string ILink.t
}.

Definition set_schemas v (this : t) : t :=
  let 'mk _ a2 a3 a4 a5 a6 a7 := this in mk v a2 a3 a4 a5 a6 a7.
Definition set_tools v (this : t) : t :=
  let 'mk a1 _ a3 a4 a5 a6 a7 := this in mk a1 v a3 a4 a5 a6 a7.
Definition set_errors v (this : t) : t :=
  let 'mk a1 a2 _ a4 a5 a6 a7 := this in mk a1 a2 v a4 a5 a6 a7.
Definition set_toolsCache v (this : t) : t :=
  let 'mk a1 a2 a3 _ a5 a6 a7 := this in mk a1 a2 a3 v a5 a6 a7.
Definition set_schemaWorksheetCache v (this : t) : t :=
  let 'mk a1 a2 a3 a4 _ a6 a7 := this in mk a1 a2 a3 a4 v a6 a7.
Definition set_schemaNameCache v (this : t) : t :=
  let 'mk a1 a2 a3 a4 a5 _ a7 := this in mk a1 a2 a3 a4 a5 v a7.
Definition set_linkCache v (this : t) : t :=
  let 'mk a1 a2 a3 a4 a5 a6 _ := this in mk a1 a2 a3 a4 a5 a6 v.

(** [new XlsxResult()] *)
Definition new : t := mk [] [] [] [] ∅ ∅ ∅.

Definition schemas (this : t) : list Schema.t := _schemas this.

Definition tools (this : t) : list PolicyTool.t := _tools this.

Definition addTool (worksheet : Worksheet.t) (name : option string)
    (messageId : JsVal) (this : t) : t :=
  let this :=
    set_toolsCache
      (omap_set messageId (ITool.mk messageId messageId messageId)
         (_toolsCache this)) this in
  let cache := ICache.mk name None messageId in
  let this :=
    set_schemaWorksheetCache
      (<[Worksheet.name worksheet := cache]> (_schemaWorksheetCache this))
      this in
  set_schemaNameCache
    (<[Some ("tool-schema:" +:+ textStr name) := cache]>
       (_schemaNameCache this)) this.

Definition addSchema (worksheet : Worksheet.t) (name : option string)
    (schema : Schema.t) (this : t) : t :=
  let this := set_schemas (_schemas this ++ [schema]) this in
  let cache := ICache.mk name (Schema.iri schema) VUndef in
  let this :=
    set_schemaWorksheetCache
      (<[Worksheet.name worksheet := cache]> (_schemaWorksheetCache this))
      this in
  set_schemaNameCache (<[name := cache]> (_schemaNameCache this)) this.

(** The result half of [addError(error, target)]: the error joins the
    global list.  The target half is [SchemaField.addError] or
    [Schema.addError], applied by the caller to the object it owns. *)
Definition addError (error : XlsxError.t) (this : t) : t :=
  set_errors (_errors this ++ [error]) this.

Definition addLink (name : option string) (hyperlink : option Hyperlink.t)
    (this : t) : string * t :=
  let id := "link_" +:+ pretty (size (_linkCache this)) in
  let worksheet :=
    match hyperlink with
    | Some h => Hyperlink.worksheet h
    | None => None
    end in
  (id, set_linkCache (<[id := ILink.mk name worksheet]> (_linkCache this)) this).

Definition clear (this : t) : t :=
  let this := set_schemas [] this in
  let this := set_tools [] this in
  let this := set_toolsCache [] this in
  let this := set_schemaWorksheetCache ∅ this in
  let this := set_schemaNameCache ∅ this in
  set_linkCache ∅ this.

Definition getToolIds (this : t) : list ITool.t :=
  omap_values (_toolsCache this).

(** [addErrors(errors)]: every error joins the list with its [type] set
    to 'error'. *)
Definition addErrors (errors : list XlsxError.t) (this : t) : t :=
  let typed (error : XlsxError.t) :=
    XlsxError.mk "error" (XlsxError.text error) (XlsxError.message error)
      (XlsxError.worksheet error) (XlsxError.cell error)
      (XlsxError.row error) (XlsxError.col error) in
  set_errors (_errors this ++ map typed errors) this.

(** [updateTool(tool, schemas)]: the IRI of every cache entry of the tool
    becomes the IRI of the schema of that name among [schemas], or
    [undefined].  The tests [cache.toolId === tool.messageId] and
    [s.name === cache.name] are strict: [undefined] and [null] differ.
    An entry that sits in both caches is one object; the two loops
    assign it the same value.  No statement of the [try] block
    throws. *)
Definition updateTool (tool : PolicyTool.t) (schemas : list ISchema.t)
    (this : t) : t :=
  let this := set_tools (_tools this ++ [tool]) this in
  let this :=
    set_toolsCache
      (omap_set (PolicyTool.messageId tool)
         (ITool.mk (PolicyTool.uuid tool) (PolicyTool.name tool)
            (PolicyTool.messageId tool))
         (_toolsCache this)) this in
  let update (cache : ICache.t) :=
    if strict_eq (ICache.toolId cache) (PolicyTool.messageId tool) then
      let schema :=
        find (λ s, strict_eq (ISchema.name s) (ofText (ICache.name cache)))
          schemas in
      ICache.mk (ICache.name cache) (schema ≫= λ s, asText (ISchema.iri s))
        (ICache.toolId cache)
    else cache in
  let this :=
    set_schemaWorksheetCache (update <$> _schemaWorksheetCache this) this in
  set_schemaNameCache (update <$> _schemaNameCache this) this.

(** [this._linkCache.get(field.type)]: the keys of the link cache are
    the strings [addLink] minted. *)
Definition getLink (type : JsVal) (this : t) : option ILink.t :=
  match type with
  | VStr id => _linkCache this !! id
  | _ => None
  end.

(** The cache entry a link leads to: the worksheet-keyed cache first,
    then the name-keyed cache under the plain name, then under the
    tool-qualified name. *)
Definition findCache (link : ILink.t) (this : t) : option ICache.t :=
  let cache :=
    match ILink.worksheet link with
    | Some w =>
        if text_truthy (Some w) then _schemaWorksheetCache this !! w else None
    | None => None
    end in
  match cache with
  | Some c => Some c
  | None =>
      if text_truthy (ILink.name link) then
        match _schemaNameCache this !! ILink.name link with
        | Some c => Some c
        | None =>
            _schemaNameCache this
              !! Some ("tool-schema:" +:+ textStr (ILink.name link))
        end
      else None
  end.

(** The IRI [getSubSchema] returns from its cache lookups, if any. *)
Definition findIri (type : JsVal) (this : t) : option string :=
  match getLink type this with
  | Some link =>
      match findCache link this with
      | Some cache =>
          if text_truthy (ICache.iri cache) then ICache.iri cache else None
      | None => None
      end
  | None => None
  end.

Definition subSchemaError (type : JsVal) : XlsxError.t :=
  let text := "Sub-schema (" +:+ toStr type +:+ ") not found." in
  XlsxError.mk "error" text text (Some "") None None None.

(** [getSubSchema(field)]: the value returned, the field and the result
    after the call.  The path that records the error ends without a
    [return]: the value of the call is [undefined]. *)
Definition getSubSchema (field : SchemaField.t) (this : t)
  : JsVal * SchemaField.t * t :=
  if strict_eq (SchemaField.type field) (VStr "#GeoJSON") then
    (VStr "#GeoJSON", field, this)
  else
    match findIri (SchemaField.type field) this with
    | Some iri => (VStr iri, field, this)
    | None =>
        let error := subSchemaError (SchemaField.type field) in
        let this := addError error this in
        let field := SchemaField.addError error field in
        let field := SchemaField.set_type VNull field in
        (VUndef, field, this)
    end.

(** The body of the inner loop of [updateSchemas]. *)
Definition resolveField (field : SchemaField.t) (this : t)
  : SchemaField.t * t :=
  if truthy (SchemaField.isRef field) then
    let '(type, field, this) := getSubSchema field this in
    (SchemaField.set_type type field, this)
  else (field, this).

Fixpoint resolveFields (fields : list SchemaField.t) (this : t)
  : list SchemaField.t * t :=
  match fields with
  | [] => ([], this)
  | field :: rest =>
      let '(field, this) := resolveField field this in
      let '(rest, this) := resolveFields rest this in
      (field :: rest, this)
  end.

(** What the final pass makes of one field, and the errors it records
    for it. *)
Definition resolved (this : t) (field : SchemaField.t) : SchemaField.t :=
  (resolveField field this).1.

Definition unresolved (this : t) (field : SchemaField.t) : bool :=
  truthy (SchemaField.isRef field)
  && negb (strict_eq (SchemaField.type field) (VStr "#GeoJSON"))
  && bool_decide (findIri (SchemaField.type field) this = None).

Definition complaints (this : t) (field : SchemaField.t)
  : list XlsxError.t :=
  if unresolved this field then [subSchemaError (SchemaField.type field)]
  else [].

(** The same for a whole schema. *)
Definition resolvedSchema (this : t) (schema : Schema.t) : Schema.t :=
  Schema.set_fields (map (resolved this) (Schema.fields schema)) schema.

Definition schemaComplaints (this : t) (schema : Schema.t)
  : list XlsxError.t :=
  Schema.fields schema ≫= complaints this.

Definition parseFileError (error : Exn) : XlsxError.t :=
  XlsxError.mk "error" "Failed to parse file." (Exn_toString error)
    None None None None.

Section with_collaborators.
Context `{Collaborators}.

(** The outer loop of [updateSchemas] from schema [i] on, for [n] more
    schemas.  The schemas are objects of [this._schemas]: the fields of
    schema [i] are rewritten in place before its references are
    updated against the whole array.  An exception leaves the loop
    with everything done so far. *)
Fixpoint updateSchemas_loop (n i : nat) (this : t) : option Exn * t :=
  match n with
  | O => (None, this)
  | S n =>
      match _schemas this !! i with
      | None => (None, this)
      | Some schema =>
          let '(fields, this) := resolveFields (Schema.fields schema) this in
          let schema := Schema.set_fields fields schema in
          let this := set_schemas (<[i := schema]> (_schemas this)) this in
          match Schema_updateRefs schema (_schemas this) with
          | inl error => (Some error, this)
          | inr _ => updateSchemas_loop n (S i) this
          end
      end
  end.

Definition updateSchemas (this : t) : t :=
  let '(thrown, this) := updateSchemas_loop (length (_schemas this)) 0 this in
  match thrown with
  | Some error => addError (parseFileError error) this
  | None => this
  end.

End with_collaborators.

Definition summary (s : Schema.t) : SchemaSummary.t :=
  SchemaSummary.mk (Schema.id s) (Schema.iri s) (Schema.name s)
    (Schema.description s) (Schema.version s) (Schema.status s).

Definition toJson (this : t) : ResultJson.t :=
  let tools := omap_values (_toolsCache this) in
  let schemas := map summary (_schemas this) in
  ResultJson.mk schemas tools (_errors this).

End XlsxResult.

(** ** Conditions accumulated while a sheet is parsed *)

Module XlsxSchemaConditions.
(** Modelled from the spec: class XlsxSchemaConditions of
    models/schema-condition is not among the sources.  A condition is
    "a driving field reference, a comparison value, and a set of
    (dependent field, invert-flag) pairs"; the driving field is a
    reference into the field array of the sheet. *)
Record t := mk {
  field : nat;
  value : JsVal;
  dependents : list (option nat * bool)
}.

(** Modelled from the spec: [new XlsxSchemaConditions(target, value)].
    A condition cannot be built on a driving field that was not found:
    "driving-field lookup failures (reference not found in this sheet)
    surface as an error attached to the dependent field". *)
Definition new (target : option nat) (value : JsVal) : Throws t :=
  match target with
  | Some field => inr (mk field value [])
  | None =>
      inl (TypeError "Cannot read properties of undefined (reading 'name')")
  end.

(** Modelled from the spec: [c.equal(field, value)], [field] being the
    name a formula refers to.  "Two conditions are equal if they share
    the same driving field and comparison value". *)
Definition equal (fields : list SchemaField.t) (c : t)
    (field value : JsVal) : bool :=
  match fields !! XlsxSchemaConditions.field c with
  | Some target =>
      strict_eq (VStr (SchemaField.name target)) field
      && strict_eq (XlsxSchemaConditions.value c) value
  | None => false
  end.

(** Modelled from the spec: [c.addField(field, invert)].  "Equal
    conditions accumulate dependents". *)
Definition addField (field : option nat) (invert : bool) (c : t) : t :=
  mk (XlsxSchemaConditions.field c) (XlsxSchemaConditions.value c)
    (dependents c ++ [(field, invert)]).

(** Modelled from the spec: [c.toJson()], the condition as the schema
    keeps it. *)
Definition toJson (c : t) : SchemaCondition.t :=
  SchemaCondition.mk (field c) (value c) (dependents c).
End XlsxSchemaConditions.

(** ** XlsxToJson: the compiler *)

(** What [parseCondition] is given: the text of a formula, or the
    boolean a plain value converts to. *)
Inductive Formulae :=
| FText (s : string)
| FBool (b : bool).

(** The object [parsFn] returns. *)
Module ParsedNode.
Record t := mk { field : JsVal; value : JsVal; invert : bool }.
End ParsedNode.

(** The object [parseCondition] returns, by its [type] tag. *)
Inductive ParsedCondition :=
| CConst (value : bool)
| CFormulae (field : JsVal) (value : JsVal) (invert : bool).

Definition LF : Ascii.ascii := Ascii.ascii_of_nat 10.
Definition CR : Ascii.ascii := Ascii.ascii_of_nat 13.
Definition DQUOTE : string := String (Ascii.ascii_of_nat 34) EmptyString.

(** [s.split(/\r?\n/)] *)
Fixpoint splitLines (s : string) : list string :=
  match s with
  | EmptyString => [""]
  | String c rest =>
      let keep (tail : list string) :=
        match tail with
        | line :: lines => String c line :: lines
        | [] => [String c ""]
        end in
      if Ascii.eqb c LF then "" :: splitLines rest
      else if Ascii.eqb c CR then
        match rest with
        | String c' rest' =>
            if Ascii.eqb c' LF then "" :: splitLines rest'
            else keep (splitLines rest)
        | EmptyString => keep (splitLines rest)
        end
      else keep (splitLines rest)
  end.

(** The objects a sheet parse shares between its arrays.  [fields] is
    the field array itself: the field cache, the conditions and the
    schema all point into it.  [conditions] holds every condition object
    created so far; the condition cache of the parse is an array of
    references into it, so that one object can sit at two positions. *)
Module Store.
Record t := mk {
  fields : list SchemaField.t;
  conditions : list XlsxSchemaConditions.t
}.

(** The target half of [addError(error, field)] for a field looked up in
    the field cache, [undefined] included. *)
Definition addFieldError (field : option nat) (e : XlsxError.t) (s : t) : t :=
  match field with
  | Some i => mk (alter (SchemaField.addError e) i (fields s)) (conditions s)
  | None => s
  end.
End Store.

Module XlsxToJson.

(** The inner function of [parseCondition]. *)
Fixpoint parsFn (tree : MathNode) (invert : bool) : option ParsedNode.t :=
  match tree with
  | FunctionNode fn args =>
      if strict_eq (MathNode_name fn) (VStr "EXACT") && Nat.eqb (length args) 2
      then
        match args with
        | [SymbolNode name; ConstantNode value] =>
            Some (ParsedNode.mk (VStr name) value invert)
        | [ConstantNode value; SymbolNode name] =>
            Some (ParsedNode.mk value (VStr name) invert)
        | _ => None
        end
      else if strict_eq (MathNode_name fn) (VStr "NOT") && Nat.eqb (length args) 1
      then
        match args with
        | [arg] => parsFn arg true
        | _ => None
        end
      else None
  | _ => None
  end.

Section with_collaborators.
Context `{Collaborators}.

Definition parseCondition (formulae : Formulae)
  : Throws (option ParsedCondition) :=
  match formulae with
  | FBool true => inr (Some (CConst true))
  | FBool false => inr (Some (CConst false))
  | FText s =>
      if String.eqb s "" then inr None
      else if String.eqb s "TRUE" then inr (Some (CConst true))
      else if String.eqb s "FALSE" then inr (Some (CConst false))
      else
        tree <- mathjs_parse s;;
        match parsFn tree false with
        | Some node =>
            inr (Some (CFormulae (ParsedNode.field node)
                         (ParsedNode.value node) (ParsedNode.invert node)))
        | None => inl (Error ("Failed to parse formulae: " +:+ s +:+ "."))
        end
  end.

Context {T : Type} `{Table.Ops T}.

(** The four assignments that follow a call of [xlsxToFont]. *)
Definition setFont (font : Font.t) (field : SchemaField.t) : SchemaField.t :=
  let field := SchemaField.set_font (Some font) field in
  let field := SchemaField.set_textBold (Font.bold font) field in
  let field := SchemaField.set_textColor (Font.color font) field in
  SchemaField.set_textSize (Font.size font) field.

(** [readFieldParams]: the accessors and converters it calls are total,
    so its [try] block runs to the end and the result comes back as it
    went in. *)
Definition readFieldParams (worksheet : Worksheet.t) (table : T)
    (field : SchemaField.t) (fieldType : IFieldTypes.t) (row : Z)
    (xlsxResult : XlsxResult.t) : SchemaField.t * XlsxResult.t :=
  let answer :=
    Worksheet.getCell worksheet (Table.getCol Dictionary.ANSWER table) row in
  let question :=
    Worksheet.getCell worksheet (Table.getCol Dictionary.QUESTION table) row in
  let named name := String.eqb (IFieldTypes.name fieldType) name in
  let param :=
    Worksheet.getValue worksheet
      (Table.getCol Dictionary.PARAMETER table) row in
  let field :=
    if named "Prefix"
    then SchemaField.set_unit (xlsxToUnit (Cell.getFormat answer)) field
    else field in
  let field :=
    if named "Postfix"
    then SchemaField.set_unit (xlsxToUnit (Cell.getFormat answer)) field
    else field in
  let field :=
    if named "Enum"
    then SchemaField.set_enum (Cell.getList answer) field
    else field in
  let field :=
    if named "Help Text"
    then setFont (xlsxToFont (OfStyle (Cell.getFont question))) field
    else field in
  let field :=
    match param with
    | Some text =>
        if text_truthy param then
          let field :=
            if named "Prefix" then SchemaField.set_unit (VStr text) field
            else field in
          let field :=
            if named "Postfix" then SchemaField.set_unit (VStr text) field
            else field in
          let field :=
            if named "Enum"
            then SchemaField.set_enum (Some (splitLines text)) field
            else field in
          if named "Help Text" then setFont (xlsxToFont (OfText text)) field
          else field
        else field
    | None => field
    end in
  (field, xlsxResult).

Definition unknownTypeError (worksheet : Worksheet.t) (table : T) (row : Z)
  : XlsxError.t :=
  let col := Table.getCol Dictionary.FIELD_TYPE table in
  XlsxError.mk "error" "Unknown field type." "Unknown field type."
    (Some (Worksheet.name worksheet))
    (Some (Worksheet.getPath worksheet col row)) (Some row) (Some col).

(** The field object [readField] starts from. *)
Definition emptyField : SchemaField.t :=
  SchemaField.mk "" (Some "") false false false (VBool false)
    VNull VNull VNull VNull VNull VNull VNull VNull
    None None VUndef VUndef VUndef None None.

(** [readField]: the field of a row, or [null].  The accessors and
    converters are total, so the [try] block runs to its [return]. *)
Definition readField (worksheet : Worksheet.t) (table : T) (row : Z)
    (xlsxResult : XlsxResult.t) : option SchemaField.t * XlsxResult.t :=
  let field := emptyField in
  let col label := Table.getCol label table in
  let name := Worksheet.getPath worksheet (col Dictionary.ANSWER) row in
  let type := Worksheet.getValue worksheet (col Dictionary.FIELD_TYPE) row in
  let description :=
    Worksheet.getValue worksheet (col Dictionary.QUESTION) row in
  let required :=
    xlsxToBoolean
      (Worksheet.getValue worksheet (col Dictionary.REQUIRED_FIELD) row) in
  let isArray :=
    xlsxToBoolean
      (Worksheet.getValue worksheet
         (col Dictionary.ALLOW_MULTIPLE_ANSWERS) row) in
  let field := SchemaField.set_name name field in
  let field := SchemaField.set_description description field in
  let field := SchemaField.set_required required field in
  let field := SchemaField.set_isArray isArray field in
  let '(field, xlsxResult) :=
    match FieldTypes_findByName type with
    | Some fieldType =>
        let field := SchemaField.set_type (IFieldTypes.type fieldType) field in
        let field :=
          SchemaField.set_format (IFieldTypes.format fieldType) field in
        let field :=
          SchemaField.set_pattern (IFieldTypes.pattern fieldType) field in
        let field := SchemaField.set_unit (IFieldTypes.unit fieldType) field in
        let field :=
          SchemaField.set_unitSystem (IFieldTypes.unitSystem fieldType)
            field in
        let field :=
          SchemaField.set_customType (IFieldTypes.customType fieldType)
            field in
        let field :=
          SchemaField.set_hidden (IFieldTypes.hidden fieldType) field in
        let field :=
          SchemaField.set_isRef (IFieldTypes.isRef fieldType) field in
        readFieldParams worksheet table field fieldType row xlsxResult
    | None =>
        if text_truthy type then
          let hyperlink :=
            Cell.getLink
              (Worksheet.getCell worksheet (col Dictionary.FIELD_TYPE) row) in
          let '(id, xlsxResult) :=
            XlsxResult.addLink type hyperlink xlsxResult in
          let field := SchemaField.set_type (VStr id) field in
          (SchemaField.set_isRef (VBool true) field, xlsxResult)
        else
          let error := unknownTypeError worksheet table row in
          (SchemaField.addError error field,
           XlsxResult.addError error xlsxResult)
    end in
  let field :=
    if negb (truthy (SchemaField.isRef field)) then
      let answer :=
        Worksheet.getValue worksheet (col Dictionary.ANSWER) row in
      if bool_decide (type = Some Dictionary.AUTO_CALCULATE) then field
      else if text_truthy answer then
        SchemaField.set_examples
          (Some (xlsxToArray answer (SchemaField.isArray field))) field
      else field
    else field in
  (Some field, xlsxResult).

(** The stages of [readField] on a row of a recognized type, to state
    what it returns: the field after the cells of the row are read, after
    the registry entry is copied, and after the examples are read. *)
Definition rowField (worksheet : Worksheet.t) (table : T) (row : Z)
  : SchemaField.t :=
  let value label :=
    Worksheet.getValue worksheet (Table.getCol label table) row in
  let field :=
    SchemaField.set_name
      (Worksheet.getPath worksheet (Table.getCol Dictionary.ANSWER table) row)
      emptyField in
  let field :=
    SchemaField.set_description (value Dictionary.QUESTION) field in
  let field :=
    SchemaField.set_required
      (xlsxToBoolean (value Dictionary.REQUIRED_FIELD)) field in
  SchemaField.set_isArray
    (xlsxToBoolean (value Dictionary.ALLOW_MULTIPLE_ANSWERS)) field.

Definition ofRegistry (fieldType : IFieldTypes.t) (field : SchemaField.t)
  : SchemaField.t :=
  let field := SchemaField.set_type (IFieldTypes.type fieldType) field in
  let field := SchemaField.set_format (IFieldTypes.format fieldType) field in
  let field := SchemaField.set_pattern (IFieldTypes.pattern fieldType) field in
  let field := SchemaField.set_unit (IFieldTypes.unit fieldType) field in
  let field :=
    SchemaField.set_unitSystem (IFieldTypes.unitSystem fieldType) field in
  let field :=
    SchemaField.set_customType (IFieldTypes.customType fieldType) field in
  let field := SchemaField.set_hidden (IFieldTypes.hidden fieldType) field in
  SchemaField.set_isRef (IFieldTypes.isRef fieldType) field.

Definition withExamples (worksheet : Worksheet.t) (table : T) (row : Z)
    (field : SchemaField.t) : SchemaField.t :=
  let value label :=
    Worksheet.getValue worksheet (Table.getCol label table) row in
  if negb (truthy (SchemaField.isRef field)) then
    if bool_decide
         (value Dictionary.FIELD_TYPE = Some Dictionary.AUTO_CALCULATE)
    then field
    else if text_truthy (value Dictionary.ANSWER) then
      SchemaField.set_examples
        (Some (xlsxToArray (value Dictionary.ANSWER)
                 (SchemaField.isArray field))) field
    else field
  else field.

Definition conditionError (worksheet : Worksheet.t) (table : T) (row : Z)
    (error : Exn) : XlsxError.t :=
  let col := Table.getCol Dictionary.VISIBILITY table in
  XlsxError.mk "error" "Failed to parse condition." (Exn_toString error)
    (Some (Worksheet.name worksheet))
    (Some (Worksheet.getPath worksheet col row)) (Some row) (Some col).

(** [fieldCache.get(name)] for a name that is any value: the keys of the
    cache are strings. *)
Definition getField (fieldCache : gmap string nat) (name : JsVal)
  : option nat :=
  match name with
  | VStr s => fieldCache !! s
  | _ => None
  end.

(** The inner [try] block of [readCondition]: what the visibility cell
    parses to, [inr None] when [result] stays [undefined]. *)
Definition visibility (cell : Cell.t) : Throws (option ParsedCondition) :=
  if Cell.isFormulae cell then
    parseCondition (FText (Cell.getFormulae cell))
  else if Cell.isValue cell then
    parseCondition (FBool (xlsxToBoolean (Cell.getValue cell)))
  else inr None.

(** [c => c.equal(result.field, result.value)] on a reference. *)
Definition sameCondition (store : Store.t) (field value : JsVal) (ref : nat)
  : bool :=
  match Store.conditions store !! ref with
  | Some c => XlsxSchemaConditions.equal (Store.fields store) c field value
  | None => false
  end.

(** [readCondition]: the reference of the condition it returns, if any,
    with the objects and the result after the call.  Nothing is mutated
    before a statement of the outer [try] block throws, so its [catch]
    clause starts from the state of the call. *)
Definition readCondition (worksheet : Worksheet.t) (table : T)
    (fieldCache : gmap string nat) (conditionCache : list nat) (row : Z)
    (store : Store.t) (xlsxResult : XlsxResult.t)
  : option nat * Store.t * XlsxResult.t :=
  let name :=
    Worksheet.getPath worksheet (Table.getCol Dictionary.ANSWER table) row in
  let field := fieldCache !! name in
  let caught (error : Exn) :=
    let e := conditionError worksheet table row error in
    (None, Store.addFieldError field e store,
     XlsxResult.addError e xlsxResult) in
  if Worksheet.outColumnRange worksheet
       (Table.getCol Dictionary.VISIBILITY table)
  then (None, store, xlsxResult)
  else
    let cell :=
      Worksheet.getCell worksheet
        (Table.getCol Dictionary.VISIBILITY table) row in
    match visibility cell with
    | inl error => caught error
    | inr None => (None, store, xlsxResult)
    | inr (Some (CConst value)) =>
        match field with
        | Some i =>
            let hide f :=
              SchemaField.set_hidden
                (js_or (SchemaField.hidden f) (VBool (negb value))) f in
            (None,
             Store.mk (alter hide i (Store.fields store))
               (Store.conditions store),
             xlsxResult)
        | None =>
            caught
              (TypeError
                 "Cannot read properties of undefined (reading 'hidden')")
        end
    | inr (Some (CFormulae rfield rvalue invert)) =>
        match find (sameCondition store rfield rvalue) conditionCache with
        | Some ref =>
            (Some ref,
             Store.mk (Store.fields store)
               (alter (XlsxSchemaConditions.addField field invert) ref
                  (Store.conditions store)),
             xlsxResult)
        | None =>
            let target := getField fieldCache rfield in
            match XlsxSchemaConditions.new target rvalue with
            | inl error => caught error
            | inr condition =>
                let ref := length (Store.conditions store) in
                (Some ref,
                 Store.mk (Store.fields store)
                   (Store.conditions store
                      ++ [XlsxSchemaConditions.addField field invert
                            condition]),
                 xlsxResult)
            end
        end
    end.

(** The first loop of [parseSheet]: rows from [row] on, [n] at most,
    until the row of the field headers. *)
Fixpoint scanSchemaHeaders (worksheet : Worksheet.t) (startCol startRow : Z)
    (n : nat) (row : Z) (table : T) : Z * T :=
  match n with
  | O => (row, table)
  | S n =>
      let title := Worksheet.getValue worksheet startCol row in
      let table :=
        if (row =? startRow)%Z && Table.isName table title
        then Table.setRow (Some Dictionary.SCHEMA_NAME) row table
        else table in
      let table :=
        if Table.isSchemaHeader table title
        then Table.setRow title row table
        else table in
      if Table.isFieldHeader table title then (row, table)
      else scanSchemaHeaders worksheet startCol startRow n (row + 1)%Z table
  end.

(** The second loop: the columns of the header row. *)
Fixpoint scanFieldHeaders (worksheet : Worksheet.t) (row : Z)
    (n : nat) (col : Z) (table : T) : T :=
  match n with
  | O => table
  | S n =>
      let value := Worksheet.getValue worksheet col row in
      let table :=
        if Table.isFieldHeader table value
        then Table.setCol value col table
        else table in
      scanFieldHeaders worksheet row n (col + 1)%Z table
  end.

(** The loop over the field rows. *)
Fixpoint readFields (worksheet : Worksheet.t) (table : T) (n : nat) (row : Z)
    (fields : list SchemaField.t) (fieldCache : gmap string nat)
    (xlsxResult : XlsxResult.t)
  : list SchemaField.t * gmap string nat * XlsxResult.t :=
  match n with
  | O => (fields, fieldCache, xlsxResult)
  | S n =>
      let '(field, xlsxResult) := readField worksheet table row xlsxResult in
      let '(fields, fieldCache) :=
        match field with
        | Some field =>
            (fields ++ [field],
             <[SchemaField.name field := length fields]> fieldCache)
        | None => (fields, fieldCache)
        end in
      readFields worksheet table n (row + 1)%Z fields fieldCache xlsxResult
  end.

(** The loop over the same rows for their conditions: whatever
    [readCondition] returns is pushed. *)
Fixpoint readConditions (worksheet : Worksheet.t) (table : T)
    (fieldCache : gmap string nat) (n : nat) (row : Z)
    (conditionCache : list nat) (store : Store.t) (xlsxResult : XlsxResult.t)
  : list nat * Store.t * XlsxResult.t :=
  match n with
  | O => (conditionCache, store, xlsxResult)
  | S n =>
      let '(condition, store, xlsxResult) :=
        readCondition worksheet table fieldCache conditionCache row
          store xlsxResult in
      let conditionCache :=
        match condition with
        | Some ref => conditionCache ++ [ref]
        | None => conditionCache
        end in
      readConditions worksheet table fieldCache n (row + 1)%Z
        conditionCache store xlsxResult
  end.

(** [conditionCache.map(c => c.toJson())] *)
Definition conditionsToJson (conditionCache : list nat) (store : Store.t)
  : list SchemaCondition.t :=
  omap (fun ref => XlsxSchemaConditions.toJson <$> Store.conditions store !! ref)
    conditionCache.

Definition headerError (worksheet : Worksheet.t)
    (errorHeader : ITableHeader.t) : XlsxError.t :=
  let text :=
    "Invalid headers. Header " +:+ DQUOTE +:+ ITableHeader.title errorHeader
      +:+ DQUOTE +:+ " not set." in
  XlsxError.mk "error" text text (Some (Worksheet.name worksheet))
    None None None.

Definition parseSheetError (worksheet : Worksheet.t) (error : Exn)
  : XlsxError.t :=
  XlsxError.mk "error" "Failed to parse sheet." (Exn_toString error)
    (Some (Worksheet.name worksheet)) None None None.

(** The header table of a sheet after both scans, with the header row. *)
Definition scanHeaders (worksheet : Worksheet.t) : Z * T :=
  let range := Worksheet.getRange worksheet in
  let table := Table.new (Range.s range) in
  let startCol := Addr.c (Range.s range) in
  let endCol := Addr.c (Range.e range) in
  let startRow := Addr.r (Range.s range) in
  let '(row, table) :=
    scanSchemaHeaders worksheet startCol startRow
      (Z.to_nat (Addr.r (Range.e range) - startRow)) startRow table in
  (row,
   scanFieldHeaders worksheet row (Z.to_nat (endCol - startCol)) startCol
     table).

(** The cell next to a schema header, when the header has a row. *)
Definition metadata (worksheet : Worksheet.t) (table : T) (label : string)
  : option string :=
  if negb (Table.getRow label table =? -1)%Z then
    Worksheet.getValue worksheet
      (Addr.c (Range.s (Worksheet.getRange worksheet)) + 1)%Z
      (Table.getRow label table)
  else None.

(** [parseSheet]: the schema it returns (never [null]) and the result
    after the call.  The statement of the [try] block that can throw is
    the rebuild of the document in [schema.update]. *)
Definition parseSheet (worksheet : Worksheet.t) (xlsxResult : XlsxResult.t)
  : Schema.t * XlsxResult.t :=
  let schema := Schema.new in
  let schema := Schema.set_name (Some (Worksheet.name worksheet)) schema in
  let schema := Schema.set_category POLICY schema in
  let range := Worksheet.getRange worksheet in
  let startCol := Addr.c (Range.s range) in
  let endCol := Addr.c (Range.e range) in
  let '(row, table) := scanHeaders worksheet in
  match Table.getErrorHeader table with
  | Some errorHeader =>
      let error := headerError worksheet errorHeader in
      (Schema.addError error schema, XlsxResult.addError error xlsxResult)
  | None =>
      let table := Table.setEnd endCol row table in
      let schema :=
        if negb (Table.getRow Dictionary.SCHEMA_NAME table =? -1)%Z then
          Schema.set_name
            (Worksheet.getValue worksheet startCol
               (Table.getRow Dictionary.SCHEMA_NAME table)) schema
        else schema in
      let schema :=
        if negb (Table.getRow Dictionary.SCHEMA_DESCRIPTION table =? -1)%Z then
          Schema.set_description
            (Worksheet.getValue worksheet (startCol + 1)%Z
               (Table.getRow Dictionary.SCHEMA_DESCRIPTION table)) schema
        else schema in
      let schema :=
        if negb (Table.getRow Dictionary.SCHEMA_TYPE table =? -1)%Z then
          Schema.set_entity
            (xlsxToEntity
               (Worksheet.getValue worksheet (startCol + 1)%Z
                  (Table.getRow Dictionary.SCHEMA_TYPE table))) schema
        else schema in
      let toolName := metadata worksheet table Dictionary.SCHEMA_TOOL in
      let messageId := metadata worksheet table Dictionary.SCHEMA_TOOL_ID in
      if text_truthy toolName || text_truthy messageId then
        let schema := Schema.set_category TOOL schema in
        (Schema.set_messageId messageId schema, xlsxResult)
      else
        let row := (Addr.r (Table.tend table) + 1)%Z in
        let n := Z.to_nat (Addr.r (Range.e range) - row) in
        let '(fields, fieldCache, xlsxResult) :=
          readFields worksheet table n row [] ∅ xlsxResult in
        let '(conditionCache, store, xlsxResult) :=
          readConditions worksheet table fieldCache n row []
            (Store.mk fields []) xlsxResult in
        let conditions := conditionsToJson conditionCache store in
        let schema := Schema.set_fields (Store.fields store) schema in
        let schema := Schema.set_conditions conditions schema in
        match Schema_buildDocument schema with
        | inl error =>
            let e := parseSheetError worksheet error in
            (Schema.addError e schema, XlsxResult.addError e xlsxResult)
        | inr _ =>
            (Schema.set_iri (SchemaHelper_updateIRI schema) schema,
             xlsxResult)
        end
  end.

(** The body of the loop of [parse].  The message id of a sheet is the
    text of its tool-id cell or, without a tool-id row, [undefined]
    ([ofText]). *)
Definition parseWorksheet (xlsxResult : XlsxResult.t)
    (worksheet : Worksheet.t) : XlsxResult.t :=
  let '(schema, xlsxResult) := parseSheet worksheet xlsxResult in
  match Schema.category schema with
  | TOOL =>
      XlsxResult.addTool worksheet (Schema.name schema)
        (ofText (Schema.messageId schema)) xlsxResult
  | POLICY =>
      XlsxResult.addSchema worksheet (Schema.name schema) schema xlsxResult
  end.

(** The loop of [parse] from the [k]-th worksheet on: the exception
    that leaves it, if any, and the result as it is then.  Of what a
    turn calls, [new Schema()], the first statement of [parseSheet],
    stands before the [try] block of [parseSheet]: what the constructor
    throws leaves [parseSheet] and the loop, with the result as the
    turns before left it.  [construct k] is what the constructor throws
    at its call for the [k]-th worksheet, if it throws. *)
Fixpoint parseWorksheets (construct : nat → option Exn) (k : nat)
    (worksheets : list Worksheet.t) (xlsxResult : XlsxResult.t)
  : option Exn * XlsxResult.t :=
  match worksheets with
  | [] => (None, xlsxResult)
  | worksheet :: worksheets =>
      match construct k with
      | Some error => (Some error, xlsxResult)
      | None =>
          parseWorksheets construct (S k) worksheets
            (parseWorksheet xlsxResult worksheet)
      end
  end.

(** The [try] block of [parse]: the workbook is read, then the
    worksheets are parsed in turn into a new result. *)
Definition parseTry (construct : nat → option Exn) (buffer : Buffer)
  : option Exn * XlsxResult.t :=
  let xlsxResult := XlsxResult.new in
  match Workbook_read buffer with
  | inl error => (Some error, xlsxResult)
  | inr worksheets => parseWorksheets construct 0 worksheets xlsxResult
  end.

(** The [catch] clause of [parse], on the result as the exception found
    it. *)
Definition parseCatch (error : Exn) (xlsxResult : XlsxResult.t)
  : XlsxResult.t :=
  let xlsxResult :=
    XlsxResult.addError (XlsxResult.parseFileError error) xlsxResult in
  XlsxResult.clear xlsxResult.

(** [parse], whatever the constructor of [Schema] does: the promise it
    returns, resolved ([inr]) or rejected ([inl]). *)
Definition parseWith (construct : nat → option Exn) (buffer : Buffer)
  : Throws XlsxResult.t :=
  inr
    (match parseTry construct buffer with
     | (Some error, xlsxResult) => parseCatch error xlsxResult
     | (None, xlsxResult) => xlsxResult
     end).

(** [parse] when the constructor of [Schema] returns at every call: the
    workbook reader is then the statement of the [try] block that can
    throw, before any worksheet is parsed. *)
Definition parse (buffer : Buffer) : Throws XlsxResult.t :=
  parseWith (λ _, None) buffer.

End with_collaborators.
End XlsxToJson.

(** ** A header table *)

Module HeaderTable.
(** Modelled from the spec: class Table is not among the sources.  It is
    a "mapping from a fixed vocabulary of header labels to discovered
    (row) or (column) coordinates". *)
Record t := mk {
  start : Addr.t;
  finish : Addr.t;
  rows : gmap string Z;
  cols : gmap string Z
}.

Section with_dictionary.
Context `{Dictionary.t}.

(** Modelled from the spec: the vocabulary, "schema name, description,
    type, tool reference, tool-reference-id" for the rows and
    "field-type, question, answer, required, allow-multiple, parameter,
    visibility" for the columns.  The parameter and visibility columns
    are the ones that are not required here. *)
Definition schemaHeaders : list string :=
  [Dictionary.SCHEMA_NAME; Dictionary.SCHEMA_DESCRIPTION;
   Dictionary.SCHEMA_TYPE; Dictionary.SCHEMA_TOOL;
   Dictionary.SCHEMA_TOOL_ID].

Definition fieldHeaders : list (string * bool) :=
  [(Dictionary.REQUIRED_FIELD, true); (Dictionary.FIELD_TYPE, true);
   (Dictionary.PARAMETER, false); (Dictionary.VISIBILITY, false);
   (Dictionary.QUESTION, true); (Dictionary.ALLOW_MULTIPLE_ANSWERS, true);
   (Dictionary.ANSWER, true)].

(** Modelled from the spec: a cell is a header when its text is a label
    of the vocabulary, and a name when it is any other text. *)
Definition isSchemaHeader (table : t) (title : option string) : bool :=
  match title with
  | Some s => bool_decide (s ∈ schemaHeaders)
  | None => false
  end.

Definition isFieldHeader (table : t) (title : option string) : bool :=
  match title with
  | Some s => bool_decide (s ∈ fieldHeaders.*1)
  | None => false
  end.

Definition isName (table : t) (title : option string) : bool :=
  text_truthy title
  && negb (isSchemaHeader table title)
  && negb (isFieldHeader table title).

(** Modelled from the spec: the coordinates found for a label. *)
Definition setRow (title : option string) (row : Z) (table : t) : t :=
  match title with
  | Some s =>
      if isSchemaHeader table title
      then mk (start table) (finish table) (<[s := row]> (rows table))
             (cols table)
      else table
  | None => table
  end.

Definition setCol (title : option string) (col : Z) (table : t) : t :=
  match title with
  | Some s =>
      if isFieldHeader table title
      then mk (start table) (finish table) (rows table)
             (<[s := col]> (cols table))
      else table
  | None => table
  end.

Definition setEnd (col row : Z) (table : t) : t :=
  mk (start table) (Addr.mk col row) (rows table) (cols table).

(** Modelled from the spec: "column/row lookups for unknown labels
    return a sentinel invalid index (-1)". *)
Definition getRow (label : string) (table : t) : Z :=
  default (-1)%Z (rows table !! label).

Definition getCol (label : string) (table : t) : Z :=
  default (-1)%Z (cols table !! label).

(** Modelled from the spec: "[getErrorHeader()] returns the first
    required-but-unset header, if any". *)
Definition getErrorHeader (table : t) : option ITableHeader.t :=
  ITableHeader.mk ∘ fst
    <$> find (λ h, h.2 && bool_decide (cols table !! h.1 = None))
          fieldHeaders.

#[global] Instance ops : Table.Ops t := {
  Table.new start := mk start start ∅ ∅;
  Table.isName := isName;
  Table.isSchemaHeader := isSchemaHeader;
  Table.isFieldHeader := isFieldHeader;
  Table.setRow := setRow;
  Table.setCol := setCol;
  Table.setEnd := setEnd;
  Table.getErrorHeader := getErrorHeader;
  Table.getRow := getRow;
  Table.getCol := getCol;
  Table.tend := finish
}.

End with_dictionary.
End HeaderTable.

(** ** A workbook to run the compiler on

    Labels, registry entries, converters and sheets for the examples
    below.  The converters are stand-ins of the right type; the
    expression parser is the table of the trees mathjs builds for the
    formulas that occur in the sheets. *)
Module Sample.

Definition labels : Dictionary.t :=
  Dictionary.mk "Schema" "Description" "Schema Type" "Tool" "Tool Id"
    "Required Field" "Field Type" "Parameter" "Visibility" "Question"
    "Allow Multiple Answers" "Answer" "Auto-Calculate".

Definition registry : list IFieldTypes.t :=
  [IFieldTypes.mk "String" (VStr "string") VUndef VUndef VUndef VUndef
     VUndef VUndef (VBool false);
   IFieldTypes.mk "Number" (VStr "number") VUndef VUndef VUndef VUndef
     VUndef VUndef (VBool false);
   IFieldTypes.mk "Prefix" (VStr "number") VUndef VUndef VUndef
     (VStr "prefix") VUndef VUndef (VBool false);
   IFieldTypes.mk "Postfix" (VStr "number") VUndef VUndef VUndef
     (VStr "postfix") VUndef VUndef (VBool false);
   IFieldTypes.mk "Enum" (VStr "string") VUndef VUndef VUndef VUndef
     (VStr "enum") VUndef (VBool false);
   IFieldTypes.mk "Help Text" (VStr "null") VUndef VUndef VUndef VUndef
     VUndef VUndef (VBool false);
   IFieldTypes.mk "GeoJSON" (VStr "#GeoJSON") VUndef VUndef VUndef VUndef
     (VStr "geo") VUndef (VBool true)].

Definition findByName (name : option string) : option IFieldTypes.t :=
  match name with
  | Some s => find (λ entry, String.eqb (IFieldTypes.name entry) s) registry
  | None => None
  end.

Definition toBoolean (text : option string) : bool :=
  bool_decide (text ∈ [Some "Yes"; Some "yes"; Some "TRUE"; Some "true"]).

Definition toArray (text : option string) (isArray : bool) : list string :=
  match text with
  | Some s => [s]
  | None => []
  end.

Definition toEntity (text : option string) : JsVal :=
  if bool_decide (text ∈ [Some "VC"; Some "EVC"]) then ofText text
  else VNull.

Definition toUnit (format : option string) : JsVal := ofText format.

Definition toFont (source : FontSource) : Font.t :=
  match source with
  | OfStyle style =>
      Font.mk (VBool (Style.bold style)) (ofText (Style.color style))
        (from_option VNum VUndef (Style.size style))
  | OfText text => Font.mk (VBool false) (VStr text) VUndef
  end.

Definition quoted (s : string) : string := DQUOTE +:+ s +:+ DQUOTE.

(** EXACT(G5,"X"), NOT(EXACT(G5,"X")), EXACT("X",G5) and
    NOT(EXACT("X",G5)) as they are written in a cell. *)
Definition exactG5X : string := "EXACT(G5," +:+ quoted "X" +:+ ")".
Definition notExactG5X : string := "NOT(" +:+ exactG5X +:+ ")".
Definition exactXG5 : string := "EXACT(" +:+ quoted "X" +:+ ",G5)".
Definition notExactXG5 : string := "NOT(" +:+ exactXG5 +:+ ")".

Definition parseFormula (formulae : string) : Throws MathNode :=
  if String.eqb formulae exactG5X then
    inr (call "EXACT" [SymbolNode "G5"; ConstantNode (VStr "X")])
  else if String.eqb formulae notExactG5X then
    inr (call "NOT"
           [call "EXACT" [SymbolNode "G5"; ConstantNode (VStr "X")]])
  else if String.eqb formulae exactXG5 then
    inr (call "EXACT" [ConstantNode (VStr "X"); SymbolNode "G5"])
  else if String.eqb formulae notExactXG5 then
    inr (call "NOT"
           [call "EXACT" [ConstantNode (VStr "X"); SymbolNode "G5"]])
  else if String.eqb formulae "G5" then inr (SymbolNode "G5")
  else inl (Error ("SyntaxError: " +:+ formulae)).

(** Cells. *)
Definition plain : Style.t := Style.mk false None None.

Definition blank : Cell.t :=
  Cell.mk false "" false None None None None plain.

Definition text (s : string) : Cell.t :=
  Cell.mk false "" true (Some s) None None None plain.

Definition formula (s : string) : Cell.t :=
  Cell.mk true s false None None None None plain.

Definition linked (s worksheet : string) : Cell.t :=
  Cell.mk false "" true (Some s) (Some (Hyperlink.mk (Some worksheet)))
    None None plain.

Definition formatted (s format : string) : Cell.t :=
  Cell.mk false "" true (Some s) None (Some format) None plain.

Definition validated (s : string) (list : list string) : Cell.t :=
  Cell.mk false "" true (Some s) None None (Some list) plain.

(** A worksheet over rows of cells; the range ends one past the last
    row and the last column, and a path is a column letter and a row
    number, as in G5. *)
Definition cellAt (grid : list (list Cell.t)) (col row : Z) : Cell.t :=
  if (col <? 0)%Z || (row <? 0)%Z then blank
  else
    default blank
      (grid !! Z.to_nat row ≫= λ cells, cells !! Z.to_nat col).

Definition path (col row : Z) : string :=
  String (Ascii.ascii_of_nat (65 + Z.to_nat col)) (pretty (row + 1)%Z).

Definition sheet (name : string) (width : Z) (grid : list (list Cell.t))
  : Worksheet.t :=
  Worksheet.mk name
    (Range.mk (Addr.mk 0 0) (Addr.mk width (Z.of_nat (length grid))))
    (λ col row, Cell.getValue (cellAt grid col row))
    path
    (λ col row, name +:+ "!" +:+ path col row)
    (cellAt grid)
    (λ col, (col <? 0)%Z || (width <=? col)%Z).

Definition headerRow : list Cell.t :=
  [text "Required Field"; text "Field Type"; text "Parameter";
   text "Visibility"; text "Question"; text "Allow Multiple Answers";
   text "Answer"].

(** A sheet with three fields, two of them shown or hidden by the
    answer to the first, then a prefix and an enumeration with their
    parameters, a row without a type, a reference to a worksheet that
    does not exist and a reference to one that does. *)
Definition sensor : Worksheet.t :=
  sheet "Sensor" 7
    [[text "Sensor"];
     [text "Description"; text "Readings of a sensor"];
     [text "Schema Type"; text "VC"];
     headerRow;
     [text "Yes"; text "String"; blank; blank; text "A"; text "No";
      text "X"];
     [text "No"; text "String"; blank; formula exactG5X; text "B";
      text "No"; blank];
     [text "No"; text "String"; blank; formula notExactG5X; text "C";
      text "No"; blank];
     [text "No"; text "Prefix"; text "kg"; blank; text "Weight";
      text "No"; formatted "1" "$#"];
     [text "No"; text "Enum"; text ("Low" +:+ String LF "Medium"
                                      +:+ String CR (String LF "High"));
      blank; text "Level"; text "No"; validated "Low" ["a"; "b"]];
     [text "Yes"; blank; blank; blank; text "Notes"; text "Yes";
      text "n/a"];
     [text "No"; linked "Site" "Ghost"; blank; blank; text "Site";
      text "No"; blank];
     [text "No"; linked "Place" "Place"; blank; blank; text "Place";
      text "No"; blank]].

(** A sheet the last row of [sensor] refers to. *)
Definition place : Worksheet.t :=
  sheet "Place" 7
    [[text "Place"];
     headerRow;
     [text "Yes"; text "String"; blank; blank; text "Town"; text "No";
      text "Porto"]].

(** The header row lacks the answer column. *)
Definition headless : Worksheet.t :=
  sheet "Headless" 7
    [[text "Headless"];
     [text "Required Field"; text "Field Type"; text "Parameter";
      text "Visibility"; text "Question"; text "Allow Multiple Answers"];
     [text "Yes"; text "String"; blank; blank; text "A"; text "No"]].

(** A tool reference, with field rows that are not to be read. *)
Definition co2tool : Worksheet.t :=
  sheet "CO2" 7
    [[text "CO2 readings"];
     [text "Tool"; text "CO2Tool"];
     [text "Tool Id"; text "0.0.555"];
     headerRow;
     [text "Yes"; text "Unknown"; blank; blank; text "A"; text "No";
      text "X"];
     [text "Yes"; blank; blank; blank; text "B"; text "No"; blank]].

(** A tool reference on a sheet without a header row. *)
Definition bareTool : Worksheet.t :=
  sheet "Bare" 7
    [[text "CO2 readings"];
     [text "Tool"; text "CO2Tool"];
     [text "Tool Id"; text "0.0.555"]].

(** The reader fails on an empty buffer and finds the sheets above in
    any other. *)
Definition readWorkbook (buffer : Buffer) : Throws (list Worksheet.t) :=
  match buffer with
  | [] => inl (Error "End of data reached (data length = 0)")
  | _ => inr [sensor; place; headless; co2tool]
  end.

#[global] Instance collaborators : Collaborators := {
  dictionary := labels;
  FieldTypes_findByName := findByName;
  xlsxToBoolean := toBoolean;
  xlsxToArray := toArray;
  xlsxToEntity := toEntity;
  xlsxToUnit := toUnit;
  xlsxToFont := toFont;
  mathjs_parse := parseFormula;
  Workbook_read := readWorkbook;
  Schema_buildDocument := λ _, inr ();
  Schema_updateRefs := λ _ _, inr ();
  SchemaHelper_updateIRI := λ schema, Some ("#" +:+ textStr (Schema.name schema))
}.

(** The header table of a sheet when its field rows are read. *)
Definition tableOf (worksheet : Worksheet.t) : HeaderTable.t :=
  Table.setEnd (Addr.c (Range.e (Worksheet.getRange worksheet)))
    (XlsxToJson.scanHeaders worksheet).1
    (XlsxToJson.scanHeaders worksheet).2.

Definition prefix : IFieldTypes.t :=
  IFieldTypes.mk "Prefix" (VStr "number") VUndef VUndef VUndef
    (VStr "prefix") VUndef VUndef (VBool false).

Definition geoField : SchemaField.t :=
  SchemaField.set_isRef (VBool true)
    (SchemaField.set_type (VStr "#GeoJSON") XlsxToJson.emptyField).

(** The bytes PK, and the result of [parse] on them. *)
Definition workbook : Buffer := [Byte.x50; Byte.x4b].

Definition parsed : XlsxResult.t :=
  match XlsxToJson.parse (T := HeaderTable.t) workbook with
  | inr xlsxResult => xlsxResult
  | inl _ => XlsxResult.new
  end.

(** The schema of [sensor] in that result, with its two references. *)
Definition sensorSchema : Schema.t :=
  default Schema.new (XlsxResult._schemas parsed !! 0).

Definition siteField : SchemaField.t :=
  default XlsxToJson.emptyField (Schema.fields sensorSchema !! 6).

Definition placeField : SchemaField.t :=
  default XlsxToJson.emptyField (Schema.fields sensorSchema !! 7).

(** The same after the final pass. *)
Definition resolvedSensor : Schema.t :=
  default Schema.new
    (XlsxResult._schemas (XlsxResult.updateSchemas parsed) !! 0).

Definition resolvedSite : SchemaField.t :=
  default XlsxToJson.emptyField (Schema.fields resolvedSensor !! 6).

Definition resolvedPlace : SchemaField.t :=
  default XlsxToJson.emptyField (Schema.fields resolvedSensor !! 7).

End Sample.

(** ** Vocabulary of further properties *)

(** The id [addLink] mints when the link cache holds [k] links. *)
Definition linkId (k : nat) : string := "link_" +:+ pretty k.

(** The link cache holds the ids it minted and no other id of that
    form: the ids of a cache that only [addLink] has written to. *)
Definition denseLinks (links : gmap string ILink.t) : Prop :=
  ∀ k, is_Some (links !! linkId k) ↔ k < size links.

(** The worksheet of a hyperlink, [null] without a hyperlink. *)
Definition linkedWorksheet (hyperlink : option Hyperlink.t) : option string :=
  match hyperlink with
  | Some h => Hyperlink.worksheet h
  | None => None
  end.

(** [tree] under [n] calls of NOT. *)
Fixpoint nots (n : nat) (tree : MathNode) : MathNode :=
  match n with
  | O => tree
  | S n => call "NOT" [nots n tree]
  end.

(** The trees [parsFn] accepts, with what it makes of them. *)
Inductive Accepted : MathNode → bool → ParsedNode.t → Prop :=
| accepted_reference_first fn name value invert :
    MathNode_name fn = VStr "EXACT" →
    Accepted (FunctionNode fn [SymbolNode name; ConstantNode value]) invert
      (ParsedNode.mk (VStr name) value invert)
| accepted_literal_first fn name value invert :
    MathNode_name fn = VStr "EXACT" →
    Accepted (FunctionNode fn [ConstantNode value; SymbolNode name]) invert
      (ParsedNode.mk value (VStr name) invert)
| accepted_not fn arg invert node :
    MathNode_name fn = VStr "NOT" →
    Accepted arg true node →
    Accepted (FunctionNode fn [arg]) invert node.

(** Whether a character occurs in a text, and whether a text ends with
    a carriage return. *)
Fixpoint hasChar (c : Ascii.ascii) (s : string) : bool :=
  match s with
  | EmptyString => false
  | String c' rest => Ascii.eqb c' c || hasChar c rest
  end.

Fixpoint endsWithCR (s : string) : bool :=
  match s with
  | EmptyString => false
  | String c EmptyString => Ascii.eqb c CR
  | String _ rest => endsWithCR rest
  end.

(** A line that [splitLines] gives back as it is: without a line feed
    and without a carriage return at its end. *)
Definition plainLine (s : string) : bool :=
  negb (hasChar LF s) && negb (endsWithCR s).

(** Every entry of the field cache points at a field of that name. *)
Definition cacheOk (fields : list SchemaField.t)
    (fieldCache : gmap string nat) : Prop :=
  ∀ name i,
    fieldCache !! name = Some i →
    ∃ field, fields !! i = Some field ∧ SchemaField.name field = name.

(** What the final pass may change of a field: its type and its
    errors. *)
Definition retyped (field field' : SchemaField.t) : Prop :=
  ∃ type errors,
    field'
    = SchemaField.set_type type (SchemaField.set_errors errors field).

(** What a sheet parse leaves of the result it is given: the schemas,
    the tools and the registrations as they are, the errors as a prefix
    of the new ones, and, in a link cache that only [addLink] has
    written to, every link. *)
Definition keeps (this this' : XlsxResult.t) : Prop :=
  XlsxResult._schemas this' = XlsxResult._schemas this
  ∧ XlsxResult._tools this' = XlsxResult._tools this
  ∧ XlsxResult._toolsCache this' = XlsxResult._toolsCache this
  ∧ XlsxResult._schemaWorksheetCache this'
    = XlsxResult._schemaWorksheetCache this
  ∧ XlsxResult._schemaNameCache this' = XlsxResult._schemaNameCache this
  ∧ XlsxResult._errors this `prefix_of` XlsxResult._errors this'
  ∧ (denseLinks (XlsxResult._linkCache this) →
     denseLinks (XlsxResult._linkCache this')
     ∧ XlsxResult._linkCache this ⊆ XlsxResult._linkCache this').

(** A condition over an array of [n] fields: its driving field and its
    dependents are fields of the array, none of them [undefined]. *)
Definition closedCondition (n : nat) (field : nat)
    (dependents : list (option nat * bool)) : Prop :=
  field < n ∧ Forall (λ d, ∃ i, d.1 = Some i ∧ i < n) dependents.

(** Collaborators like those of [Sample] whose document side throws. *)
(** The schemas of a result when the final pass updates the references
    of schema [k]: the fields of the schemas up to [k] have been
    resolved, those of the schemas after it not yet. *)
Definition resolvedUpTo (this : XlsxResult.t) (k : nat)
  : list Schema.t :=
  imap (λ (m : nat) schema,
          if bool_decide (m ≤ k)%nat
          then XlsxResult.resolvedSchema this schema
          else schema)
    (XlsxResult._schemas this).

(** A constructor of [Schema] that throws at its third call. *)
Definition thirdFails (k : nat) : option Exn :=
  if Nat.eqb k 2 then Some (Error "out of identifiers") else None.

Definition failing : Collaborators := {|
  dictionary := Sample.labels;
  FieldTypes_findByName := Sample.findByName;
  xlsxToBoolean := Sample.toBoolean;
  xlsxToArray := Sample.toArray;
  xlsxToEntity := Sample.toEntity;
  xlsxToUnit := Sample.toUnit;
  xlsxToFont := Sample.toFont;
  mathjs_parse := Sample.parseFormula;
  Workbook_read := Sample.readWorkbook;
  Schema_buildDocument := λ _, inl (TypeError "document");
  Schema_updateRefs := λ _ _, inl (TypeError "references");
  SchemaHelper_updateIRI :=
    λ schema, Some ("#" +:+ textStr (Schema.name schema))
|}.

(** A sheet with one row: an auto-calculated field that a plain value
    in the visibility column hides. *)
Definition computed : Worksheet.t :=
  Sample.sheet "Computed" 7
    [[Sample.text "Computed"];
     Sample.headerRow;
     [Sample.text "No"; Sample.text "Auto-Calculate"; Sample.blank;
      Sample.text "No"; Sample.text "Total"; Sample.text "No";
      Sample.text "42"]].

(** * Properties *)

(** ** The result aggregator *)

Lemma SchemaField_set_type_same (f : SchemaField.t) :
  SchemaField.set_type (SchemaField.type f) f = f.
Proof. by destruct f. Qed.

(** C9: [clear()] empties the schemas, the tools and the four caches and
    leaves the error list as it was: every error recorded before the
    call is still in the result [toJson()] serializes afterwards. *)
Theorem clear_keeps_errors (this : XlsxResult.t) :
  let cleared := XlsxResult.clear this in
  XlsxResult._schemas cleared = []
  ∧ XlsxResult._tools cleared = []
  ∧ XlsxResult._toolsCache cleared = []
  ∧ XlsxResult._schemaWorksheetCache cleared = ∅
  ∧ XlsxResult._schemaNameCache cleared = ∅
  ∧ XlsxResult._linkCache cleared = ∅
  ∧ XlsxResult._errors cleared = XlsxResult._errors this
  ∧ ResultJson.errors (XlsxResult.toJson cleared) = XlsxResult._errors this
  ∧ ResultJson.schemas (XlsxResult.toJson cleared) = []
  ∧ ResultJson.tools (XlsxResult.toJson cleared) = [].
Proof. destruct this; cbn. repeat split. Qed.

(** C10: a field whose type is '#GeoJSON' keeps that type in the final
    pass: [getSubSchema] returns it at once, whatever the caches hold,
    and neither the result nor the field receives an error. *)
Theorem geojson_resolves_immediately (field : SchemaField.t)
    (this : XlsxResult.t) :
  SchemaField.type field = VStr "#GeoJSON" →
  XlsxResult.getSubSchema field this = (VStr "#GeoJSON", field, this)
  ∧ XlsxResult.resolveField field this = (field, this).
Proof.
  intros Htype.
  assert (Hget : XlsxResult.getSubSchema field this
                 = (VStr "#GeoJSON", field, this)).
  { unfold XlsxResult.getSubSchema. by rewrite Htype. }
  split; [exact Hget|].
  unfold XlsxResult.resolveField. rewrite Hget.
  destruct (truthy (SchemaField.isRef field)); [|done].
  by rewrite <- Htype, SchemaField_set_type_same.
Qed.

Section final_pass.
Context `{Collaborators}.

(** The caches are read, never written, by the final pass: a lookup does
    not see the schemas or the errors of the result. *)
Lemma findIri_frame (type : JsVal) (this : XlsxResult.t) schemas errors :
  XlsxResult.findIri type
    (XlsxResult.set_errors errors (XlsxResult.set_schemas schemas this))
  = XlsxResult.findIri type this.
Proof. by destruct this. Qed.

Lemma resolveField_frame (field : SchemaField.t) (this : XlsxResult.t)
    schemas errors :
  XlsxResult.resolveField field
    (XlsxResult.set_errors errors (XlsxResult.set_schemas schemas this))
  = (XlsxResult.resolved this field,
     XlsxResult.set_errors (errors ++ XlsxResult.complaints this field)
       (XlsxResult.set_schemas schemas this)).
Proof.
  unfold XlsxResult.resolved, XlsxResult.complaints, XlsxResult.unresolved,
    XlsxResult.resolveField, XlsxResult.getSubSchema.
  destruct (truthy (SchemaField.isRef field)); cbn [andb].
  - destruct (strict_eq (SchemaField.type field) (VStr "#GeoJSON")); cbn.
    + by rewrite app_nil_r.
    + rewrite findIri_frame.
      destruct (XlsxResult.findIri (SchemaField.type field) this); cbn.
      * by rewrite app_nil_r.
      * by destruct this.
  - by rewrite app_nil_r.
Qed.

Lemma resolveFields_frame (fields : list SchemaField.t)
    (this : XlsxResult.t) schemas errors :
  XlsxResult.resolveFields fields
    (XlsxResult.set_errors errors (XlsxResult.set_schemas schemas this))
  = (map (XlsxResult.resolved this) fields,
     XlsxResult.set_errors
       (errors ++ (fields ≫= XlsxResult.complaints this))
       (XlsxResult.set_schemas schemas this)).
Proof.
  revert errors. induction fields as [|field fields IH]; intros errors; cbn.
  - by rewrite app_nil_r.
  - rewrite resolveField_frame, IH. by rewrite <- app_assoc.
Qed.

(** The schemas after the loop has handled positions [i] to [i + n - 1]. *)
Lemma updateSchemas_loop_spec (this : XlsxResult.t) :
  (∀ schema schemas, Schema_updateRefs schema schemas = inr ()) →
  ∀ n i schemas errors,
    XlsxResult.updateSchemas_loop n i
      (XlsxResult.set_errors errors (XlsxResult.set_schemas schemas this))
    = (None,
       XlsxResult.set_errors
         (errors
          ++ (take n (drop i schemas) ≫= XlsxResult.schemaComplaints this))
         (XlsxResult.set_schemas
            (imap (λ k schema,
               if bool_decide (i ≤ k < i + n)
               then XlsxResult.resolvedSchema this schema else schema)
               schemas)
            this)).
Proof.
  intros Hrefs. induction n as [|n IH]; intros i schemas errors.
  - cbn. rewrite app_nil_r. do 3 f_equal.
    apply list_eq; intros k. rewrite list_lookup_imap.
    destruct (schemas !! k); cbn; [|done]. case_bool_decide; [lia|done].
  - cbn [XlsxResult.updateSchemas_loop].
    assert (Hs : XlsxResult._schemas
              (XlsxResult.set_errors errors
                 (XlsxResult.set_schemas schemas this)) = schemas)
      by (by destruct this).
    rewrite Hs. destruct (schemas !! i) as [schema|] eqn:Hi.
    + rewrite resolveFields_frame.
      set (schema' := Schema.set_fields _ schema).
      set (errors' := errors ++ _).
      assert (Hset : ∀ l, XlsxResult.set_schemas l
                (XlsxResult.set_errors errors'
                   (XlsxResult.set_schemas schemas this))
              = XlsxResult.set_errors errors'
                  (XlsxResult.set_schemas l this))
        by (intros l; by destruct this).
      assert (Hs' : XlsxResult._schemas
                (XlsxResult.set_errors errors'
                   (XlsxResult.set_schemas schemas this)) = schemas)
        by (by destruct this).
      rewrite Hs', Hset. rewrite Hrefs. rewrite IH.
      f_equal. f_equal.
      * subst errors'. rewrite <- app_assoc. f_equal.
        rewrite (drop_S schemas schema i Hi). cbn. f_equal.
        rewrite drop_insert_lt by lia. done.
      * f_equal. apply list_eq; intros k. rewrite !list_lookup_imap.
        destruct (decide (k = i)) as [->|Hne].
        -- rewrite list_lookup_insert_eq by (by eapply lookup_lt_Some).
           rewrite Hi. cbn. rewrite !bool_decide_eq_false_2 by lia.
           rewrite bool_decide_eq_true_2 by lia. done.
        -- rewrite list_lookup_insert_ne by done.
           destruct (schemas !! k); cbn; [|done].
           f_equal. rewrite (bool_decide_ext (S i ≤ k < S i + n) (i ≤ k < i + S n)) by lia. done.
    + f_equal. rewrite drop_ge by (by apply lookup_ge_None).
      cbn. rewrite app_nil_r. do 2 f_equal.
      apply list_eq; intros k. rewrite list_lookup_imap.
      destruct (schemas !! k) eqn:Hk; cbn; [|done].
      apply lookup_ge_None in Hi. apply lookup_lt_Some in Hk.
      rewrite bool_decide_eq_false_2 by lia. done.
Qed.

Lemma schemas_after_set (this : XlsxResult.t) schemas errors :
  XlsxResult._schemas
    (XlsxResult.set_errors errors (XlsxResult.set_schemas schemas this))
  = schemas.
Proof. by destruct this. Qed.

Lemma errors_after_set (this : XlsxResult.t) errors :
  XlsxResult._errors (XlsxResult.set_errors errors this) = errors.
Proof. by destruct this. Qed.

Lemma updateSchemas_spec (this : XlsxResult.t) :
  (∀ schema schemas, Schema_updateRefs schema schemas = inr ()) →
  XlsxResult.updateSchemas this
  = XlsxResult.set_errors
      (XlsxResult._errors this
       ++ (XlsxResult._schemas this ≫= XlsxResult.schemaComplaints this))
      (XlsxResult.set_schemas
         (map (XlsxResult.resolvedSchema this) (XlsxResult._schemas this))
         this).
Proof.
  intros Hrefs. unfold XlsxResult.updateSchemas.
  assert (Hthis : this = XlsxResult.set_errors (XlsxResult._errors this)
            (XlsxResult.set_schemas (XlsxResult._schemas this) this))
    by (by destruct this).
  rewrite Hthis at 2. rewrite updateSchemas_loop_spec by done.
  rewrite drop_0, firstn_all. do 3 f_equal.
  apply list_eq; intros k. rewrite list_lookup_imap, list_lookup_fmap.
  destruct (XlsxResult._schemas this !! k) eqn:Hk; cbn; [|done].
  apply lookup_lt_Some in Hk. rewrite bool_decide_eq_true_2 by lia. done.
Qed.

Lemma resolved_not_a_reference (this : XlsxResult.t) (field : SchemaField.t) :
  truthy (SchemaField.isRef field) = false →
  XlsxResult.resolved this field = field.
Proof.
  intros Href. unfold XlsxResult.resolved, XlsxResult.resolveField.
  by rewrite Href.
Qed.

Lemma resolved_found (this : XlsxResult.t) (field : SchemaField.t) iri :
  truthy (SchemaField.isRef field) = true →
  SchemaField.type field ≠ VStr "#GeoJSON" →
  XlsxResult.findIri (SchemaField.type field) this = Some iri →
  XlsxResult.resolved this field = SchemaField.set_type (VStr iri) field.
Proof.
  intros Href Hgeo Hiri.
  unfold XlsxResult.resolved, XlsxResult.resolveField, XlsxResult.getSubSchema.
  rewrite Href. unfold strict_eq. rewrite bool_decide_eq_false_2 by done.
  by rewrite Hiri.
Qed.

Lemma resolved_not_found (this : XlsxResult.t) (field : SchemaField.t) :
  truthy (SchemaField.isRef field) = true →
  SchemaField.type field ≠ VStr "#GeoJSON" →
  XlsxResult.findIri (SchemaField.type field) this = None →
  XlsxResult.resolved this field
  = SchemaField.set_type VUndef
      (SchemaField.set_type VNull
         (SchemaField.addError
            (XlsxResult.subSchemaError (SchemaField.type field)) field))
  ∧ XlsxResult.complaints this field
    = [XlsxResult.subSchemaError (SchemaField.type field)].
Proof.
  intros Href Hgeo Hiri.
  unfold XlsxResult.resolved, XlsxResult.complaints, XlsxResult.unresolved,
    XlsxResult.resolveField, XlsxResult.getSubSchema.
  rewrite Href. unfold strict_eq. rewrite bool_decide_eq_false_2 by done.
  rewrite Hiri. cbn. done.
Qed.

(** Whatever happens in it, the loop from position [i] on leaves the
    schemas before [i] alone and only appends to the errors. *)
Lemma updateSchemas_loop_below (this : XlsxResult.t) :
  ∀ (n i : nat) (schemas : list Schema.t) (errors : list XlsxError.t),
    ∃ thrown schemas' errors',
      XlsxResult.updateSchemas_loop n i
        (XlsxResult.set_errors errors (XlsxResult.set_schemas schemas this))
      = (thrown,
         XlsxResult.set_errors errors'
           (XlsxResult.set_schemas schemas' this))
      ∧ errors `prefix_of` errors'
      ∧ ∀ k : nat, (k < i)%nat → schemas' !! k = schemas !! k.
Proof.
  induction n as [|n IH]; intros i schemas errors.
  - exists None, schemas, errors. cbn. done.
  - cbn [XlsxResult.updateSchemas_loop]. rewrite schemas_after_set.
    destruct (schemas !! i) as [schema|] eqn:Hi;
      [|by exists None, schemas, errors].
    rewrite resolveFields_frame.
    set (schema' := Schema.set_fields _ schema).
    set (errors1 := errors ++ _).
    assert (Hset : ∀ l, XlsxResult.set_schemas l
              (XlsxResult.set_errors errors1
                 (XlsxResult.set_schemas schemas this))
            = XlsxResult.set_errors errors1
                (XlsxResult.set_schemas l this))
      by (intros l; by destruct this).
    rewrite schemas_after_set, Hset, schemas_after_set.
    destruct (Schema_updateRefs _ _).
    + eexists _, _, _. split; [reflexivity|]. split.
      * by apply prefix_app_r.
      * intros k Hk. apply list_lookup_insert_ne. lia.
    + destruct (IH (S i) (<[i:=schema']> schemas) errors1)
        as (thrown & schemas' & errors' & -> & Hprefix & Hbelow).
      exists thrown, schemas', errors'. split; [done|]. split.
      * etrans; [|exact Hprefix]. by apply prefix_app_r.
      * intros k Hk. rewrite Hbelow by lia.
        apply list_lookup_insert_ne. lia.
Qed.

(** The loop reaches the schema at position [i] when the reference
    update of no schema before it throws: its fields are resolved then,
    whatever its own reference update and the rest of the loop do. *)
Lemma updateSchemas_loop_reaches (this : XlsxResult.t) (i : nat)
    (schema : Schema.t) :
  ∀ (n i0 : nat) (schemas : list Schema.t) (errors : list XlsxError.t),
    (i0 ≤ i)%nat → (i < i0 + n)%nat →
    schemas !! i = Some schema →
    (∀ (k : nat) earlier,
       (i0 ≤ k)%nat → (k < i)%nat → schemas !! k = Some earlier →
       Schema_updateRefs (XlsxResult.resolvedSchema this earlier)
         (imap (λ (m : nat) s,
                  if bool_decide (i0 ≤ m ≤ k)%nat
                  then XlsxResult.resolvedSchema this s else s) schemas)
       = inr ()) →
    ∃ thrown schemas' errors',
      XlsxResult.updateSchemas_loop n i0
        (XlsxResult.set_errors errors (XlsxResult.set_schemas schemas this))
      = (thrown,
         XlsxResult.set_errors errors'
           (XlsxResult.set_schemas schemas' this))
      ∧ schemas' !! i = Some (XlsxResult.resolvedSchema this schema)
      ∧ ∀ e, e ∈ XlsxResult.schemaComplaints this schema → e ∈ errors'.
Proof.
  induction n as [|n IH]; intros i0 schemas errors Hle Hlt Hi Hrefs; [lia|].
  cbn [XlsxResult.updateSchemas_loop]. rewrite schemas_after_set.
  assert (Hsome : is_Some (schemas !! i0)).
  { apply lookup_lt_is_Some. apply lookup_lt_Some in Hi. lia. }
  destruct Hsome as [schema0 Hi0]. rewrite Hi0.
  rewrite resolveFields_frame.
  fold (XlsxResult.resolvedSchema this schema0).
  fold (XlsxResult.schemaComplaints this schema0).
  set (errors1 := errors ++ _).
  assert (Hset : ∀ l, XlsxResult.set_schemas l
            (XlsxResult.set_errors errors1
               (XlsxResult.set_schemas schemas this))
          = XlsxResult.set_errors errors1
              (XlsxResult.set_schemas l this))
    by (intros l; by destruct this).
  rewrite schemas_after_set, Hset, schemas_after_set.
  destruct (decide (i0 = i)) as [->|Hne].
  - assert (schema0 = schema) as -> by congruence.
    assert (Hhere :
      <[i:=XlsxResult.resolvedSchema this schema]> schemas !! i
      = Some (XlsxResult.resolvedSchema this schema)).
    { apply list_lookup_insert_eq. by eapply lookup_lt_Some. }
    assert (Hin : ∀ e,
      e ∈ XlsxResult.schemaComplaints this schema → e ∈ errors1).
    { intros e He. apply elem_of_app. by right. }
    destruct (Schema_updateRefs _ _).
    + eexists _, _, _. split; [reflexivity|]. done.
    + destruct (updateSchemas_loop_below this n (S i)
                  (<[i:=XlsxResult.resolvedSchema this schema]> schemas)
                  errors1)
        as (thrown & schemas' & errors' & -> & Hprefix & Hbelow).
      exists thrown, schemas', errors'. split; [done|]. split.
      * rewrite Hbelow by lia. exact Hhere.
      * intros e He. eapply elem_of_prefix; [|exact Hprefix]. by apply Hin.
  - assert (Hnow :
      imap (λ (m : nat) s,
              if bool_decide (i0 ≤ m ≤ i0)%nat
              then XlsxResult.resolvedSchema this s else s) schemas
      = <[i0:=XlsxResult.resolvedSchema this schema0]> schemas).
    { apply list_eq; intros m. rewrite list_lookup_imap.
      destruct (decide (m = i0)) as [->|Hm].
      - rewrite list_lookup_insert_eq by (by eapply lookup_lt_Some).
        rewrite Hi0. cbn. by rewrite bool_decide_eq_true_2 by lia.
      - rewrite list_lookup_insert_ne by done.
        destruct (schemas !! m); cbn; [|done].
        by rewrite bool_decide_eq_false_2 by lia. }
    rewrite <- Hnow, (Hrefs i0 schema0) by (done || lia). rewrite Hnow.
    destruct (IH (S i0)
                (<[i0:=XlsxResult.resolvedSchema this schema0]> schemas)
                errors1)
      as (thrown & schemas' & errors' & -> & Hthere & Hin);
      [lia|lia| | |by eauto 10].
    + rewrite list_lookup_insert_ne by done. exact Hi.
    + intros k earlier Hk1 Hk2 Hearlier.
      rewrite list_lookup_insert_ne in Hearlier by lia.
      rewrite <- (Hrefs k earlier) by (done || lia). f_equal.
      apply list_eq; intros m. rewrite !list_lookup_imap.
      destruct (decide (m = i0)) as [->|Hm].
      * rewrite list_lookup_insert_eq by (by eapply lookup_lt_Some).
        rewrite Hi0. cbn. rewrite bool_decide_eq_false_2 by lia.
        by rewrite bool_decide_eq_true_2 by lia.
      * rewrite list_lookup_insert_ne by done.
        destruct (schemas !! m); cbn; [|done].
        by rewrite (bool_decide_ext (S i0 ≤ m ≤ k)%nat (i0 ≤ m ≤ k)%nat) by lia.
Qed.

(** C3, as the code has it by design: a reference-typed field (other
    than a '#GeoJSON' one) whose link leads to no cache entry with an
    IRI gets the "Sub-schema (..) not found." error, on the field and
    in the result, once the pass reaches its schema, that is when the
    reference update of no earlier schema throws.  The other fields of
    the schema are resolved on their own: one that is not
    reference-typed stays as it was, one whose link leads to an IRI
    takes that IRI as its type. *)
Theorem unresolved_reference_degrades (this : XlsxResult.t) (i j : nat)
    (schema : Schema.t) (field : SchemaField.t) :
  (∀ (k : nat) earlier,
     (k < i)%nat → XlsxResult._schemas this !! k = Some earlier →
     Schema_updateRefs (XlsxResult.resolvedSchema this earlier)
       (resolvedUpTo this k) = inr ()) →
  XlsxResult._schemas this !! i = Some schema →
  Schema.fields schema !! j = Some field →
  truthy (SchemaField.isRef field) = true →
  SchemaField.type field ≠ VStr "#GeoJSON" →
  XlsxResult.findIri (SchemaField.type field) this = None →
  let error := XlsxResult.subSchemaError (SchemaField.type field) in
  let this' := XlsxResult.updateSchemas this in
  ∃ schema' field',
    XlsxResult._schemas this' !! i = Some schema'
    ∧ Schema.fields schema' !! j = Some field'
    ∧ SchemaField.errors field' = push_error error (SchemaField.errors field)
    ∧ error ∈ XlsxResult._errors this'
    ∧ ∀ k sibling,
        k ≠ j →
        Schema.fields schema !! k = Some sibling →
        ∃ sibling',
          Schema.fields schema' !! k = Some sibling'
          ∧ (truthy (SchemaField.isRef sibling) = false → sibling' = sibling)
          ∧ (∀ iri,
               truthy (SchemaField.isRef sibling) = true →
               SchemaField.type sibling ≠ VStr "#GeoJSON" →
               XlsxResult.findIri (SchemaField.type sibling) this = Some iri →
               sibling' = SchemaField.set_type (VStr iri) sibling).
Proof.
  intros Hrefs Hschema Hfield Href Hgeo Hiri error this'.
  destruct (resolved_not_found this field Href Hgeo Hiri) as [Hres Hcompl].
  exists (XlsxResult.resolvedSchema this schema),
    (XlsxResult.resolved this field).
  assert (Hfields : ∀ k,
    Schema.fields (XlsxResult.resolvedSchema this schema) !! k
    = XlsxResult.resolved this <$> Schema.fields schema !! k).
  { intros k. unfold XlsxResult.resolvedSchema.
    destruct schema; cbn. apply list_lookup_fmap. }
  assert (Hcomplaint : error ∈ XlsxResult.schemaComplaints this schema).
  { apply list_elem_of_bind. exists field. split.
    - rewrite Hcompl. by apply list_elem_of_singleton.
    - by eapply list_elem_of_lookup_2. }
  assert (Hpass :
    XlsxResult._schemas this' !! i
    = Some (XlsxResult.resolvedSchema this schema)
    ∧ error ∈ XlsxResult._errors this').
  { subst this'. unfold XlsxResult.updateSchemas.
    assert (Hthis : this = XlsxResult.set_errors (XlsxResult._errors this)
              (XlsxResult.set_schemas (XlsxResult._schemas this) this))
      by (by destruct this).
    destruct (updateSchemas_loop_reaches this i schema
                (length (XlsxResult._schemas this)) 0
                (XlsxResult._schemas this) (XlsxResult._errors this))
      as (thrown & schemas' & errors' & Hloop & Hthere & Hin).
    - lia.
    - apply lookup_lt_Some in Hschema. lia.
    - exact Hschema.
    - intros k earlier _ Hk Hearlier.
      rewrite <- (Hrefs k earlier Hk Hearlier). f_equal.
      unfold resolvedUpTo. apply imap_ext. intros m s _. cbn.
      by rewrite (bool_decide_ext (0 ≤ m ≤ k)%nat (m ≤ k)%nat) by lia.
    - rewrite <- Hthis in Hloop. rewrite Hloop.
      destruct thrown as [thrown|].
      + destruct this; cbn. split; [exact Hthere|].
        apply elem_of_app. left. by apply Hin.
      + rewrite schemas_after_set, errors_after_set. split; [done|].
        by apply Hin. }
  destruct Hpass as [Hthere Herror].
  split_and!.
  - exact Hthere.
  - by rewrite Hfields, Hfield.
  - rewrite Hres. by destruct field.
  - exact Herror.
  - intros k sibling _ Hsibling.
    exists (XlsxResult.resolved this sibling). split; [|split].
    + by rewrite Hfields, Hsibling.
    + apply resolved_not_a_reference.
    + intros iri. apply resolved_found.
Qed.

End final_pass.

(** The example: the reference of [sensor] to the worksheet Ghost. *)
Lemma unresolved_reference_witness :
  XlsxResult.findIri (SchemaField.type Sample.siteField) Sample.parsed = None
  ∧ ∃ field',
      Schema.fields Sample.resolvedSensor !! 6 = Some field'
      ∧ SchemaField.errors field'
        = Some [XlsxResult.subSchemaError (VStr "link_0")]
      ∧ XlsxResult.subSchemaError (VStr "link_0")
        ∈ XlsxResult._errors (XlsxResult.updateSchemas Sample.parsed).
Proof.
  split; [vm_compute; reflexivity|].
  destruct (unresolved_reference_degrades Sample.parsed 0 6
              Sample.sensorSchema Sample.siteField)
    as (schema' & field' & Hschema & Hfield & Herrors & Hresult & _).
  - intros k earlier Hk. lia.
  - vm_compute; reflexivity.
  - vm_compute; reflexivity.
  - vm_compute; reflexivity.
  - vm_compute; discriminate.
  - vm_compute; reflexivity.
  - exists field'. split; [|split; [exact Herrors|exact Hresult]].
    assert (Hsame : Sample.resolvedSensor = schema').
    { unfold Sample.resolvedSensor. by rewrite Hschema. }
    by rewrite Hsame.
Defined.

(** C3, as it is stated, fails on the same example: after the final
    pass the type of the field that refers to Ghost is [undefined], not
    [null], and its sibling that refers to Place has not kept its
    type. *)
Lemma unresolved_reference_counterexample :
  XlsxResult._schemas Sample.parsed !! 0 = Some Sample.sensorSchema
  ∧ Schema.fields Sample.sensorSchema !! 6 = Some Sample.siteField
  ∧ Schema.fields Sample.sensorSchema !! 7 = Some Sample.placeField
  ∧ truthy (SchemaField.isRef Sample.siteField) = true
  ∧ XlsxResult.findIri (SchemaField.type Sample.siteField) Sample.parsed
    = None
  ∧ XlsxResult._schemas (XlsxResult.updateSchemas Sample.parsed) !! 0
    = Some Sample.resolvedSensor
  ∧ Schema.fields Sample.resolvedSensor !! 6 = Some Sample.resolvedSite
  ∧ Schema.fields Sample.resolvedSensor !! 7 = Some Sample.resolvedPlace
  ∧ SchemaField.type Sample.resolvedSite = VUndef
  ∧ SchemaField.type Sample.resolvedSite ≠ VNull
  ∧ SchemaField.type Sample.placeField = VStr "link_1"
  ∧ SchemaField.type Sample.resolvedPlace = VStr "#Place"
  ∧ SchemaField.type Sample.resolvedPlace
    ≠ SchemaField.type Sample.placeField.
Proof. split_and!; vm_compute; congruence. Qed.

(** ** The sheet parser *)

Section sheet_parser.
Context `{Collaborators} {T : Type} `{Table.Ops T}.

Lemma parsFn_reference_first (name : string) (value : JsVal) (invert : bool) :
  XlsxToJson.parsFn (call "EXACT" [SymbolNode name; ConstantNode value])
    invert
  = Some (ParsedNode.mk (VStr name) value invert).
Proof. reflexivity. Qed.

(** With the literal first, the literal lands in [field] and the name of
    the reference in [value]. *)
Lemma parsFn_literal_first (name : string) (value : JsVal) (invert : bool) :
  XlsxToJson.parsFn (call "EXACT" [ConstantNode value; SymbolNode name])
    invert
  = Some (ParsedNode.mk value (VStr name) invert).
Proof. reflexivity. Qed.

Lemma parseCondition_literal_first (formulae name : string) (value : JsVal) :
  formulae ≠ "" → formulae ≠ "TRUE" → formulae ≠ "FALSE" →
  mathjs_parse formulae
  = inr (call "EXACT" [ConstantNode value; SymbolNode name]) →
  XlsxToJson.parseCondition (FText formulae)
  = inr (Some (CFormulae value (VStr name) false)).
Proof.
  intros H1 H2 H3 Hparse. unfold XlsxToJson.parseCondition.
  apply String.eqb_neq in H1, H2, H3. rewrite H1, H2, H3, Hparse.
  reflexivity.
Qed.

(** A row whose formula names a pair that an accumulated condition
    already has: [readCondition] adds the dependent to that condition
    and returns it. *)
Lemma readCondition_found (worksheet : Worksheet.t) (table : T)
    (fieldCache : gmap string nat) (conditionCache : list nat) (row : Z)
    (store : Store.t) (xlsxResult : XlsxResult.t)
    (field value : JsVal) (invert : bool) (ref : nat) :
  let col := Table.getCol Dictionary.VISIBILITY table in
  let dependent :=
    fieldCache
      !! Worksheet.getPath worksheet (Table.getCol Dictionary.ANSWER table)
           row in
  Worksheet.outColumnRange worksheet col = false →
  XlsxToJson.visibility (Worksheet.getCell worksheet col row)
  = inr (Some (CFormulae field value invert)) →
  find (XlsxToJson.sameCondition store field value) conditionCache
  = Some ref →
  XlsxToJson.readCondition worksheet table fieldCache conditionCache row
    store xlsxResult
  = (Some ref,
     Store.mk (Store.fields store)
       (alter (XlsxSchemaConditions.addField dependent invert) ref
          (Store.conditions store)),
     xlsxResult).
Proof.
  intros col dependent Hcol Hcell Hfind. unfold XlsxToJson.readCondition.
  fold col. rewrite Hcol, Hcell, Hfind. reflexivity.
Qed.

(** The loop of [parseSheet] pushes what [readCondition] returned: the
    reference found in the cache is in the cache once more. *)
Lemma readConditions_pushes_found (worksheet : Worksheet.t) (table : T)
    (fieldCache : gmap string nat) (conditionCache : list nat) (n : nat)
    (row : Z) (store : Store.t) (xlsxResult : XlsxResult.t)
    (field value : JsVal) (invert : bool) (ref : nat) :
  let col := Table.getCol Dictionary.VISIBILITY table in
  Worksheet.outColumnRange worksheet col = false →
  XlsxToJson.visibility (Worksheet.getCell worksheet col row)
  = inr (Some (CFormulae field value invert)) →
  find (XlsxToJson.sameCondition store field value) conditionCache
  = Some ref →
  ref ∈ conditionCache
  ∧ ∃ store',
      XlsxToJson.readConditions worksheet table fieldCache (S n) row
        conditionCache store xlsxResult
      = XlsxToJson.readConditions worksheet table fieldCache n (row + 1)
          (conditionCache ++ [ref]) store' xlsxResult.
Proof.
  intros col Hcol Hcell Hfind. split.
  - apply find_some in Hfind as [Hin _]. by apply list_elem_of_In.
  - eexists. cbn [XlsxToJson.readConditions].
    rewrite (readCondition_found _ _ _ _ _ _ _ field value invert ref)
      by done.
    reflexivity.
Qed.

(** C4: when the header table reports a required header that was not
    set, [parseSheet] returns the schema as it was started, without
    fields, with the "Invalid headers" error as its only error, and the
    result has received that one error and nothing else: no field row
    was read. *)
Theorem missing_header_short_circuits (worksheet : Worksheet.t)
    (xlsxResult : XlsxResult.t) (errorHeader : ITableHeader.t) :
  Table.getErrorHeader (XlsxToJson.scanHeaders worksheet).2
  = Some errorHeader →
  let error := XlsxToJson.headerError worksheet errorHeader in
  let schema := (XlsxToJson.parseSheet worksheet xlsxResult).1 in
  let xlsxResult' := (XlsxToJson.parseSheet worksheet xlsxResult).2 in
  xlsxResult' = XlsxResult.addError error xlsxResult
  ∧ XlsxResult._errors xlsxResult' = XlsxResult._errors xlsxResult ++ [error]
  ∧ XlsxResult._linkCache xlsxResult' = XlsxResult._linkCache xlsxResult
  ∧ Schema.fields schema = []
  ∧ Schema.conditions schema = []
  ∧ Schema.errors schema = Some [error]
  ∧ Schema.name schema = Some (Worksheet.name worksheet)
  ∧ Schema.category schema = POLICY
  ∧ XlsxError.text error
    = "Invalid headers. Header " +:+ DQUOTE
      +:+ ITableHeader.title errorHeader +:+ DQUOTE +:+ " not set.".
Proof.
  intros Hheader error. unfold XlsxToJson.parseSheet.
  destruct (XlsxToJson.scanHeaders worksheet) as [row table].
  cbn in Hheader. rewrite Hheader. fold error.
  destruct xlsxResult. cbn. split_and!; reflexivity.
Qed.

(** C7, as the code has it: on a worksheet whose headers pass the check
    of the header table and whose metadata has a tool name or a tool
    id, [parseSheet] returns a TOOL schema whose [messageId] is the cell
    next to the tool-id header ([undefined] when that header has no
    row), without fields; the result is untouched, so no field row was
    read. *)
Theorem tool_sheet_is_stub (worksheet : Worksheet.t)
    (xlsxResult : XlsxResult.t) :
  let scanned := (XlsxToJson.scanHeaders worksheet).2 in
  let table :=
    Table.setEnd (Addr.c (Range.e (Worksheet.getRange worksheet)))
      (XlsxToJson.scanHeaders worksheet).1 scanned in
  let toolName :=
    XlsxToJson.metadata worksheet table Dictionary.SCHEMA_TOOL in
  let messageId :=
    XlsxToJson.metadata worksheet table Dictionary.SCHEMA_TOOL_ID in
  let schema := (XlsxToJson.parseSheet worksheet xlsxResult).1 in
  let xlsxResult' := (XlsxToJson.parseSheet worksheet xlsxResult).2 in
  Table.getErrorHeader scanned = None →
  text_truthy toolName || text_truthy messageId = true →
  xlsxResult' = xlsxResult
  ∧ Schema.category schema = TOOL
  ∧ Schema.messageId schema = messageId
  ∧ Schema.fields schema = []
  ∧ Schema.conditions schema = []
  ∧ Schema.errors schema = None.
Proof.
  intros scanned table toolName messageId schema xlsxResult' Hheader Htool.
  assert (Hscan : XlsxToJson.scanHeaders worksheet
                  = ((XlsxToJson.scanHeaders worksheet).1, scanned))
    by apply surjective_pairing.
  subst schema xlsxResult'. unfold XlsxToJson.parseSheet.
  rewrite Hscan. cbv beta iota zeta. rewrite Hheader.
  subst toolName messageId table. rewrite Htool.
  repeat match goal with |- context [if ?b then _ else _] => destruct b end;
    cbn; split_and!; reflexivity.
Qed.

Lemma set_unit_twice v w (field : SchemaField.t) :
  SchemaField.set_unit v (SchemaField.set_unit w field)
  = SchemaField.set_unit v field.
Proof. by destruct field. Qed.

Lemma set_enum_twice v w (field : SchemaField.t) :
  SchemaField.set_enum v (SchemaField.set_enum w field)
  = SchemaField.set_enum v field.
Proof. by destruct field. Qed.

Lemma setFont_twice v w (field : SchemaField.t) :
  XlsxToJson.setFont v (XlsxToJson.setFont w field)
  = XlsxToJson.setFont v field.
Proof. by destruct field. Qed.

(** What [readFieldParams] makes of the field it is given: a non-empty
    parameter cell replaces the derived value altogether. *)
Lemma readFieldParams_spec (worksheet : Worksheet.t)
    (table : T) (field : SchemaField.t) (fieldType : IFieldTypes.t)
    (row : Z) (xlsxResult : XlsxResult.t) :
  let param :=
    Worksheet.getValue worksheet
      (Table.getCol Dictionary.PARAMETER table) row in
  let answer :=
    Worksheet.getCell worksheet (Table.getCol Dictionary.ANSWER table) row in
  let question :=
    Worksheet.getCell worksheet (Table.getCol Dictionary.QUESTION table) row in
  let name := IFieldTypes.name fieldType in
  let field' :=
    (XlsxToJson.readFieldParams worksheet table field fieldType row
       xlsxResult).1 in
  (XlsxToJson.readFieldParams worksheet table field fieldType row
     xlsxResult).2 = xlsxResult
  ∧ (∀ text,
       param = Some text → text ≠ "" →
       (name = "Prefix" ∨ name = "Postfix" →
        field' = SchemaField.set_unit (VStr text) field)
       ∧ (name = "Enum" →
          field' = SchemaField.set_enum (Some (splitLines text)) field)
       ∧ (name = "Help Text" →
          field' = XlsxToJson.setFont (xlsxToFont (OfText text)) field))
  ∧ (text_truthy param = false →
       (name = "Prefix" ∨ name = "Postfix" →
        field'
        = SchemaField.set_unit (xlsxToUnit (Cell.getFormat answer)) field)
       ∧ (name = "Enum" →
          field' = SchemaField.set_enum (Cell.getList answer) field)
       ∧ (name = "Help Text" →
          field'
          = XlsxToJson.setFont (xlsxToFont (OfStyle (Cell.getFont question)))
              field))
  ∧ (name ∉ ["Prefix"; "Postfix"; "Enum"; "Help Text"] → field' = field).
Proof.
  intros param answer question name field'.
  subst field'. unfold XlsxToJson.readFieldParams.
  fold param. fold answer. fold question. fold name.
  clearbody param answer question name.
  split_and!.
  - reflexivity.
  - intros text Hparam Htext. apply String.eqb_neq in Htext.
    rewrite Hparam. cbn [text_truthy]. rewrite Htext. cbn [negb fst].
    split_and!.
    + intros [-> | ->]; cbn; by rewrite set_unit_twice.
    + intros ->; cbn; by rewrite set_enum_twice.
    + intros ->; cbn; by rewrite setFont_twice.
  - intros Hparam. cbn [fst].
    destruct param as [text|]; [rewrite Hparam|];
      (split_and!; [intros [-> | ->] | intros -> | intros ->]);
      reflexivity.
  - intros Hname.
    assert (H1 : String.eqb name "Prefix" = false)
      by (apply String.eqb_neq; intros ->; apply Hname;
          repeat constructor).
    assert (H2 : String.eqb name "Postfix" = false)
      by (apply String.eqb_neq; intros ->; apply Hname;
          repeat constructor).
    assert (H3 : String.eqb name "Enum" = false)
      by (apply String.eqb_neq; intros ->; apply Hname;
          repeat constructor).
    assert (H4 : String.eqb name "Help Text" = false)
      by (apply String.eqb_neq; intros ->; apply Hname;
          repeat constructor).
    rewrite H1, H2, H3, H4. cbn [fst].
    destruct param; [|done]. by destruct (text_truthy _).
Qed.

Lemma unit_set_unit v (field : SchemaField.t) :
  SchemaField.unit (SchemaField.set_unit v field) = v.
Proof. by destruct field. Qed.

Lemma enum_set_enum v (field : SchemaField.t) :
  SchemaField.enum (SchemaField.set_enum v field) = v.
Proof. by destruct field. Qed.

Lemma font_setFont (font : Font.t) (field : SchemaField.t) :
  let field' := XlsxToJson.setFont font field in
  SchemaField.font field' = Some font
  ∧ SchemaField.textBold field' = Font.bold font
  ∧ SchemaField.textColor field' = Font.color font
  ∧ SchemaField.textSize field' = Font.size font.
Proof. by destruct field. Qed.

(** [readFieldParams] writes the unit of a prefix or postfix, the
    enumeration of an enum, the font of a help text, and nothing else. *)
Lemma readFieldParams_keeps (worksheet : Worksheet.t) (table : T)
    (field : SchemaField.t) (fieldType : IFieldTypes.t) (row : Z)
    (xlsxResult : XlsxResult.t) :
  let name := IFieldTypes.name fieldType in
  let field' :=
    (XlsxToJson.readFieldParams worksheet table field fieldType row
       xlsxResult).1 in
  SchemaField.type field' = SchemaField.type field
  ∧ SchemaField.format field' = SchemaField.format field
  ∧ SchemaField.pattern field' = SchemaField.pattern field
  ∧ SchemaField.unitSystem field' = SchemaField.unitSystem field
  ∧ SchemaField.errors field' = SchemaField.errors field
  ∧ (name ∉ ["Prefix"; "Postfix"] →
     SchemaField.unit field' = SchemaField.unit field)
  ∧ (name ≠ "Enum" → SchemaField.enum field' = SchemaField.enum field)
  ∧ (name ≠ "Help Text" → SchemaField.font field' = SchemaField.font field).
Proof.
  intros name field'. subst field'. unfold XlsxToJson.readFieldParams.
  fold name. clearbody name. cbn [fst].
  destruct (String.eqb name "Prefix") eqn:E1;
    destruct (String.eqb name "Postfix") eqn:E2;
    destruct (String.eqb name "Enum") eqn:E3;
    destruct (String.eqb name "Help Text") eqn:E4;
    destruct (Worksheet.getValue worksheet
                (Table.getCol Dictionary.PARAMETER table) row) as [text|];
    try destruct (text_truthy (Some text));
    destruct field; cbn; split_and!; try reflexivity;
    intros Hname; exfalso;
    try (apply String.eqb_eq in E1; apply Hname; rewrite E1;
         apply list_elem_of_here);
    try (apply String.eqb_eq in E2; apply Hname; rewrite E2;
         apply list_elem_of_further, list_elem_of_here);
    try (apply String.eqb_eq in E3; by apply Hname);
    try (apply String.eqb_eq in E4; by apply Hname).
Qed.

Lemma readField_recognized (worksheet : Worksheet.t) (table : T) (row : Z)
    (xlsxResult : XlsxResult.t) (fieldType : IFieldTypes.t) :
  FieldTypes_findByName
    (Worksheet.getValue worksheet
       (Table.getCol Dictionary.FIELD_TYPE table) row)
  = Some fieldType →
  XlsxToJson.readField worksheet table row xlsxResult
  = (Some
       (XlsxToJson.withExamples worksheet table row
          (XlsxToJson.readFieldParams worksheet table
             (XlsxToJson.ofRegistry fieldType
                (XlsxToJson.rowField worksheet table row))
             fieldType row xlsxResult).1),
     xlsxResult).
Proof.
  intros Hfind. unfold XlsxToJson.readField. cbv beta zeta.
  rewrite Hfind. reflexivity.
Qed.

(** The examples are read last and change no other attribute. *)
Lemma withExamples_keeps (worksheet : Worksheet.t) (table : T) (row : Z)
    (field : SchemaField.t) :
  let field' := XlsxToJson.withExamples worksheet table row field in
  SchemaField.type field' = SchemaField.type field
  ∧ SchemaField.format field' = SchemaField.format field
  ∧ SchemaField.pattern field' = SchemaField.pattern field
  ∧ SchemaField.unit field' = SchemaField.unit field
  ∧ SchemaField.unitSystem field' = SchemaField.unitSystem field
  ∧ SchemaField.enum field' = SchemaField.enum field
  ∧ SchemaField.font field' = SchemaField.font field
  ∧ SchemaField.textBold field' = SchemaField.textBold field
  ∧ SchemaField.textColor field' = SchemaField.textColor field
  ∧ SchemaField.textSize field' = SchemaField.textSize field
  ∧ SchemaField.errors field' = SchemaField.errors field.
Proof.
  unfold XlsxToJson.withExamples. cbv beta zeta.
  repeat match goal with |- context [if ?b then _ else _] => destruct b end;
    destruct field; cbn; split_and!; reflexivity.
Qed.

(** C5: on a row of a recognized type, the field [readField] returns
    has the type, format, pattern and unit system of the registry entry.
    A non-empty parameter cell decides the unit of a prefix or postfix,
    the enumeration (the lines of the cell) and the font of a help
    text, with its bold, color and size: nothing of the value derived
    from the number format, the validation list or the styling of the
    cell remains.  With an empty parameter cell the derived value
    stands.  For any other type the unit is the one of the registry
    entry, and there is no enumeration and no font. *)
Theorem parameter_overrides_derived_value (worksheet : Worksheet.t)
    (table : T) (row : Z) (xlsxResult : XlsxResult.t)
    (fieldType : IFieldTypes.t) :
  let value label :=
    Worksheet.getValue worksheet (Table.getCol label table) row in
  let param := value Dictionary.PARAMETER in
  let answer :=
    Worksheet.getCell worksheet (Table.getCol Dictionary.ANSWER table) row in
  let question :=
    Worksheet.getCell worksheet (Table.getCol Dictionary.QUESTION table) row in
  let name := IFieldTypes.name fieldType in
  let fontOf (field : SchemaField.t) (font : Font.t) :=
    SchemaField.font field = Some font
    ∧ SchemaField.textBold field = Font.bold font
    ∧ SchemaField.textColor field = Font.color font
    ∧ SchemaField.textSize field = Font.size font in
  FieldTypes_findByName (value Dictionary.FIELD_TYPE) = Some fieldType →
  ∃ field,
    XlsxToJson.readField worksheet table row xlsxResult
    = (Some field, xlsxResult)
    ∧ SchemaField.type field = IFieldTypes.type fieldType
    ∧ SchemaField.format field = IFieldTypes.format fieldType
    ∧ SchemaField.pattern field = IFieldTypes.pattern fieldType
    ∧ SchemaField.unitSystem field = IFieldTypes.unitSystem fieldType
    ∧ SchemaField.errors field = None
    ∧ (∀ text,
         param = Some text → text ≠ "" →
         (name = "Prefix" ∨ name = "Postfix" →
          SchemaField.unit field = VStr text)
         ∧ (name = "Enum" →
            SchemaField.enum field = Some (splitLines text))
         ∧ (name = "Help Text" →
            fontOf field (xlsxToFont (OfText text))))
    ∧ (text_truthy param = false →
         (name = "Prefix" ∨ name = "Postfix" →
          SchemaField.unit field = xlsxToUnit (Cell.getFormat answer))
         ∧ (name = "Enum" → SchemaField.enum field = Cell.getList answer)
         ∧ (name = "Help Text" →
            fontOf field (xlsxToFont (OfStyle (Cell.getFont question)))))
    ∧ (name ∉ ["Prefix"; "Postfix"] →
       SchemaField.unit field = IFieldTypes.unit fieldType)
    ∧ (name ≠ "Enum" → SchemaField.enum field = None)
    ∧ (name ≠ "Help Text" → SchemaField.font field = None).
Proof.
  intros value param answer question name fontOf Hfind.
  eexists. split; [by apply readField_recognized|].
  set (base := XlsxToJson.ofRegistry fieldType
                 (XlsxToJson.rowField worksheet table row)).
  pose proof (withExamples_keeps worksheet table row
    (XlsxToJson.readFieldParams worksheet table base fieldType row
       xlsxResult).1) as Hlast.
  cbv zeta in Hlast.
  destruct Hlast as (-> & -> & -> & Hunit & -> & Henum & Hfont & Hbold
                     & Hcolor & Hsize & ->).
  subst fontOf. cbv beta. rewrite Hunit, Henum, Hfont, Hbold, Hcolor, Hsize.
  clear Hunit Henum Hfont Hbold Hcolor Hsize.
  pose proof (readFieldParams_keeps worksheet table base fieldType row
                xlsxResult) as Hkeep.
  pose proof (readFieldParams_spec worksheet table base fieldType row
                xlsxResult) as Hspec.
  cbv zeta in Hkeep, Hspec. fold name in Hkeep, Hspec.
  fold (value Dictionary.PARAMETER) in Hspec. fold param in Hspec.
  fold answer in Hspec. fold question in Hspec.
  destruct Hkeep as (-> & -> & -> & -> & -> & Hunit & Henum & Hfont).
  destruct Hspec as (_ & Hset & Hderived & _).
  split_and!; try reflexivity.
  - intros text Hparam Htext.
    destruct (Hset text Hparam Htext) as (Hu & He & Hf).
    split_and!; intros Hname.
    + by rewrite (Hu Hname), unit_set_unit.
    + by rewrite (He Hname), enum_set_enum.
    + rewrite (Hf Hname). apply font_setFont.
  - intros Hparam. destruct (Hderived Hparam) as (Hu & He & Hf).
    split_and!; intros Hname.
    + by rewrite (Hu Hname), unit_set_unit.
    + by rewrite (He Hname), enum_set_enum.
    + rewrite (Hf Hname). apply font_setFont.
  - intros Hname. by rewrite (Hunit Hname).
  - intros Hname. by rewrite (Henum Hname).
  - intros Hname. by rewrite (Hfont Hname).
Qed.

(** C6: a row whose type cell is empty, the registry having no entry
    for an empty label, yields a field (the row is not skipped) whose
    type is [null], whose name, description, required and array flags
    are those of the row, and whose only error is "Unknown field type.",
    the one error the result receives. *)
Theorem empty_type_reports_unknown (worksheet : Worksheet.t) (table : T)
    (row : Z) (xlsxResult : XlsxResult.t) :
  let col label := Table.getCol label table in
  let value label := Worksheet.getValue worksheet (col label) row in
  let error := XlsxToJson.unknownTypeError worksheet table row in
  text_truthy (value Dictionary.FIELD_TYPE) = false →
  FieldTypes_findByName (value Dictionary.FIELD_TYPE) = None →
  ∃ field,
    XlsxToJson.readField worksheet table row xlsxResult
    = (Some field, XlsxResult.addError error xlsxResult)
    ∧ SchemaField.type field = VNull
    ∧ SchemaField.errors field = Some [error]
    ∧ SchemaField.name field
      = Worksheet.getPath worksheet (col Dictionary.ANSWER) row
    ∧ SchemaField.description field = value Dictionary.QUESTION
    ∧ SchemaField.required field
      = xlsxToBoolean (value Dictionary.REQUIRED_FIELD)
    ∧ SchemaField.isArray field
      = xlsxToBoolean (value Dictionary.ALLOW_MULTIPLE_ANSWERS)
    ∧ XlsxError.text error = "Unknown field type."
    ∧ XlsxResult._errors (XlsxResult.addError error xlsxResult)
      = XlsxResult._errors xlsxResult ++ [error].
Proof.
  intros col value error Hempty Hfind. subst col value.
  cbv beta in Hempty, Hfind. unfold XlsxToJson.readField.
  cbv beta zeta. rewrite Hfind, Hempty. fold error.
  eexists; split; [reflexivity|].
  destruct xlsxResult.
  repeat match goal with |- context [if ?b then _ else _] => destruct b end;
    cbn; split_and!; reflexivity.
Qed.

(** C8: [parse] resolves for every buffer, whatever leaves its [try]
    block.  When an exception does, of the workbook reader before any
    worksheet is parsed or of a later statement once worksheets have
    been parsed, what [parse] resolves to has no schemas, no tools and
    empty caches, whatever had been accumulated; its errors are those
    recorded until then and, last, the "Failed to parse file." error. *)
Theorem parse_never_throws (construct : nat → option Exn) (buffer : Buffer) :
  let thrown := (XlsxToJson.parseTry construct buffer).1 in
  let accumulated := (XlsxToJson.parseTry construct buffer).2 in
  (∃ xlsxResult, XlsxToJson.parseWith construct buffer = inr xlsxResult)
  ∧ (∀ error,
       Workbook_read buffer = inl error →
       thrown = Some error ∧ accumulated = XlsxResult.new)
  ∧ (thrown = None → XlsxToJson.parseWith construct buffer = inr accumulated)
  ∧ ∀ error,
      thrown = Some error →
      ∃ xlsxResult,
        XlsxToJson.parseWith construct buffer = inr xlsxResult
        ∧ XlsxResult.schemas xlsxResult = []
        ∧ XlsxResult.tools xlsxResult = []
        ∧ XlsxResult.getToolIds xlsxResult = []
        ∧ XlsxResult._schemaWorksheetCache xlsxResult = ∅
        ∧ XlsxResult._schemaNameCache xlsxResult = ∅
        ∧ XlsxResult._linkCache xlsxResult = ∅
        ∧ XlsxResult._errors xlsxResult
          = XlsxResult._errors accumulated
            ++ [XlsxResult.parseFileError error]
        ∧ XlsxError.text (XlsxResult.parseFileError error)
          = "Failed to parse file."
        ∧ XlsxResult.toJson xlsxResult
          = ResultJson.mk [] []
              (XlsxResult._errors accumulated
               ++ [XlsxResult.parseFileError error]).
Proof.
  cbv zeta. unfold XlsxToJson.parseWith. split_and!.
  - eauto.
  - intros error Hread. unfold XlsxToJson.parseTry. by rewrite Hread.
  - destruct (XlsxToJson.parseTry construct buffer) as [thrown accumulated].
    cbn. by intros ->.
  - intros error.
    destruct (XlsxToJson.parseTry construct buffer) as [thrown accumulated].
    cbn. intros ->. eexists. split; [reflexivity|].
    unfold XlsxToJson.parseCatch. destruct accumulated; cbn.
    split_and!; reflexivity.
Qed.

End sheet_parser.

(** C1 fails on the code.  The formula EXACT("X",G5), whose tree has the
    literal first, parses to a condition whose driving field is the
    literal X and whose comparison value is the reference G5, where
    EXACT(G5,"X") gives the field G5 and the value X. *)
Theorem literal_first_swaps_field_and_value :
  Sample.parseFormula Sample.exactXG5
  = inr (call "EXACT" [ConstantNode (VStr "X"); SymbolNode "G5"])
  ∧ XlsxToJson.parseCondition (FText Sample.exactXG5)
    = inr (Some (CFormulae (VStr "X") (VStr "G5") false))
  ∧ XlsxToJson.parseCondition (FText Sample.exactG5X)
    = inr (Some (CFormulae (VStr "G5") (VStr "X") false)).
Proof. split_and!; vm_compute; reflexivity. Qed.

(** ** The compiler on the sample workbook *)

(** C2 fails on the code.  On the sheet [sensor], where EXACT(G5,"X")
    shows field G6 and NOT(EXACT(G5,"X")) shows field G7, the one
    condition on (G5, X) does carry the two dependents, with invert
    flags [false] and [true], but the second row finds it in the cache,
    [readCondition] returns it and the loop of [parseSheet] pushes it
    again: the conditions of the schema list it twice. *)
Theorem merged_condition_is_listed_twice :
  let schema := (XlsxToJson.parseSheet Sample.sensor XlsxResult.new).1 in
  let merged :=
    SchemaCondition.mk 0 (VStr "X") [(Some 1, false); (Some 2, true)] in
  SchemaField.name <$> take 3 (Schema.fields schema) = ["G5"; "G6"; "G7"]
  ∧ Schema.conditions schema = [merged; merged].
Proof. split; vm_compute; reflexivity. Qed.

(** The example for C4: the sheet whose header row lacks the answer
    column. *)
Lemma missing_header_witness :
  Table.getErrorHeader (XlsxToJson.scanHeaders Sample.headless).2
  = Some (ITableHeader.mk "Answer")
  ∧ Schema.fields (XlsxToJson.parseSheet Sample.headless XlsxResult.new).1
    = []
  ∧ XlsxResult._errors
      (XlsxToJson.parseSheet Sample.headless XlsxResult.new).2
    = [XlsxToJson.headerError Sample.headless (ITableHeader.mk "Answer")].
Proof.
  assert (Hheader :
    Table.getErrorHeader (XlsxToJson.scanHeaders Sample.headless).2
    = Some (ITableHeader.mk "Answer")) by (vm_compute; reflexivity).
  split; [exact Hheader|].
  pose proof (missing_header_short_circuits Sample.headless XlsxResult.new
                (ITableHeader.mk "Answer") Hheader) as Hparse.
  cbv zeta in Hparse.
  destruct Hparse as (_ & Herrors & _ & Hfields & _).
  split; [exact Hfields|exact Herrors].
Defined.

(** The example for C7: the sheet that declares the tool CO2Tool. *)
Lemma tool_sheet_witness :
  Table.getErrorHeader (XlsxToJson.scanHeaders Sample.co2tool).2 = None
  ∧ XlsxToJson.metadata Sample.co2tool (Sample.tableOf Sample.co2tool) "Tool"
    = Some "CO2Tool"
  ∧ Schema.category
      (XlsxToJson.parseSheet Sample.co2tool XlsxResult.new).1 = TOOL
  ∧ Schema.messageId
      (XlsxToJson.parseSheet Sample.co2tool XlsxResult.new).1
    = Some "0.0.555"
  ∧ Schema.fields (XlsxToJson.parseSheet Sample.co2tool XlsxResult.new).1
    = [].
Proof.
  assert (Hheader :
    Table.getErrorHeader (XlsxToJson.scanHeaders Sample.co2tool).2 = None)
    by (vm_compute; reflexivity).
  split; [exact Hheader|]. split; [vm_compute; reflexivity|].
  pose proof (tool_sheet_is_stub Sample.co2tool XlsxResult.new) as Hparse.
  cbv zeta in Hparse.
  destruct (Hparse Hheader) as (_ & Hcategory & Hid & Hfields & _).
  { vm_compute; reflexivity. }
  split; [exact Hcategory|]. split; [|exact Hfields].
  rewrite Hid. vm_compute; reflexivity.
Defined.

(** C7, as it is stated, fails on the sheet [bareTool]: its metadata
    names the tool CO2Tool and the tool id 0.0.555, but it has no header
    row, so the check of the headers ends the parse first, with a POLICY
    schema that has no message id. *)
Lemma tool_sheet_counterexample :
  XlsxToJson.metadata Sample.bareTool (Sample.tableOf Sample.bareTool) "Tool"
  = Some "CO2Tool"
  ∧ XlsxToJson.metadata Sample.bareTool (Sample.tableOf Sample.bareTool)
      "Tool Id"
    = Some "0.0.555"
  ∧ Schema.category
      (XlsxToJson.parseSheet Sample.bareTool XlsxResult.new).1 = POLICY
  ∧ Schema.category
      (XlsxToJson.parseSheet Sample.bareTool XlsxResult.new).1 ≠ TOOL
  ∧ Schema.messageId
      (XlsxToJson.parseSheet Sample.bareTool XlsxResult.new).1 = None
  ∧ Schema.messageId
      (XlsxToJson.parseSheet Sample.bareTool XlsxResult.new).1
    ≠ Some "0.0.555".
Proof. split_and!; vm_compute; congruence. Qed.

(** The example for C5: the prefix row of [sensor], whose parameter
    cell holds kg and whose answer cell has the format $#. *)
Lemma parameter_overrides_witness :
  FieldTypes_findByName (Worksheet.getValue Sample.sensor 1 7)
  = Some Sample.prefix
  ∧ Worksheet.getValue Sample.sensor 2 7 = Some "kg"
  ∧ ∃ field,
      (XlsxToJson.readField Sample.sensor (Sample.tableOf Sample.sensor) 7
         XlsxResult.new).1 = Some field
      ∧ SchemaField.unit field = VStr "kg".
Proof.
  split; [vm_compute; reflexivity|]. split; [vm_compute; reflexivity|].
  pose proof (parameter_overrides_derived_value Sample.sensor
                (Sample.tableOf Sample.sensor) 7 XlsxResult.new
                Sample.prefix) as Hrow.
  cbv zeta beta in Hrow.
  destruct Hrow as (field & Hread & _ & _ & _ & _ & _ & Hset & _).
  - vm_compute; reflexivity.
  - exists field. rewrite Hread. split; [reflexivity|].
    destruct (Hset "kg") as (Hunit & _).
    + vm_compute; reflexivity.
    + discriminate.
    + apply Hunit. left. reflexivity.
Defined.

(** The example for C6: the row of [sensor] without a type. *)
Lemma empty_type_witness :
  Worksheet.getValue Sample.sensor 1 9 = None
  ∧ ∃ field,
      (XlsxToJson.readField Sample.sensor (Sample.tableOf Sample.sensor) 9
         XlsxResult.new).1 = Some field
      ∧ SchemaField.type field = VNull
      ∧ SchemaField.errors field
        = Some [XlsxToJson.unknownTypeError Sample.sensor
                  (Sample.tableOf Sample.sensor) 9].
Proof.
  split; [vm_compute; reflexivity|].
  pose proof (empty_type_reports_unknown Sample.sensor
                (Sample.tableOf Sample.sensor) 9 XlsxResult.new) as Hrow.
  cbv zeta beta in Hrow.
  destruct Hrow as (field & Hread & Htype & Herrors & _).
  - vm_compute; reflexivity.
  - vm_compute; reflexivity.
  - exists field. rewrite Hread. split_and!; [reflexivity|exact Htype|].
    exact Herrors.
Defined.

(** The example for C8: the constructor throws at the third worksheet
    of the workbook, when two schemas, two links and an error have been
    accumulated. *)
Lemma parse_never_throws_witness :
  let accumulated :=
    (XlsxToJson.parseTry (T := HeaderTable.t) thirdFails Sample.workbook).2 in
  length (XlsxResult.schemas accumulated) = 2
  ∧ size (XlsxResult._linkCache accumulated) = 2
  ∧ length (XlsxResult._errors accumulated) = 1
  ∧ ∃ xlsxResult,
      XlsxToJson.parseWith (T := HeaderTable.t) thirdFails Sample.workbook
      = inr xlsxResult
      ∧ XlsxResult.schemas xlsxResult = []
      ∧ XlsxResult._linkCache xlsxResult = ∅
      ∧ XlsxResult.toJson xlsxResult
        = ResultJson.mk [] []
            (XlsxResult._errors accumulated
             ++ [XlsxResult.parseFileError (Error "out of identifiers")]).
Proof.
  cbv zeta. split_and!; [vm_compute; reflexivity..|].
  pose proof (parse_never_throws (T := HeaderTable.t) thirdFails
                Sample.workbook) as Hparse.
  cbv zeta in Hparse. destruct Hparse as (_ & _ & _ & Hfails).
  destruct (Hfails (Error "out of identifiers"))
    as (xlsxResult & Hparse & Hschemas & _ & _ & _ & _ & Hlinks & _ & _
        & Hjson).
  - vm_compute; reflexivity.
  - exists xlsxResult. split_and!; assumption.
Defined.

(** The example for C10: a '#GeoJSON' reference in the result of the
    sample workbook. *)
Lemma geojson_witness :
  SchemaField.type Sample.geoField = VStr "#GeoJSON"
  ∧ XlsxResult.resolveField Sample.geoField Sample.parsed
    = (Sample.geoField, Sample.parsed).
Proof.
  split; [reflexivity|].
  apply (geojson_resolves_immediately Sample.geoField Sample.parsed).
  reflexivity.
Defined.

(** * Further properties *)

(** ** Links and registrations of the result *)

Lemma linkId_inj (k k' : nat) : linkId k = linkId k' → k = k'.
Proof.
  unfold linkId. intros Heq. cbn in Heq.
  injection Heq as Heq. by apply (inj pretty).
Qed.

Lemma denseLinks_empty : denseLinks ∅.
Proof.
  intros k. rewrite lookup_empty.
  assert (Hsize : size (∅ : gmap string ILink.t) = 0)
    by apply map_size_empty.
  rewrite Hsize. split.
  - by intros [? ?].
  - lia.
Qed.

Lemma denseLinks_insert (links : gmap string ILink.t) (link : ILink.t) :
  denseLinks links →
  links !! linkId (size links) = None
  ∧ denseLinks (<[linkId (size links) := link]> links).
Proof.
  intros Hdense.
  assert (Hfresh : links !! linkId (size links) = None).
  { apply eq_None_not_Some. intros Hsome. apply Hdense in Hsome. lia. }
  split; [done|]. intros k. rewrite map_size_insert_None by done.
  destruct (decide (k = size links)) as [->|Hne].
  - rewrite lookup_insert_eq. split; [lia|eauto].
  - rewrite lookup_insert_ne by (intros Heq; by apply linkId_inj in Heq).
    specialize (Hdense k). split.
    + intros Hsome. apply Hdense in Hsome. lia.
    + intros Hlt. apply Hdense. lia.
Qed.

(** X1: on a result whose link cache only [addLink] has written to,
    [addLink] mints an id that was not in use, binds it to the name and
    to the worksheet of the hyperlink, keeps every earlier link, and
    touches nothing but the link cache. *)
Theorem addLink_mints_fresh_id (name : option string)
    (hyperlink : option Hyperlink.t) (this : XlsxResult.t) :
  denseLinks (XlsxResult._linkCache this) →
  let id := (XlsxResult.addLink name hyperlink this).1 in
  let this' := (XlsxResult.addLink name hyperlink this).2 in
  XlsxResult._linkCache this !! id = None
  ∧ XlsxResult.getLink (VStr id) this'
    = Some (ILink.mk name (linkedWorksheet hyperlink))
  ∧ (∀ id' link,
       XlsxResult._linkCache this !! id' = Some link →
       XlsxResult._linkCache this' !! id' = Some link)
  ∧ denseLinks (XlsxResult._linkCache this')
  ∧ this' = XlsxResult.set_linkCache (XlsxResult._linkCache this') this.
Proof.
  intros Hdense id this'.
  destruct (denseLinks_insert (XlsxResult._linkCache this)
              (ILink.mk name (linkedWorksheet hyperlink)) Hdense)
    as [Hfresh Hdense'].
  subst id this'. destruct this as [a1 a2 a3 a4 a5 a6 links]. cbn in *.
  split_and!.
  - exact Hfresh.
  - apply lookup_insert_eq.
  - intros id' link Hlink. rewrite lookup_insert_ne; [done|].
    intros <-. unfold linkId in Hfresh. congruence.
  - exact Hdense'.
  - reflexivity.
Qed.

(** The example: the first link of a new result is link_0. *)
Lemma addLink_mints_fresh_id_witness :
  denseLinks (XlsxResult._linkCache XlsxResult.new)
  ∧ (XlsxResult.addLink (Some "Site") None XlsxResult.new).1 = "link_0"
  ∧ XlsxResult.getLink (VStr "link_0")
      (XlsxResult.addLink (Some "Site") None XlsxResult.new).2
    = Some (ILink.mk (Some "Site") None).
Proof.
  split; [exact denseLinks_empty|]. split; [vm_compute; reflexivity|].
  pose proof (addLink_mints_fresh_id (Some "Site") None XlsxResult.new
                denseLinks_empty) as Hlink.
  cbv zeta in Hlink. destruct Hlink as (_ & Hget & _).
  exact Hget.
Defined.

Lemma text_truthy_nonempty (s : string) : s ≠ "" → text_truthy (Some s) = true.
Proof. intros Hne. cbn. apply String.eqb_neq in Hne. by rewrite Hne. Qed.

(** X2: a schema registered with [addSchema] is what a reference to its
    worksheet resolves to: [getSubSchema] returns the IRI of the schema
    for a field whose link carries the name of the worksheet, and
    records nothing.  The same holds for a link without a worksheet
    that carries the name the schema was registered under. *)
Theorem registered_schema_resolves (worksheet : Worksheet.t)
    (name : option string) (schema : Schema.t) (this : XlsxResult.t)
    (field : SchemaField.t) (id iri : string) (link : ILink.t) :
  SchemaField.type field = VStr id →
  id ≠ "#GeoJSON" →
  XlsxResult._linkCache this !! id = Some link →
  (ILink.worksheet link = Some (Worksheet.name worksheet)
   ∧ Worksheet.name worksheet ≠ "")
  ∨ (text_truthy (ILink.worksheet link) = false
     ∧ ILink.name link = name ∧ text_truthy name = true) →
  Schema.iri schema = Some iri →
  iri ≠ "" →
  let this' := XlsxResult.addSchema worksheet name schema this in
  XlsxResult.getSubSchema field this' = (VStr iri, field, this').
Proof.
  intros Htype Hgeo Hlink Hvia Hiri Hne this'.
  assert (Hfind : XlsxResult.findIri (VStr id) this' = Some iri).
  { unfold XlsxResult.findIri, XlsxResult.getLink.
    assert (Hlinks : XlsxResult._linkCache this' = XlsxResult._linkCache this)
      by (by destruct this).
    rewrite Hlinks, Hlink.
    assert (Hcache : XlsxResult.findCache link this'
                     = Some (ICache.mk name (Some iri) VUndef)).
    { unfold XlsxResult.findCache.
      destruct Hvia as [[Hws Hwne] | (Hws & Hname & Htruthy)].
      - rewrite Hws, (text_truthy_nonempty _ Hwne).
        subst this'. destruct this; cbn. rewrite lookup_insert_eq.
        by rewrite Hiri.
      - assert (Hnone : match ILink.worksheet link with
                        | Some w =>
                            if text_truthy (Some w)
                            then XlsxResult._schemaWorksheetCache this' !! w
                            else None
                        | None => None
                        end = None).
        { destruct (ILink.worksheet link) as [w|]; [|done].
          by rewrite Hws. }
        rewrite Hnone, Hname, Htruthy.
        subst this'. destruct this; cbn. rewrite lookup_insert_eq.
        by rewrite Hiri. }
    rewrite Hcache. cbn [ICache.iri]. by rewrite (text_truthy_nonempty _ Hne). }
  unfold XlsxResult.getSubSchema. rewrite Htype.
  unfold strict_eq. rewrite bool_decide_eq_false_2 by congruence.
  by rewrite Hfind.
Qed.

(** The example: a link to the worksheet Place and the schema of that
    sheet. *)
Lemma registered_schema_resolves_witness :
  XlsxResult.getSubSchema
    (SchemaField.set_type (VStr "link_0") XlsxToJson.emptyField)
    (XlsxResult.addSchema Sample.place (Some "Place")
       (Schema.set_iri (Some "#Place") Schema.new)
       (XlsxResult.addLink (Some "Place")
          (Some (Hyperlink.mk (Some "Place"))) XlsxResult.new).2)
  = (VStr "#Place",
     SchemaField.set_type (VStr "link_0") XlsxToJson.emptyField,
     XlsxResult.addSchema Sample.place (Some "Place")
       (Schema.set_iri (Some "#Place") Schema.new)
       (XlsxResult.addLink (Some "Place")
          (Some (Hyperlink.mk (Some "Place"))) XlsxResult.new).2).
Proof.
  apply (registered_schema_resolves Sample.place (Some "Place")
           (Schema.set_iri (Some "#Place") Schema.new)
           (XlsxResult.addLink (Some "Place")
              (Some (Hyperlink.mk (Some "Place"))) XlsxResult.new).2
           (SchemaField.set_type (VStr "link_0") XlsxToJson.emptyField)
           "link_0" "#Place"
           (ILink.mk (Some "Place") (Some "Place"))).
  - reflexivity.
  - discriminate.
  - vm_compute; reflexivity.
  - left. split; [reflexivity|discriminate].
  - reflexivity.
  - discriminate.
Defined.

Lemma strict_eq_same (v : JsVal) : strict_eq v v = true.
Proof. unfold strict_eq. by apply bool_decide_eq_true_2. Qed.

Lemma strict_eq_other (a b : JsVal) : a ≠ b → strict_eq a b = false.
Proof. intros Hne. unfold strict_eq. by apply bool_decide_eq_false_2. Qed.

(** X3: a reference whose hyperlink leads to the worksheet of a tool is
    not resolved by the registration [addTool] makes, whatever the name
    cache holds, a schema of the same name included: the worksheet
    entry is found first and has no IRI.  Once [updateTool] has brought
    the schemas of that tool, the reference resolves to the IRI of the
    first of them that has the declared name. *)
Theorem tool_reference_resolves_after_updateTool (worksheet : Worksheet.t)
    (name : option string) (messageId : JsVal) (this : XlsxResult.t)
    (tool : PolicyTool.t) (schemas : list ISchema.t) (schema : ISchema.t)
    (id iri : string) (link : ILink.t) :
  XlsxResult._linkCache this !! id = Some link →
  ILink.worksheet link = Some (Worksheet.name worksheet) →
  Worksheet.name worksheet ≠ "" →
  PolicyTool.messageId tool = messageId →
  find (λ s, strict_eq (ISchema.name s) (ofText name)) schemas
  = Some schema →
  ISchema.iri schema = VStr iri →
  iri ≠ "" →
  let stub := XlsxResult.addTool worksheet name messageId this in
  XlsxResult.findIri (VStr id) stub = None
  ∧ XlsxResult.findIri (VStr id) (XlsxResult.updateTool tool schemas stub)
    = Some iri.
Proof.
  intros Hlink Hws Hwne Htool Hfind Hiri Hne stub.
  assert (Htruthy := text_truthy_nonempty _ Hwne).
  split.
  - unfold XlsxResult.findIri, XlsxResult.getLink, XlsxResult.findCache.
    assert (Hlinks : XlsxResult._linkCache stub = XlsxResult._linkCache this)
      by (by destruct this).
    rewrite Hlinks, Hlink, Hws, Htruthy.
    subst stub. destruct this; cbn. by rewrite lookup_insert_eq.
  - unfold XlsxResult.findIri, XlsxResult.getLink, XlsxResult.findCache.
    assert (Hlinks : XlsxResult._linkCache
                       (XlsxResult.updateTool tool schemas stub)
                     = XlsxResult._linkCache this)
      by (by destruct this).
    rewrite Hlinks, Hlink, Hws, Htruthy.
    subst stub. destruct this; cbn.
    rewrite lookup_fmap, lookup_insert_eq. cbn.
    rewrite Htool, strict_eq_same.
    cbn [ICache.name]. rewrite Hfind. cbn. rewrite Hiri. cbn.
    apply String.eqb_neq in Hne. by rewrite Hne.
Qed.

(** The example: the tool sheet of the sample workbook and a tool that
    brings a schema named after it. *)
Lemma tool_reference_witness :
  XlsxResult.findIri (VStr "link_0")
    (XlsxResult.addTool Sample.co2tool (Some "CO2 readings")
       (VStr "0.0.555")
       (XlsxResult.addLink (Some "Readings")
          (Some (Hyperlink.mk (Some "CO2"))) XlsxResult.new).2)
  = None
  ∧ XlsxResult.findIri (VStr "link_0")
      (XlsxResult.updateTool
         (PolicyTool.mk (VStr "u-1") (VStr "CO2Tool") (VStr "0.0.555"))
         [ISchema.mk (VStr "CO2 readings") (VStr "#co2")]
         (XlsxResult.addTool Sample.co2tool (Some "CO2 readings")
            (VStr "0.0.555")
            (XlsxResult.addLink (Some "Readings")
               (Some (Hyperlink.mk (Some "CO2"))) XlsxResult.new).2))
    = Some "#co2".
Proof.
  apply (tool_reference_resolves_after_updateTool Sample.co2tool
           (Some "CO2 readings") (VStr "0.0.555")
           (XlsxResult.addLink (Some "Readings")
              (Some (Hyperlink.mk (Some "CO2"))) XlsxResult.new).2
           (PolicyTool.mk (VStr "u-1") (VStr "CO2Tool") (VStr "0.0.555"))
           [ISchema.mk (VStr "CO2 readings") (VStr "#co2")]
           (ISchema.mk (VStr "CO2 readings") (VStr "#co2"))
           "link_0" "#co2" (ILink.mk (Some "Readings") (Some "CO2"))).
  - vm_compute; reflexivity.
  - reflexivity.
  - discriminate.
  - reflexivity.
  - vm_compute; reflexivity.
  - reflexivity.
  - discriminate.
Defined.

(** X4: [updateTool] appends the tool, refreshes IRIs and nothing else:
    the schemas, the errors and the links of the result are as before,
    no cache entry appears or disappears, every entry keeps its name
    and its tool id, and an entry of another tool is left as it was. *)
Theorem updateTool_touches_only_its_tool (tool : PolicyTool.t)
    (schemas : list ISchema.t) (this : XlsxResult.t) :
  let this' := XlsxResult.updateTool tool schemas this in
  let kept (cache cache' : option ICache.t) :=
    match cache, cache' with
    | Some c, Some c' =>
        ICache.name c' = ICache.name c
        ∧ ICache.toolId c' = ICache.toolId c
        ∧ (ICache.toolId c ≠ PolicyTool.messageId tool → c' = c)
    | None, None => True
    | _, _ => False
    end in
  XlsxResult._schemas this' = XlsxResult._schemas this
  ∧ XlsxResult._errors this' = XlsxResult._errors this
  ∧ XlsxResult._linkCache this' = XlsxResult._linkCache this
  ∧ XlsxResult._tools this' = XlsxResult._tools this ++ [tool]
  ∧ (∀ key,
       kept (XlsxResult._schemaWorksheetCache this !! key)
         (XlsxResult._schemaWorksheetCache this' !! key))
  ∧ (∀ key,
       kept (XlsxResult._schemaNameCache this !! key)
         (XlsxResult._schemaNameCache this' !! key)).
Proof.
  intros this' kept. subst this'. destruct this; cbn.
  split_and!; try reflexivity.
  - intros key. rewrite lookup_fmap.
    destruct (_schemaWorksheetCache !! key) as [c|]; cbn; [|done].
    destruct (decide (ICache.toolId c = PolicyTool.messageId tool))
      as [Heq|Hne];
      [rewrite Heq, strict_eq_same|rewrite strict_eq_other by done];
      cbn; split_and!; done.
  - intros key. rewrite lookup_fmap.
    destruct (_schemaNameCache !! key) as [c|]; cbn; [|done].
    destruct (decide (ICache.toolId c = PolicyTool.messageId tool))
      as [Heq|Hne];
      [rewrite Heq, strict_eq_same|rewrite strict_eq_other by done];
      cbn; split_and!; done.
Qed.

(** X5: the test [cache.toolId === tool.messageId] of [updateTool] also
    holds between a tool whose message id is [undefined] and an entry
    made by [addSchema], which has no tool id.  A schema registered
    with [addSchema] resolves for a reference to its worksheet; after
    [updateTool] for such a tool whose schemas have none of that name,
    the entry has lost its IRI and the reference resolves no more.  For
    a tool of any other message id, [null] included, the entry keeps
    its IRI. *)
Theorem updateTool_without_id_unregisters (worksheet : Worksheet.t)
    (name : option string) (schema : Schema.t) (this : XlsxResult.t)
    (tool other : PolicyTool.t) (schemas schemas' : list ISchema.t)
    (id iri : string) (link : ILink.t) :
  XlsxResult._linkCache this !! id = Some link →
  ILink.worksheet link = Some (Worksheet.name worksheet) →
  Worksheet.name worksheet ≠ "" →
  Schema.iri schema = Some iri →
  iri ≠ "" →
  PolicyTool.messageId tool = VUndef →
  find (λ s, strict_eq (ISchema.name s) (ofText name)) schemas = None →
  PolicyTool.messageId other ≠ VUndef →
  let registered := XlsxResult.addSchema worksheet name schema this in
  XlsxResult.findIri (VStr id) registered = Some iri
  ∧ XlsxResult.findIri (VStr id)
      (XlsxResult.updateTool tool schemas registered) = None
  ∧ XlsxResult.findIri (VStr id)
      (XlsxResult.updateTool other schemas' registered) = Some iri.
Proof.
  intros Hlink Hws Hwne Hiri Hne Htool Hfind Hother registered.
  assert (Htruthy := text_truthy_nonempty _ Hwne).
  apply String.eqb_neq in Hne.
  assert (Hlinks : ∀ t l,
    XlsxResult._linkCache (XlsxResult.updateTool t l registered)
    = XlsxResult._linkCache this)
    by (intros t l; by destruct this).
  split_and!.
  - unfold XlsxResult.findIri, XlsxResult.getLink, XlsxResult.findCache.
    assert (Hlinks' : XlsxResult._linkCache registered
                      = XlsxResult._linkCache this)
      by (by destruct this).
    rewrite Hlinks', Hlink, Hws, Htruthy.
    subst registered. destruct this; cbn. rewrite lookup_insert_eq.
    rewrite Hiri. cbn. by rewrite Hne.
  - unfold XlsxResult.findIri, XlsxResult.getLink, XlsxResult.findCache.
    rewrite Hlinks, Hlink, Hws, Htruthy.
    subst registered. destruct this; cbn.
    rewrite lookup_fmap, lookup_insert_eq. cbn.
    rewrite Htool, strict_eq_same.
    cbn [ICache.name]. by rewrite Hfind.
  - unfold XlsxResult.findIri, XlsxResult.getLink, XlsxResult.findCache.
    rewrite Hlinks, Hlink, Hws, Htruthy.
    subst registered. destruct this; cbn.
    rewrite lookup_fmap, lookup_insert_eq. cbn.
    rewrite strict_eq_other by congruence.
    cbn. rewrite Hiri. cbn. by rewrite Hne.
Qed.

(** The example: the sheet Place, registered, a tool whose message id
    is [undefined] and a tool whose message id is [null]. *)
Lemma updateTool_without_id_witness :
  let registered :=
    XlsxResult.addSchema Sample.place (Some "Place")
      (Schema.set_iri (Some "#Place") Schema.new)
      (XlsxResult.addLink (Some "Place")
         (Some (Hyperlink.mk (Some "Place"))) XlsxResult.new).2 in
  XlsxResult.findIri (VStr "link_0") registered = Some "#Place"
  ∧ XlsxResult.findIri (VStr "link_0")
      (XlsxResult.updateTool (PolicyTool.mk (VStr "u-1") (VStr "Draft") VUndef)
         [] registered)
    = None
  ∧ XlsxResult.findIri (VStr "link_0")
      (XlsxResult.updateTool (PolicyTool.mk (VStr "u-2") (VStr "Draft") VNull)
         [] registered)
    = Some "#Place".
Proof.
  cbv zeta.
  apply (updateTool_without_id_unregisters Sample.place (Some "Place")
           (Schema.set_iri (Some "#Place") Schema.new)
           (XlsxResult.addLink (Some "Place")
              (Some (Hyperlink.mk (Some "Place"))) XlsxResult.new).2
           (PolicyTool.mk (VStr "u-1") (VStr "Draft") VUndef)
           (PolicyTool.mk (VStr "u-2") (VStr "Draft") VNull) [] []
           "link_0" "#Place" (ILink.mk (Some "Place") (Some "Place"))).
  - vm_compute; reflexivity.
  - reflexivity.
  - discriminate.
  - reflexivity.
  - discriminate.
  - reflexivity.
  - reflexivity.
  - discriminate.
Defined.





(** ** The final pass, again *)

Section final_pass_again.
Context `{Collaborators}.

Lemma resolved_frame (field : SchemaField.t) (this : XlsxResult.t)
    schemas errors :
  XlsxResult.resolved
    (XlsxResult.set_errors errors (XlsxResult.set_schemas schemas this)) field
  = XlsxResult.resolved this field.
Proof.
  unfold XlsxResult.resolved at 1. by rewrite resolveField_frame.
Qed.

Lemma complaints_frame (field : SchemaField.t) (this : XlsxResult.t)
    schemas errors :
  XlsxResult.complaints
    (XlsxResult.set_errors errors (XlsxResult.set_schemas schemas this)) field
  = XlsxResult.complaints this field.
Proof.
  unfold XlsxResult.complaints, XlsxResult.unresolved.
  by rewrite findIri_frame.
Qed.

Lemma getLink_findIri (type : JsVal) (this : XlsxResult.t) :
  XlsxResult.getLink type this = None → XlsxResult.findIri type this = None.
Proof. intros Hlink. unfold XlsxResult.findIri. by rewrite Hlink. Qed.

(** X7: the final pass is to be run once.  A reference the pass has
    resolved holds an IRI, which is no link id: a second pass finds no
    link for it, records "Sub-schema (IRI) not found." and leaves the
    field with the type [undefined]. *)
Theorem second_pass_unresolves (this : XlsxResult.t) (i j : nat)
    (schema : Schema.t) (field : SchemaField.t) (iri : string) :
  (∀ schema schemas, Schema_updateRefs schema schemas = inr ()) →
  XlsxResult._schemas this !! i = Some schema →
  Schema.fields schema !! j = Some field →
  truthy (SchemaField.isRef field) = true →
  SchemaField.type field ≠ VStr "#GeoJSON" →
  XlsxResult.findIri (SchemaField.type field) this = Some iri →
  iri ≠ "#GeoJSON" →
  XlsxResult.getLink (VStr iri) this = None →
  let once := XlsxResult.updateSchemas this in
  let twice := XlsxResult.updateSchemas once in
  let error := XlsxResult.subSchemaError (VStr iri) in
  ∃ schema1 field1 schema2 field2,
    XlsxResult._schemas once !! i = Some schema1
    ∧ Schema.fields schema1 !! j = Some field1
    ∧ field1 = SchemaField.set_type (VStr iri) field
    ∧ XlsxResult._schemas twice !! i = Some schema2
    ∧ Schema.fields schema2 !! j = Some field2
    ∧ SchemaField.type field2 = VUndef
    ∧ SchemaField.errors field2 = push_error error (SchemaField.errors field)
    ∧ error ∈ XlsxResult._errors twice.
Proof.
  intros Hrefs Hschema Hfield Href Hgeo Hiri Hgeo' Hlink once twice error.
  assert (Hfields : ∀ that s k,
    Schema.fields (XlsxResult.resolvedSchema that s) !! k
    = XlsxResult.resolved that <$> Schema.fields s !! k).
  { intros that s k. unfold XlsxResult.resolvedSchema.
    destruct s; cbn. apply list_lookup_fmap. }
  set (field1 := SchemaField.set_type (VStr iri) field).
  assert (H1 : XlsxResult.resolved this field = field1)
    by (by apply resolved_found).
  assert (Href1 : truthy (SchemaField.isRef field1) = true)
    by (subst field1; by destruct field).
  assert (Htype1 : SchemaField.type field1 = VStr iri)
    by (subst field1; by destruct field).
  destruct (resolved_not_found this field1) as [H2 Hcompl].
  { done. }
  { rewrite Htype1. congruence. }
  { rewrite Htype1. by apply getLink_findIri. }
  rewrite Htype1 in H2, Hcompl. fold error in H2, Hcompl.
  exists (XlsxResult.resolvedSchema this schema), field1,
    (XlsxResult.resolvedSchema this
       (XlsxResult.resolvedSchema this schema)),
    (XlsxResult.resolved this field1).
  subst twice once. rewrite (updateSchemas_spec this) by done.
  rewrite updateSchemas_spec by done.
  rewrite !schemas_after_set, errors_after_set.
  split_and!.
  - by rewrite list_lookup_fmap, Hschema.
  - rewrite Hfields, Hfield. cbn. by rewrite H1.
  - reflexivity.
  - rewrite !list_lookup_fmap, Hschema. cbn. f_equal.
    unfold XlsxResult.resolvedSchema. f_equal.
    apply map_ext. intros f. apply resolved_frame.
  - rewrite !Hfields, Hfield. cbn. by rewrite H1.
  - rewrite H2. by destruct field.
  - rewrite H2. subst field1. by destruct field.
  - apply elem_of_app. right. apply list_elem_of_bind.
    exists (XlsxResult.resolvedSchema this schema). split.
    + unfold XlsxResult.schemaComplaints. apply list_elem_of_bind.
      exists field1. split.
      * rewrite complaints_frame, Hcompl. by apply list_elem_of_singleton.
      * eapply list_elem_of_lookup_2. rewrite Hfields, Hfield. cbn.
        by rewrite H1.
    + eapply list_elem_of_lookup_2.
      by rewrite list_lookup_fmap, Hschema.
Qed.

Lemma retyped_refl (field : SchemaField.t) : retyped field field.
Proof.
  exists (SchemaField.type field), (SchemaField.errors field).
  by destruct field.
Qed.

Lemma retyped_trans (f g h : SchemaField.t) :
  retyped f g → retyped g h → retyped f h.
Proof.
  intros (t1 & e1 & ->) (t2 & e2 & ->). exists t2, e2. by destruct f.
Qed.

Lemma retyped_resolved (this : XlsxResult.t) (field : SchemaField.t) :
  retyped field (XlsxResult.resolved this field).
Proof.
  unfold XlsxResult.resolved, XlsxResult.resolveField,
    XlsxResult.getSubSchema.
  destruct (truthy (SchemaField.isRef field)); [|apply retyped_refl].
  destruct (strict_eq (SchemaField.type field) (VStr "#GeoJSON")) eqn:Hgeo.
  - cbn. exists (VStr "#GeoJSON"), (SchemaField.errors field).
    by destruct field.
  - destruct (XlsxResult.findIri (SchemaField.type field) this) as [iri|]; cbn.
    + exists (VStr iri), (SchemaField.errors field). by destruct field.
    + eexists VUndef, _. destruct field; reflexivity.
Qed.

(** What the pass may change of a schema: the type and the errors of
    its fields. *)
Lemma resolvedSchema_shape (this : XlsxResult.t) (schema : Schema.t) :
  XlsxResult.resolvedSchema this schema
  = Schema.set_fields
      (Schema.fields (XlsxResult.resolvedSchema this schema)) schema
  ∧ Forall2 retyped (Schema.fields schema)
      (Schema.fields (XlsxResult.resolvedSchema this schema)).
Proof.
  unfold XlsxResult.resolvedSchema. destruct schema; cbn. split; [done|].
  apply Forall2_fmap_r, Forall_Forall2_diag, Forall_forall.
  intros f _. apply retyped_resolved.
Qed.

Lemma updateSchemas_loop_shape (this : XlsxResult.t) :
  ∀ n i schemas errors,
    ∃ thrown schemas' errors',
      XlsxResult.updateSchemas_loop n i
        (XlsxResult.set_errors errors (XlsxResult.set_schemas schemas this))
      = (thrown,
         XlsxResult.set_errors errors'
           (XlsxResult.set_schemas schemas' this))
      ∧ errors `prefix_of` errors'
      ∧ Forall2
          (λ s s',
             s' = Schema.set_fields (Schema.fields s') s
             ∧ Forall2 retyped (Schema.fields s) (Schema.fields s'))
          schemas schemas'.
Proof.
  assert (Hrefl : ∀ schemas : list Schema.t,
    Forall2
      (λ s s',
         s' = Schema.set_fields (Schema.fields s') s
         ∧ Forall2 retyped (Schema.fields s) (Schema.fields s'))
      schemas schemas).
  { intros schemas. apply Forall_Forall2_diag, Forall_forall.
    intros s _. split; [by destruct s|].
    apply Forall_Forall2_diag, Forall_forall. intros f _.
    apply retyped_refl. }
  induction n as [|n IH]; intros i schemas errors.
  - exists None, schemas, errors. cbn. split_and!; [done|done|apply Hrefl].
  - cbn [XlsxResult.updateSchemas_loop]. rewrite schemas_after_set.
    destruct (schemas !! i) as [schema|] eqn:Hi.
    + rewrite resolveFields_frame.
      fold (XlsxResult.resolvedSchema this schema).
      fold (XlsxResult.schemaComplaints this schema).
      set (errors1 := errors ++ _).
      set (schema1 := XlsxResult.resolvedSchema this schema).
      assert (Hset : ∀ l, XlsxResult.set_schemas l
                (XlsxResult.set_errors errors1
                   (XlsxResult.set_schemas schemas this))
              = XlsxResult.set_errors errors1
                  (XlsxResult.set_schemas l this))
        by (intros l; by destruct this).
      rewrite schemas_after_set, Hset.
      assert (Hstep : Forall2
        (λ s s',
           s' = Schema.set_fields (Schema.fields s') s
           ∧ Forall2 retyped (Schema.fields s) (Schema.fields s'))
        schemas (<[i := schema1]> schemas)).
      { rewrite <- (list_insert_id schemas i schema Hi) at 1.
        apply Forall2_insert; [apply Hrefl|].
        apply resolvedSchema_shape. }
      rewrite schemas_after_set.
      destruct (Schema_updateRefs schema1 (<[i := schema1]> schemas)).
      * eexists _, _, _. split; [reflexivity|]. split; [|exact Hstep].
        by apply prefix_app_r.
      * destruct (IH (S i) (<[i := schema1]> schemas) errors1)
          as (thrown & schemas' & errors' & -> & Hprefix & Hshape).
        exists thrown, schemas', errors'. split; [done|]. split.
        -- etrans; [|exact Hprefix]. by apply prefix_app_r.
        -- clear -Hstep Hshape. revert schemas' Hshape.
           induction Hstep as [|s s1 l l1 [Hs Hf] _ IHl];
             intros schemas' Hshape.
           ++ by apply Forall2_nil_inv_l in Hshape as ->.
           ++ apply Forall2_cons_inv_l in Hshape
                as (s2 & l2 & [Hs2 Hf2] & Hl2 & ->).
              constructor; [|by apply IHl].
              split.
              ** rewrite Hs2 at 1. rewrite Hs. by destruct s.
              ** clear -Hf Hf2. revert Hf2.
                 generalize (Schema.fields s2).
                 induction Hf as [|f f1 fs fs1 Hff _ IHf]; intros fs2 Hf2.
                 --- by apply Forall2_nil_inv_l in Hf2 as ->.
                 --- apply Forall2_cons_inv_l in Hf2
                       as (f2 & fs2' & Hff2 & Hfs2 & ->).
                     constructor; [by eapply retyped_trans|by apply IHf].
    + exists None, schemas, errors. split_and!; [done|done|apply Hrefl].
Qed.

(** X8: whatever happens in it, the final pass changes nothing of a
    result but its errors, which it only appends to, and, of the
    schemas, the type and the errors of fields: the schemas and their
    fields stay in number and order, every other attribute is kept, and
    the tools and the caches are those of before. *)
Theorem final_pass_rewrites_types_only (this : XlsxResult.t) :
  let this' := XlsxResult.updateSchemas this in
  this'
  = XlsxResult.set_errors (XlsxResult._errors this')
      (XlsxResult.set_schemas (XlsxResult._schemas this') this)
  ∧ XlsxResult._errors this `prefix_of` XlsxResult._errors this'
  ∧ Forall2
      (λ schema schema',
         schema' = Schema.set_fields (Schema.fields schema') schema
         ∧ Forall2 retyped (Schema.fields schema) (Schema.fields schema'))
      (XlsxResult._schemas this) (XlsxResult._schemas this').
Proof.
  intros this'. subst this'. unfold XlsxResult.updateSchemas.
  assert (Hthis : this = XlsxResult.set_errors (XlsxResult._errors this)
            (XlsxResult.set_schemas (XlsxResult._schemas this) this))
    by (by destruct this).
  destruct (updateSchemas_loop_shape this
              (length (XlsxResult._schemas this)) 0
              (XlsxResult._schemas this) (XlsxResult._errors this))
    as (thrown & schemas' & errors' & Hloop & Hprefix & Hshape).
  rewrite <- Hthis in Hloop. rewrite Hloop.
  destruct thrown as [error|].
  - destruct this; cbn in *. split_and!; [done| |done].
    etrans; [exact Hprefix|]. by apply prefix_app_r.
  - destruct this; cbn in *. split_and!; done.
Qed.

Lemma updateSchemas_loop_throws (this : XlsxResult.t) (schema : Schema.t)
    (rest : list Schema.t) (errors : list XlsxError.t) (n : nat)
    (error : Exn) :
  Schema_updateRefs (XlsxResult.resolvedSchema this schema)
    (XlsxResult.resolvedSchema this schema :: rest) = inl error →
  XlsxResult.updateSchemas_loop (S n) 0
    (XlsxResult.set_errors errors
       (XlsxResult.set_schemas (schema :: rest) this))
  = (Some error,
     XlsxResult.set_errors
       (errors ++ XlsxResult.schemaComplaints this schema)
       (XlsxResult.set_schemas
          (XlsxResult.resolvedSchema this schema :: rest) this)).
Proof.
  intros Hthrow. cbn [XlsxResult.updateSchemas_loop].
  rewrite schemas_after_set. cbn [lookup list_lookup].
  rewrite resolveFields_frame.
  fold (XlsxResult.resolvedSchema this schema).
  fold (XlsxResult.schemaComplaints this schema).
  set (errors1 := errors ++ _).
  assert (Hset : ∀ l, XlsxResult.set_schemas l
            (XlsxResult.set_errors errors1
               (XlsxResult.set_schemas (schema :: rest) this))
          = XlsxResult.set_errors errors1 (XlsxResult.set_schemas l this))
    by (intros l; by destruct this).
  rewrite schemas_after_set, Hset, schemas_after_set.
  cbn [insert list_insert]. by rewrite Hthrow.
Qed.

(** X9: when the reference update of the first schema throws, the pass
    ends there.  The fields of that schema have been resolved, the
    schemas after it are left as they were, references included, and
    "Failed to parse file." with the text of the exception is the last
    error of the result. *)
Theorem final_pass_stops_at_exception (this : XlsxResult.t)
    (schema : Schema.t) (rest : list Schema.t) (error : Exn) :
  XlsxResult._schemas this = schema :: rest →
  Schema_updateRefs (XlsxResult.resolvedSchema this schema)
    (XlsxResult.resolvedSchema this schema :: rest) = inl error →
  let this' := XlsxResult.updateSchemas this in
  XlsxResult._schemas this' = XlsxResult.resolvedSchema this schema :: rest
  ∧ XlsxResult._errors this'
    = XlsxResult._errors this ++ XlsxResult.schemaComplaints this schema
      ++ [XlsxResult.parseFileError error]
  ∧ XlsxError.text (XlsxResult.parseFileError error) = "Failed to parse file."
  ∧ XlsxError.message (XlsxResult.parseFileError error)
    = Exn_toString error.
Proof.
  intros Hschemas Hthrow this'. subst this'.
  assert (Hthis : this = XlsxResult.set_errors (XlsxResult._errors this)
            (XlsxResult.set_schemas (schema :: rest) this))
    by (rewrite <- Hschemas; by destruct this).
  pose proof (updateSchemas_loop_throws this schema rest
                (XlsxResult._errors this) (length rest) error Hthrow)
    as Hloop.
  rewrite <- Hthis in Hloop.
  unfold XlsxResult.updateSchemas. rewrite Hschemas.
  cbn [length]. rewrite Hloop.
  unfold XlsxResult.addError. rewrite errors_after_set.
  split_and!; try reflexivity.
  - by destruct this.
  - destruct this; cbn. by rewrite <- app_assoc.
Qed.

End final_pass_again.

(** The example: the reference of [sensor] to the sheet Place, resolved
    by a first pass. *)
Lemma second_pass_witness :
  XlsxResult.findIri (SchemaField.type Sample.placeField) Sample.parsed
  = Some "#Place"
  ∧ XlsxResult.getLink (VStr "#Place") Sample.parsed = None
  ∧ ∃ schema2 field2,
      XlsxResult._schemas
        (XlsxResult.updateSchemas (XlsxResult.updateSchemas Sample.parsed))
        !! 0 = Some schema2
      ∧ Schema.fields schema2 !! 7 = Some field2
      ∧ SchemaField.type field2 = VUndef.
Proof.
  split; [vm_compute; reflexivity|]. split; [vm_compute; reflexivity|].
  destruct (second_pass_unresolves Sample.parsed 0 7 Sample.sensorSchema
              Sample.placeField "#Place")
    as (schema1 & field1 & schema2 & field2 & _ & _ & _ & Hschema & Hfield
        & Htype & _).
  - intros; reflexivity.
  - vm_compute; reflexivity.
  - vm_compute; reflexivity.
  - vm_compute; reflexivity.
  - vm_compute; discriminate.
  - vm_compute; reflexivity.
  - discriminate.
  - vm_compute; reflexivity.
  - exists schema2, field2. split_and!; assumption.
Defined.

(** The example: the result of the sample workbook with collaborators
    whose reference update throws. *)
Lemma final_pass_stops_witness :
  XlsxResult._schemas Sample.parsed
  = Sample.sensorSchema :: drop 1 (XlsxResult._schemas Sample.parsed)
  ∧ XlsxResult._schemas (@XlsxResult.updateSchemas failing Sample.parsed)
    = XlsxResult.resolvedSchema Sample.parsed Sample.sensorSchema
      :: drop 1 (XlsxResult._schemas Sample.parsed).
Proof.
  assert (Hschemas : XlsxResult._schemas Sample.parsed
    = Sample.sensorSchema :: drop 1 (XlsxResult._schemas Sample.parsed))
    by (vm_compute; reflexivity).
  split; [exact Hschemas|].
  pose proof (@final_pass_stops_at_exception failing Sample.parsed
                Sample.sensorSchema
                (drop 1 (XlsxResult._schemas Sample.parsed))
                (TypeError "references") Hschemas eq_refl) as Hpass.
  cbv zeta in Hpass. destruct Hpass as (Hresult & _). exact Hresult.
Defined.

(** ** The grammar of visibility formulas *)

Lemma parsFn_not (tree : MathNode) (invert : bool) :
  XlsxToJson.parsFn (call "NOT" [tree]) invert = XlsxToJson.parsFn tree true.
Proof. reflexivity. Qed.

(** X10: negations do not cancel.  Under one call of NOT or more, two
    included, EXACT(reference, literal) parses to the inverted
    condition, whatever flag the parse started with. *)
Theorem negations_do_not_cancel (n : nat) (name : string) (value : JsVal)
    (invert : bool) :
  XlsxToJson.parsFn
    (nots (S n) (call "EXACT" [SymbolNode name; ConstantNode value])) invert
  = Some (ParsedNode.mk (VStr name) value true).
Proof.
  revert invert. induction n as [|n IH]; intros invert.
  - reflexivity.
  - change (nots (S (S n)) ?t) with (call "NOT" [nots (S n) t]).
    rewrite parsFn_not. apply IH.
Qed.

Lemma parsFn_sound :
  ∀ tree invert node,
    XlsxToJson.parsFn tree invert = Some node → Accepted tree invert node.
Proof.
  fix IH 1. intros tree invert node.
  destruct tree as [value|name|fn args|type name]; cbn; try discriminate.
  destruct (strict_eq (MathNode_name fn) (VStr "EXACT")) eqn:Hexact.
  - apply bool_decide_eq_true_1 in Hexact.
    assert (Hnot : strict_eq (MathNode_name fn) (VStr "NOT") = false)
      by (apply bool_decide_eq_false_2; congruence).
    rewrite Hnot.
    destruct args as [|a [|b [|c args]]]; cbn; try discriminate.
    destruct a as [va|na|fa aa|ta na], b as [vb|nb|fb ab|tb nb];
      try discriminate; intros [= <-]; by constructor.
  - cbn. destruct (strict_eq (MathNode_name fn) (VStr "NOT")) eqn:Hnot;
      cbn; [|discriminate].
    apply bool_decide_eq_true_1 in Hnot.
    destruct args as [|a [|b args]]; cbn; try discriminate.
    intros Harg. apply accepted_not; [done|]. by apply IH.
Qed.

Lemma parsFn_complete (tree : MathNode) (invert : bool)
    (node : ParsedNode.t) :
  Accepted tree invert node → XlsxToJson.parsFn tree invert = Some node.
Proof.
  induction 1 as [fn name value invert Hfn|fn name value invert Hfn
                 |fn arg invert node Hfn _ IH]; cbn; rewrite Hfn; cbn.
  - reflexivity.
  - reflexivity.
  - exact IH.
Qed.

(** X11: what [parsFn] accepts.  A tree parses to a node exactly when it
    is a call of two arguments, a symbol and a constant in either order,
    of something named EXACT, or a call of one argument, itself
    accepted as inverted, of something named NOT.  So EXACT of two
    references, of two literals or of another number of arguments is
    rejected, and so is any other function. *)
Theorem parsFn_accepts_exactly (tree : MathNode) (invert : bool)
    (node : ParsedNode.t) :
  XlsxToJson.parsFn tree invert = Some node ↔ Accepted tree invert node.
Proof. split; [apply parsFn_sound|apply parsFn_complete]. Qed.

Section formulas.
Context `{Collaborators}.

(** X12: [parseCondition] returns [null] for the empty text and for
    nothing else: any other text, and either boolean, gives a
    condition or an exception. *)
Theorem parseCondition_null_only_for_empty (formulae : Formulae) :
  XlsxToJson.parseCondition formulae = inr None ↔ formulae = FText "".
Proof.
  split.
  - destruct formulae as [s|[|]]; cbn; try discriminate.
    destruct (String.eqb s "") eqn:Hs.
    + apply String.eqb_eq in Hs. by subst.
    + destruct (String.eqb s "TRUE"); [discriminate|].
      destruct (String.eqb s "FALSE"); [discriminate|].
      destruct (mathjs_parse s) as [e|tree]; cbn; [discriminate|].
      destruct (XlsxToJson.parsFn tree false); discriminate.
  - intros ->. reflexivity.
Qed.

End formulas.

(** ** The lines of a parameter cell *)

Lemma ascii_eqb_LF_CR : Ascii.eqb CR LF = false.
Proof. reflexivity. Qed.

Lemma splitLines_nonempty (s : string) : splitLines s ≠ [].
Proof.
  induction s as [|c s IH]; cbn; [done|].
  destruct (Ascii.eqb c LF); [done|].
  destruct (Ascii.eqb c CR).
  - destruct s as [|c' s']; [by destruct (splitLines "")|].
    destruct (Ascii.eqb c' LF); [done|].
    by destruct (splitLines (String c' s')).
  - by destruct (splitLines s).
Qed.

Lemma splitLines_plain (s : string) :
  hasChar LF s = false → splitLines s = [s].
Proof.
  induction s as [|c s IH]; cbn; [done|].
  intros [Hc Hs]%orb_false_elim. rewrite Hc, (IH Hs).
  destruct (Ascii.eqb c CR); [|done].
  destruct s as [|c' s']; [done|].
  cbn in Hs. apply orb_false_elim in Hs as [-> _]. done.
Qed.

Lemma plainLine_tail (c : Ascii.ascii) (s : string) :
  plainLine (String c s) = true →
  Ascii.eqb c LF = false
  ∧ plainLine s = true
  ∧ (Ascii.eqb c CR = true → s ≠ "").
Proof.
  unfold plainLine. cbn. intros [Hlf Hcr]%andb_true_iff.
  apply negb_true_iff, orb_false_elim in Hlf as [Hc Hs].
  apply negb_true_iff in Hcr. rewrite Hs. cbn. split_and!; [done| |].
  - destruct s; [done|]. by rewrite Hcr.
  - intros Hc' ->. congruence.
Qed.

Lemma splitLines_line (l rest : string) :
  plainLine l = true →
  splitLines (l +:+ String LF rest) = l :: splitLines rest
  ∧ splitLines (l +:+ String CR (String LF rest)) = l :: splitLines rest.
Proof.
  induction l as [|c l IH]; intros Hplain.
  - split; reflexivity.
  - apply plainLine_tail in Hplain as (Hc & Hl & Hcr).
    destruct (IH Hl) as [IH1 IH2].
    split.
    + change (String c l +:+ String LF rest)
        with (String c (l +:+ String LF rest)).
      cbn [splitLines]. rewrite Hc, IH1.
      destruct (Ascii.eqb c CR); [|done].
      destruct l as [|c' l']; [by destruct Hcr|].
      apply plainLine_tail in Hl as (Hc' & _).
      change (String c' l' +:+ String LF rest)
        with (String c' (l' +:+ String LF rest)).
      cbv beta iota. by rewrite Hc'.
    + change (String c l +:+ String CR (String LF rest))
        with (String c (l +:+ String CR (String LF rest))).
      cbn [splitLines]. rewrite Hc, IH2.
      destruct (Ascii.eqb c CR); [|done].
      destruct l as [|c' l']; [by destruct Hcr|].
      apply plainLine_tail in Hl as (Hc' & _).
      change (String c' l' +:+ String CR (String LF rest))
        with (String c' (l' +:+ String CR (String LF rest))).
      cbv beta iota. by rewrite Hc'.
Qed.

(** X13: the enumeration of a parameter cell is read back as it was
    written.  Lines without a line feed in them and without a carriage
    return at their end, joined by line feeds or by carriage return and
    line feed, are the lines [splitLines] returns. *)
Theorem splitLines_reads_back (lines : list string) :
  lines ≠ [] →
  forallb plainLine lines = true →
  splitLines (String.concat (String LF "") lines) = lines
  ∧ splitLines (String.concat (String CR (String LF "")) lines) = lines.
Proof.
  induction lines as [|l lines IH]; [done|]. intros _ Hall.
  cbn in Hall. apply andb_true_iff in Hall as [Hl Hall].
  destruct lines as [|l' lines'].
  - cbn. apply andb_true_iff in Hl as [Hlf _].
    apply negb_true_iff in Hlf. by rewrite splitLines_plain.
  - destruct IH as [IH1 IH2]; [done|done|].
    destruct (splitLines_line l
                (String.concat (String LF "") (l' :: lines')) Hl)
      as [H1 _].
    destruct (splitLines_line l
                (String.concat (String CR (String LF "")) (l' :: lines')) Hl)
      as [_ H2].
    split.
    + change (String.concat (String LF "") (l :: l' :: lines'))
        with (l +:+ String LF (String.concat (String LF "") (l' :: lines'))).
      by rewrite H1, IH1.
    + change (String.concat (String CR (String LF "")) (l :: l' :: lines'))
        with (l +:+ String CR
                (String LF
                   (String.concat (String CR (String LF "")) (l' :: lines')))).
      by rewrite H2, IH2.
Qed.

(** The example: the three levels of the sample sheet. *)
Lemma splitLines_reads_back_witness :
  splitLines (String.concat (String LF "") ["Low"; "Medium"; "High"])
  = ["Low"; "Medium"; "High"].
Proof.
  apply (splitLines_reads_back ["Low"; "Medium"; "High"]).
  - discriminate.
  - reflexivity.
Defined.

Lemma keep_LF_free (c : Ascii.ascii) (lines : list string) :
  Ascii.eqb c LF = false →
  Forall (λ l, hasChar LF l = false) lines →
  Forall (λ l, hasChar LF l = false)
    match lines with
    | line :: lines => String c line :: lines
    | [] => [String c ""]
    end.
Proof.
  intros Hc Hlines. destruct Hlines as [|l ls Hl Hls].
  - constructor; [|done]. cbn. by rewrite Hc.
  - constructor; [|done]. cbn. by rewrite Hc, Hl.
Qed.

Lemma keep_concat (c : Ascii.ascii) (lines : list string) :
  lines ≠ [] →
  String.concat (String LF "")
    match lines with
    | line :: lines => String c line :: lines
    | [] => [String c ""]
    end
  = String c (String.concat (String LF "") lines).
Proof. intros Hne. by destruct lines as [|l [|l' ls]]. Qed.

Lemma splitLines_LF_free_step (s : string) :
  Forall (λ l, hasChar LF l = false) (splitLines s)
  ∧ ∀ c, Forall (λ l, hasChar LF l = false) (splitLines (String c s)).
Proof.
  induction s as [|c' s' [IH1 IH2]].
  - split; [by repeat constructor|]. intros c. cbn [splitLines].
    destruct (Ascii.eqb c LF) eqn:Hc; [by repeat constructor|].
    destruct (Ascii.eqb c CR);
      (constructor; [cbn -[LF]; by rewrite Hc|constructor]).
  - split; [apply IH2|]. intros c.
    change (splitLines (String c (String c' s')))
      with (let keep (tail : list string) :=
              match tail with
              | line :: lines => String c line :: lines
              | [] => [String c ""]
              end in
            if Ascii.eqb c LF then "" :: splitLines (String c' s')
            else if Ascii.eqb c CR then
              if Ascii.eqb c' LF then "" :: splitLines s'
              else keep (splitLines (String c' s'))
            else keep (splitLines (String c' s'))).
    cbv zeta beta.
    destruct (Ascii.eqb c LF) eqn:Hc; [constructor; [done|apply IH2]|].
    destruct (Ascii.eqb c CR).
    + destruct (Ascii.eqb c' LF); [by constructor|].
      apply keep_LF_free; [done|apply IH2].
    + apply keep_LF_free; [done|apply IH2].
Qed.

(** X14: no line [splitLines] returns holds a line feed, there is
    always a line, and for a text without carriage returns the lines
    joined by line feeds are the text. *)
Theorem splitLines_lines (s : string) :
  splitLines s ≠ []
  ∧ Forall (λ l, hasChar LF l = false) (splitLines s)
  ∧ (hasChar CR s = false →
     String.concat (String LF "") (splitLines s) = s).
Proof.
  split; [apply splitLines_nonempty|]. split.
  - apply splitLines_LF_free_step.
  - induction s as [|c s IH]; [done|].
    intros [Hc Hs]%orb_false_elim. specialize (IH Hs).
    pose proof (splitLines_nonempty s) as Hne.
    cbn [splitLines]. rewrite Hc.
    destruct (Ascii.eqb c LF) eqn:Hlf.
    + apply Ascii.eqb_eq in Hlf as ->.
      destruct (splitLines s) as [|l ls] eqn:Hsplit; [done|].
      change (String.concat (String LF "") ("" :: l :: ls))
        with (String LF (String.concat (String LF "") (l :: ls))).
      by rewrite IH.
    + rewrite keep_concat by done. by rewrite IH.
Qed.

(** The example: a text of two lines. *)
Lemma splitLines_lines_witness :
  hasChar CR ("kg" +:+ String LF "m") = false
  ∧ String.concat (String LF "") (splitLines ("kg" +:+ String LF "m"))
    = "kg" +:+ String LF "m".
Proof.
  split; [reflexivity|].
  apply (splitLines_lines ("kg" +:+ String LF "m")). reflexivity.
Defined.

(** ** Rows and sheets *)

Lemma keeps_refl (this : XlsxResult.t) : keeps this this.
Proof. unfold keeps. split_and!; done. Qed.

Lemma keeps_trans (a b c : XlsxResult.t) : keeps a b → keeps b c → keeps a c.
Proof.
  intros (H1 & H2 & H3 & H4 & H5 & H6 & H7)
         (G1 & G2 & G3 & G4 & G5 & G6 & G7).
  unfold keeps. split_and!; try congruence.
  - by etrans.
  - intros Hdense. destruct (H7 Hdense) as [Hb Hsub].
    destruct (G7 Hb) as [Hc Hsub']. split; [done|]. by etrans.
Qed.

Lemma keeps_addError (error : XlsxError.t) (this : XlsxResult.t) :
  keeps this (XlsxResult.addError error this).
Proof.
  unfold keeps. destruct this; cbn. split_and!; try done.
  by apply prefix_app_r.
Qed.

Lemma keeps_addLink (name : option string) (hyperlink : option Hyperlink.t)
    (this : XlsxResult.t) :
  keeps this (XlsxResult.addLink name hyperlink this).2.
Proof.
  unfold keeps. destruct this as [a1 a2 a3 a4 a5 a6 links]; cbn.
  split_and!; try done. intros Hdense.
  destruct (denseLinks_insert links
              (ILink.mk name (linkedWorksheet hyperlink)) Hdense)
    as [Hfresh Hdense'].
  split; [exact Hdense'|]. by apply insert_subseteq.
Qed.

Section rows.
Context `{Collaborators} {T : Type} `{Table.Ops T}.

(** X15: a type label that is not empty and not in the registry makes
    the field a reference.  [readField] mints a link for the label and
    the hyperlink of its cell, gives the field the id of the link as
    its type, records no error, and reads no examples, whatever the
    answer cell holds. *)
Theorem unknown_type_becomes_reference (worksheet : Worksheet.t) (table : T)
    (row : Z) (xlsxResult : XlsxResult.t) :
  let col := Table.getCol Dictionary.FIELD_TYPE table in
  let label := Worksheet.getValue worksheet col row in
  let hyperlink := Cell.getLink (Worksheet.getCell worksheet col row) in
  let id := linkId (size (XlsxResult._linkCache xlsxResult)) in
  let xlsxResult' := (XlsxResult.addLink label hyperlink xlsxResult).2 in
  FieldTypes_findByName label = None →
  text_truthy label = true →
  ∃ field,
    XlsxToJson.readField worksheet table row xlsxResult
    = (Some field, xlsxResult')
    ∧ SchemaField.type field = VStr id
    ∧ SchemaField.isRef field = VBool true
    ∧ SchemaField.examples field = None
    ∧ SchemaField.errors field = None
    ∧ XlsxResult.getLink (VStr id) xlsxResult'
      = Some (ILink.mk label (linkedWorksheet hyperlink))
    ∧ XlsxResult._errors xlsxResult' = XlsxResult._errors xlsxResult.
Proof.
  intros col label hyperlink id xlsxResult' Hfind Htruthy.
  subst xlsxResult' id hyperlink label col.
  unfold XlsxToJson.readField. cbv beta zeta. rewrite Hfind, Htruthy.
  eexists. split; [reflexivity|].
  destruct xlsxResult; cbn. split_and!; try reflexivity.
  apply lookup_insert_eq.
Qed.

Lemma readFieldParams_examples (worksheet : Worksheet.t) (table : T)
    (field : SchemaField.t) (fieldType : IFieldTypes.t) (row : Z)
    (xlsxResult : XlsxResult.t) :
  SchemaField.examples
    (XlsxToJson.readFieldParams worksheet table field fieldType row
       xlsxResult).1
  = SchemaField.examples field
  ∧ SchemaField.name
      (XlsxToJson.readFieldParams worksheet table field fieldType row
         xlsxResult).1
    = SchemaField.name field
  ∧ (XlsxToJson.readFieldParams worksheet table field fieldType row
       xlsxResult).2 = xlsxResult.
Proof.
  unfold XlsxToJson.readFieldParams. cbn [fst snd].
  destruct (String.eqb (IFieldTypes.name fieldType) "Prefix");
    destruct (String.eqb (IFieldTypes.name fieldType) "Postfix");
    destruct (String.eqb (IFieldTypes.name fieldType) "Enum");
    destruct (String.eqb (IFieldTypes.name fieldType) "Help Text");
    destruct (Worksheet.getValue worksheet
                (Table.getCol Dictionary.PARAMETER table) row) as [text|];
    try destruct (text_truthy (Some text));
    destruct field; cbn; split_and!; reflexivity.
Qed.

(** X16: a row whose type is the auto-calculate label has no examples,
    whatever its answer cell holds and whether or not the registry knows
    the label. *)
Theorem auto_calculate_has_no_examples (worksheet : Worksheet.t) (table : T)
    (row : Z) (xlsxResult : XlsxResult.t) :
  Worksheet.getValue worksheet (Table.getCol Dictionary.FIELD_TYPE table) row
  = Some Dictionary.AUTO_CALCULATE →
  ∃ field,
    (XlsxToJson.readField worksheet table row xlsxResult).1 = Some field
    ∧ SchemaField.examples field = None.
Proof.
  intros Htype.
  destruct (FieldTypes_findByName (Some Dictionary.AUTO_CALCULATE))
    as [fieldType|] eqn:Hfind.
  - rewrite (readField_recognized worksheet table row xlsxResult fieldType)
      by (by rewrite Htype).
    eexists. split; [reflexivity|].
    unfold XlsxToJson.withExamples. cbv beta zeta. rewrite Htype.
    rewrite bool_decide_eq_true_2 by done.
    assert (Hexamples : SchemaField.examples
      (XlsxToJson.readFieldParams worksheet table
         (XlsxToJson.ofRegistry fieldType
            (XlsxToJson.rowField worksheet table row))
         fieldType row xlsxResult).1 = None).
    { destruct (readFieldParams_examples worksheet table
                  (XlsxToJson.ofRegistry fieldType
                     (XlsxToJson.rowField worksheet table row))
                  fieldType row xlsxResult) as (-> & _). reflexivity. }
    by destruct (negb _).
  - unfold XlsxToJson.readField. cbv beta zeta. rewrite Htype, Hfind.
    destruct (text_truthy (Some Dictionary.AUTO_CALCULATE)).
    + eexists. split; [reflexivity|]. by destruct xlsxResult.
    + eexists. split; [reflexivity|]. cbn.
      rewrite bool_decide_eq_true_2 by done. reflexivity.
Qed.

(** What every call of [readField] gives: a field named by the path of
    the answer cell, and a result that keeps what it held. *)
Lemma readField_result (worksheet : Worksheet.t) (table : T) (row : Z)
    (xlsxResult : XlsxResult.t) :
  ∃ field,
    (XlsxToJson.readField worksheet table row xlsxResult).1 = Some field
    ∧ SchemaField.name field
      = Worksheet.getPath worksheet (Table.getCol Dictionary.ANSWER table) row
    ∧ keeps xlsxResult
        (XlsxToJson.readField worksheet table row xlsxResult).2.
Proof.
  destruct (FieldTypes_findByName
              (Worksheet.getValue worksheet
                 (Table.getCol Dictionary.FIELD_TYPE table) row))
    as [fieldType|] eqn:Hfind.
  - rewrite (readField_recognized worksheet table row xlsxResult fieldType)
      by done.
    eexists. split; [reflexivity|]. split; [|apply keeps_refl].
    cbn [fst]. unfold XlsxToJson.withExamples. cbv beta zeta.
    destruct (readFieldParams_examples worksheet table
                (XlsxToJson.ofRegistry fieldType
                   (XlsxToJson.rowField worksheet table row))
                fieldType row xlsxResult) as (_ & Hname & _).
    assert (Hgoal : SchemaField.name
      (XlsxToJson.readFieldParams worksheet table
         (XlsxToJson.ofRegistry fieldType
            (XlsxToJson.rowField worksheet table row))
         fieldType row xlsxResult).1
      = Worksheet.getPath worksheet
          (Table.getCol Dictionary.ANSWER table) row)
      by (by rewrite Hname).
    repeat match goal with
           | |- context [if ?b then _ else _] => destruct b
           end; try exact Hgoal.
    rewrite <- Hgoal.
    by destruct (XlsxToJson.readFieldParams _ _ _ _ _ _).1.
  - unfold XlsxToJson.readField. cbv beta zeta. rewrite Hfind.
    destruct (text_truthy _).
    + eexists. split; [reflexivity|]. split; [|apply keeps_addLink].
      by destruct xlsxResult.
    + eexists. split; [reflexivity|]. split; [|apply keeps_addError].
      cbn. by repeat match goal with
                     | |- context [if ?b then _ else _] => destruct b
                     end.
Qed.

Lemma cacheOk_names (fields fields' : list SchemaField.t)
    (fieldCache : gmap string nat) :
  SchemaField.name <$> fields' = SchemaField.name <$> fields →
  cacheOk fields fieldCache → cacheOk fields' fieldCache.
Proof.
  intros Hnames Hok name i Hi. destruct (Hok name i Hi) as (f & Hf & Hname).
  assert (Hlookup : (SchemaField.name <$> fields') !! i = Some name).
  { rewrite Hnames, list_lookup_fmap, Hf. cbn. by rewrite Hname. }
  rewrite list_lookup_fmap in Hlookup.
  destruct (fields' !! i) as [f'|]; [|done].
  exists f'. split; [done|]. cbn in Hlookup. congruence.
Qed.

Lemma cacheOk_push (fields : list SchemaField.t)
    (fieldCache : gmap string nat) (field : SchemaField.t) :
  cacheOk fields fieldCache →
  cacheOk (fields ++ [field])
    (<[SchemaField.name field := length fields]> fieldCache).
Proof.
  intros Hok name i. destruct (decide (SchemaField.name field = name))
    as [<-|Hne].
  - rewrite lookup_insert_eq. intros [= <-]. exists field.
    split; [|done]. by rewrite lookup_app_r, Nat.sub_diag.
  - rewrite lookup_insert_ne by done. intros Hi.
    destruct (Hok name i Hi) as (f & Hf & Hname). exists f.
    split; [|done]. by apply lookup_app_l_Some.
Qed.

(** The loop over the field rows: a field per row, cached under the
    path of its answer cell. *)
Lemma readFields_spec (worksheet : Worksheet.t) (table : T) :
  ∀ n row fields fieldCache xlsxResult,
    cacheOk fields fieldCache →
    ∃ fields' fieldCache' xlsxResult',
      XlsxToJson.readFields worksheet table n row fields fieldCache
        xlsxResult
      = (fields', fieldCache', xlsxResult')
      ∧ SchemaField.name <$> fields'
        = (SchemaField.name <$> fields)
          ++ ((λ k : nat,
                 Worksheet.getPath worksheet
                   (Table.getCol Dictionary.ANSWER table)
                   (row + Z.of_nat k)%Z) <$> seq 0 n)
      ∧ cacheOk fields' fieldCache'
      ∧ (∀ name, is_Some (fieldCache !! name) →
                 is_Some (fieldCache' !! name))
      ∧ (∀ k : nat, k < n →
           is_Some
             (fieldCache'
                !! Worksheet.getPath worksheet
                     (Table.getCol Dictionary.ANSWER table)
                     (row + Z.of_nat k)%Z))
      ∧ keeps xlsxResult xlsxResult'.
Proof.
  induction n as [|n IH]; intros row fields fieldCache xlsxResult Hok.
  - exists fields, fieldCache, xlsxResult. cbn.
    split_and!; [done|by rewrite app_nil_r|done|done|lia|apply keeps_refl].
  - cbn [XlsxToJson.readFields].
    destruct (readField_result worksheet table row xlsxResult)
      as (field & Hfield & Hname & Hkeeps).
    destruct (XlsxToJson.readField worksheet table row xlsxResult)
      as [read xlsxResult1]. cbn in Hfield, Hkeeps. subst read.
    destruct (IH (row + 1)%Z (fields ++ [field])
                (<[SchemaField.name field := length fields]> fieldCache)
                xlsxResult1 (cacheOk_push _ _ _ Hok))
      as (fields' & fieldCache' & xlsxResult' & -> & Hnames & Hok' & Hmono
          & Hrows & Hkeeps').
    exists fields', fieldCache', xlsxResult'. split; [done|].
    split_and!.
    + rewrite Hnames, fmap_app, <- app_assoc. f_equal. cbn [fmap list_fmap seq app].
      rewrite Z.add_0_r, Hname. f_equal.
      rewrite <- fmap_S_seq, <- list_fmap_compose.
      apply list_fmap_ext. intros _ k _. cbn. f_equal. lia.
    + exact Hok'.
    + intros name Hsome. apply Hmono.
      by apply lookup_insert_is_Some'; right.
    + intros k Hk. destruct k as [|k].
      * rewrite Z.add_0_r, <- Hname. apply Hmono.
        rewrite lookup_insert_eq. eauto.
      * replace (row + Z.of_nat (S k))%Z with (row + 1 + Z.of_nat k)%Z
          by lia.
        apply Hrows. lia.
    + by eapply keeps_trans.
Qed.

Lemma alter_names (g : SchemaField.t → SchemaField.t) (i : nat)
    (fields : list SchemaField.t) :
  (∀ f, SchemaField.name (g f) = SchemaField.name f) →
  SchemaField.name <$> alter g i fields = SchemaField.name <$> fields.
Proof.
  intros Hg. revert i.
  induction fields as [|f fields IH]; intros [|i]; cbn; f_equal; auto.
Qed.

Lemma addFieldError_names (field : option nat) (e : XlsxError.t)
    (store : Store.t) :
  SchemaField.name <$> Store.fields (Store.addFieldError field e store)
  = SchemaField.name <$> Store.fields store
  ∧ Store.conditions (Store.addFieldError field e store)
    = Store.conditions store.
Proof.
  destruct field as [i|]; cbn; [|done]. split; [|done].
  apply alter_names. by intros [].
Qed.

(** [readCondition] records at most one error and touches nothing else
    of the result. *)
Lemma readCondition_keeps (worksheet : Worksheet.t) (table : T)
    (fieldCache : gmap string nat) (conditionCache : list nat) (row : Z)
    (store : Store.t) (xlsxResult : XlsxResult.t) :
  keeps xlsxResult
    (XlsxToJson.readCondition worksheet table fieldCache conditionCache row
       store xlsxResult).2.
Proof.
  unfold XlsxToJson.readCondition. cbv zeta.
  repeat match goal with
         | |- context [match ?x with _ => _ end] => destruct x
         end; cbn [snd]; apply keeps_refl || apply keeps_addError.
Qed.

Lemma readConditions_keeps (worksheet : Worksheet.t) (table : T)
    (fieldCache : gmap string nat) :
  ∀ n row conditionCache store xlsxResult,
    keeps xlsxResult
      (XlsxToJson.readConditions worksheet table fieldCache n row
         conditionCache store xlsxResult).2.
Proof.
  induction n as [|n IH]; intros row conditionCache store xlsxResult.
  - apply keeps_refl.
  - cbn [XlsxToJson.readConditions].
    pose proof (readCondition_keeps worksheet table fieldCache
                  conditionCache row store xlsxResult) as Hkeeps.
    destruct (XlsxToJson.readCondition _ _ _ _ _ _ _)
      as [[condition store1] xlsxResult1]. cbn [snd] in Hkeeps.
    eapply keeps_trans; [exact Hkeeps|apply IH].
Qed.

Lemma parseSheet_keeps (worksheet : Worksheet.t)
    (xlsxResult : XlsxResult.t) :
  keeps xlsxResult (XlsxToJson.parseSheet worksheet xlsxResult).2.
Proof.
  unfold XlsxToJson.parseSheet. cbv zeta.
  destruct (XlsxToJson.scanHeaders worksheet) as [row table].
  destruct (Table.getErrorHeader table); [apply keeps_addError|].
  destruct (_ || _); [apply keeps_refl|].
  match goal with
  | |- context [XlsxToJson.readFields ?w ?t ?n ?r [] ∅ xlsxResult] =>
      destruct (readFields_spec w t n r [] ∅ xlsxResult)
        as (fields & fieldCache & xlsxResult1 & -> & _ & _ & _ & _ & Hfields);
        [by intros ? ? ?|]
  end.
  match goal with
  | |- context [XlsxToJson.readConditions ?w ?t ?c ?n ?r [] ?s xlsxResult1] =>
      pose proof (readConditions_keeps w t c n r [] s xlsxResult1) as Hconds;
        destruct (XlsxToJson.readConditions w t c n r [] s xlsxResult1)
          as [[conditionCache store] xlsxResult2]
  end.
  cbn [snd] in Hconds.
  assert (Hkeeps : keeps xlsxResult xlsxResult2)
    by (eapply keeps_trans; eassumption).
  destruct (Schema_buildDocument _); cbn [snd]; [|done].
  eapply keeps_trans; [exact Hkeeps|apply keeps_addError].
Qed.

(** X17: whatever a sheet holds, parsing it leaves the schemas, the
    tools and the registrations of the result as they were, keeps every
    error recorded before in its place at the front of the error list,
    and, when the link ids are those [addLink] mints, keeps every link
    and mints the new ones after them. *)
Theorem parseSheet_keeps_the_result (worksheet : Worksheet.t)
    (xlsxResult : XlsxResult.t) :
  let xlsxResult' := (XlsxToJson.parseSheet worksheet xlsxResult).2 in
  XlsxResult.schemas xlsxResult' = XlsxResult.schemas xlsxResult
  ∧ XlsxResult.tools xlsxResult' = XlsxResult.tools xlsxResult
  ∧ XlsxResult.getToolIds xlsxResult' = XlsxResult.getToolIds xlsxResult
  ∧ XlsxResult._schemaWorksheetCache xlsxResult'
    = XlsxResult._schemaWorksheetCache xlsxResult
  ∧ XlsxResult._schemaNameCache xlsxResult'
    = XlsxResult._schemaNameCache xlsxResult
  ∧ XlsxResult._errors xlsxResult `prefix_of` XlsxResult._errors xlsxResult'
  ∧ (denseLinks (XlsxResult._linkCache xlsxResult) →
     denseLinks (XlsxResult._linkCache xlsxResult')
     ∧ XlsxResult._linkCache xlsxResult ⊆ XlsxResult._linkCache xlsxResult').
Proof.
  destruct (parseSheet_keeps worksheet xlsxResult)
    as (Hschemas & Htools & Hids & Hsheets & Hnames & Herrors & Hlinks).
  cbv zeta. unfold XlsxResult.getToolIds. rewrite Hids.
  split_and!; done.
Qed.

Lemma closed_addField (n i : nat) (invert : bool)
    (c : XlsxSchemaConditions.t) :
  i < n →
  closedCondition n (XlsxSchemaConditions.field c)
    (XlsxSchemaConditions.dependents c) →
  closedCondition n
    (XlsxSchemaConditions.field
       (XlsxSchemaConditions.addField (Some i) invert c))
    (XlsxSchemaConditions.dependents
       (XlsxSchemaConditions.addField (Some i) invert c)).
Proof.
  intros Hi [Hfield Hdeps]. split; [exact Hfield|]. cbn.
  apply Forall_app_2; [exact Hdeps|].
  apply Forall_cons; split; [|constructor]. by exists i.
Qed.

(** One call of [readCondition] in the second loop of [parseSheet]:
    the fields keep their names, the conditions stay closed and the
    condition cache keeps pointing at conditions. *)
Lemma readCondition_closed (worksheet : Worksheet.t) (table : T)
    (fieldCache : gmap string nat) (conditionCache : list nat) (row : Z)
    (store : Store.t) (xlsxResult : XlsxResult.t) (names : list string) :
  (∀ name i, fieldCache !! name = Some i → i < length names) →
  is_Some
    (fieldCache
       !! Worksheet.getPath worksheet (Table.getCol Dictionary.ANSWER table)
            row) →
  SchemaField.name <$> Store.fields store = names →
  Forall (λ c, closedCondition (length names) (XlsxSchemaConditions.field c)
                 (XlsxSchemaConditions.dependents c))
    (Store.conditions store) →
  Forall (λ ref, ref < length (Store.conditions store)) conditionCache →
  ∃ condition store' xlsxResult',
    XlsxToJson.readCondition worksheet table fieldCache conditionCache row
      store xlsxResult
    = (condition, store', xlsxResult')
    ∧ SchemaField.name <$> Store.fields store' = names
    ∧ Forall (λ c, closedCondition (length names)
                     (XlsxSchemaConditions.field c)
                     (XlsxSchemaConditions.dependents c))
        (Store.conditions store')
    ∧ Forall (λ ref, ref < length (Store.conditions store'))
        (match condition with
         | Some ref => conditionCache ++ [ref]
         | None => conditionCache
         end).
Proof.
  intros Hbound [i Hi] Hnames Hclosed Hrefs.
  assert (Hlt : i < length names) by eauto.
  assert (Hcaught : ∀ e,
    SchemaField.name <$> Store.fields (Store.addFieldError (Some i) e store)
    = names
    ∧ Forall (λ c, closedCondition (length names)
                     (XlsxSchemaConditions.field c)
                     (XlsxSchemaConditions.dependents c))
        (Store.conditions (Store.addFieldError (Some i) e store))
    ∧ Forall (λ ref,
                ref < length (Store.conditions
                                (Store.addFieldError (Some i) e store)))
        conditionCache).
  { intros e. destruct (addFieldError_names (Some i) e store) as [-> ->].
    done. }
  unfold XlsxToJson.readCondition. cbv beta zeta. rewrite Hi.
  destruct (Worksheet.outColumnRange _ _); [by eauto 10|].
  destruct (XlsxToJson.visibility _)
    as [error|[[value|rfield rvalue invert]|]]; [by eauto 10| | |by eauto 10].
  - eexists _, _, _. split; [reflexivity|]. cbn [Store.fields Store.conditions].
    split_and!; [|done|done].
    rewrite alter_names; [done|]. by intros [].
  - destruct (find _ conditionCache) as [ref|] eqn:Hfind.
    + apply find_some in Hfind as [Hin _]. apply list_elem_of_In in Hin.
      assert (Href : ref < length (Store.conditions store))
        by (by eapply Forall_forall in Hrefs).
      eexists _, _, _. split; [reflexivity|].
      cbn [Store.fields Store.conditions]. split_and!; [done| |].
      * apply Forall_alter; [done|]. intros c _ Hc.
        by apply closed_addField.
      * rewrite length_alter. apply Forall_app_2; [done|].
        by apply Forall_cons.
    + destruct (XlsxToJson.getField fieldCache rfield) as [target|]
        eqn:Htarget; cbn [XlsxSchemaConditions.new]; [|by eauto 10].
      assert (Htlt : target < length names).
      { destruct rfield; cbn in Htarget; try discriminate. eauto. }
      eexists _, _, _. split; [reflexivity|].
      cbn [Store.fields Store.conditions]. split_and!; [done| |].
      * apply Forall_app_2; [done|]. apply Forall_cons; split; [|constructor].
        by apply closed_addField.
      * rewrite length_app. cbn [length]. apply Forall_app_2.
        -- eapply Forall_impl; [exact Hrefs|]. cbn. intros; lia.
        -- apply Forall_cons; split; [lia|constructor].
Qed.

Lemma readConditions_closed (worksheet : Worksheet.t) (table : T)
    (fieldCache : gmap string nat) (names : list string) :
  (∀ name i, fieldCache !! name = Some i → i < length names) →
  ∀ n row conditionCache store xlsxResult,
    (∀ k : nat, k < n →
       is_Some
         (fieldCache
            !! Worksheet.getPath worksheet
                 (Table.getCol Dictionary.ANSWER table)
                 (row + Z.of_nat k)%Z)) →
    SchemaField.name <$> Store.fields store = names →
    Forall (λ c, closedCondition (length names)
                   (XlsxSchemaConditions.field c)
                   (XlsxSchemaConditions.dependents c))
      (Store.conditions store) →
    Forall (λ ref, ref < length (Store.conditions store)) conditionCache →
    ∃ conditionCache' store' xlsxResult',
      XlsxToJson.readConditions worksheet table fieldCache n row
        conditionCache store xlsxResult
      = (conditionCache', store', xlsxResult')
      ∧ SchemaField.name <$> Store.fields store' = names
      ∧ Forall (λ c, closedCondition (length names)
                       (XlsxSchemaConditions.field c)
                       (XlsxSchemaConditions.dependents c))
          (Store.conditions store')
      ∧ Forall (λ ref, ref < length (Store.conditions store'))
          conditionCache'.
Proof.
  intros Hbound.
  induction n as [|n IH];
    intros row conditionCache store xlsxResult Hrows Hnames Hclosed Hrefs.
  - by eauto 10.
  - cbn [XlsxToJson.readConditions].
    assert (Hrow : is_Some
      (fieldCache
         !! Worksheet.getPath worksheet
              (Table.getCol Dictionary.ANSWER table) row)).
    { specialize (Hrows 0 ltac:(lia)). by rewrite Z.add_0_r in Hrows. }
    destruct (readCondition_closed worksheet table fieldCache conditionCache
                row store xlsxResult names Hbound Hrow Hnames Hclosed Hrefs)
      as (condition & store1 & xlsxResult1 & -> & Hnames1 & Hclosed1 & Hrefs1).
    apply IH; [|done..].
    intros k Hk. specialize (Hrows (S k) ltac:(lia)).
    by replace (row + 1 + Z.of_nat k)%Z with (row + Z.of_nat (S k))%Z by lia.
Qed.

Lemma conditionsToJson_closed (n : nat) (conditionCache : list nat)
    (store : Store.t) :
  Forall (λ c, closedCondition n (XlsxSchemaConditions.field c)
                 (XlsxSchemaConditions.dependents c))
    (Store.conditions store) →
  Forall (λ c, closedCondition n (SchemaCondition.field c)
                 (SchemaCondition.dependents c))
    (XlsxToJson.conditionsToJson conditionCache store).
Proof.
  intros Hclosed. unfold XlsxToJson.conditionsToJson.
  apply Forall_forall. intros c Hc.
  apply list_elem_of_omap in Hc as (ref & _ & Hc).
  destruct (Store.conditions store !! ref) as [x|] eqn:Hx; [|done].
  injection Hc as <-. apply list_elem_of_lookup_2 in Hx.
  rewrite Forall_forall in Hclosed. exact (Hclosed x Hx).
Qed.

(** The two loops of [parseSheet], as one fact: what the schema of a
    sheet with field rows is assembled from. *)
Lemma parseSheet_rows (worksheet : Worksheet.t) (table : T) (n : nat)
    (row : Z) (xlsxResult : XlsxResult.t) :
  ∃ fields fieldCache xlsxResult1 conditionCache store xlsxResult2,
    XlsxToJson.readFields worksheet table n row [] ∅ xlsxResult
    = (fields, fieldCache, xlsxResult1)
    ∧ XlsxToJson.readConditions worksheet table fieldCache n row []
        (Store.mk fields []) xlsxResult1
      = (conditionCache, store, xlsxResult2)
    ∧ SchemaField.name <$> Store.fields store
      = (λ k : nat,
           Worksheet.getPath worksheet
             (Table.getCol Dictionary.ANSWER table) (row + Z.of_nat k)%Z)
        <$> seq 0 n
    ∧ Forall (λ c, closedCondition (length (Store.fields store))
                     (SchemaCondition.field c) (SchemaCondition.dependents c))
        (XlsxToJson.conditionsToJson conditionCache store).
Proof.
  destruct (readFields_spec worksheet table n row [] ∅ xlsxResult)
    as (fields & fieldCache & xlsxResult1 & Hfields & Hnames & Hok & _
        & Hrows & _); [by intros ? ? ?|].
  cbn [fmap list_fmap app] in Hnames.
  assert (Hbound : ∀ name i,
    fieldCache !! name = Some i → i < length (SchemaField.name <$> fields)).
  { intros name i Hi. destruct (Hok name i Hi) as (f & Hf & _).
    rewrite length_fmap. by eapply lookup_lt_Some. }
  destruct (readConditions_closed worksheet table fieldCache
              (SchemaField.name <$> fields) Hbound n row []
              (Store.mk fields []) xlsxResult1 Hrows eq_refl
              (Forall_nil_2 _) (Forall_nil_2 _))
    as (conditionCache & store & xlsxResult2 & Hconds & Hnames2 & Hclosed & _).
  exists fields, fieldCache, xlsxResult1, conditionCache, store, xlsxResult2.
  split_and!; [done|done|by rewrite Hnames2|].
  apply conditionsToJson_closed.
  assert (Hlen : length (Store.fields store)
                 = length (SchemaField.name <$> fields))
    by (by rewrite <- Hnames2, !length_fmap).
  by rewrite Hlen.
Qed.

(** X18: in every schema [parseSheet] returns, the dependents of the
    conditions are fields of that schema: each is a position of the
    field array and none is [undefined], whatever the sheet holds.  The
    first loop caches a field for every row the second loop looks up,
    so that every field handed to [addField] is one of the sheet. *)
Theorem dependents_are_fields_of_the_sheet (worksheet : Worksheet.t)
    (xlsxResult : XlsxResult.t) :
  let schema := (XlsxToJson.parseSheet worksheet xlsxResult).1 in
  Forall (λ c,
            Forall (λ d : option nat * bool,
                      ∃ i, d.1 = Some i ∧ i < length (Schema.fields schema))
              (SchemaCondition.dependents c))
    (Schema.conditions schema).
Proof.
  cbv zeta.
  assert (Hclosed :
    Forall (λ c,
              closedCondition
                (length
                   (Schema.fields
                      (XlsxToJson.parseSheet worksheet xlsxResult).1))
                (SchemaCondition.field c) (SchemaCondition.dependents c))
      (Schema.conditions (XlsxToJson.parseSheet worksheet xlsxResult).1)).
  { unfold XlsxToJson.parseSheet. cbv zeta.
    destruct (XlsxToJson.scanHeaders worksheet) as [row table].
    destruct (Table.getErrorHeader table).
    { repeat match goal with
             | |- context [if ?b then _ else _] => destruct b
             end; constructor. }
    destruct (_ || _).
    { repeat match goal with
             | |- context [if ?b then _ else _] => destruct b
             end; constructor. }
    match goal with
    | |- context [XlsxToJson.readFields ?w ?t ?n ?r [] ∅ xlsxResult] =>
        destruct (parseSheet_rows w t n r xlsxResult)
          as (fields & fieldCache & xlsxResult1 & conditionCache & store
              & xlsxResult2 & -> & -> & _ & Hclosed)
    end.
    destruct (Schema_buildDocument _);
      repeat match goal with
             | |- context [if ?b then _ else _] => destruct b
             end; cbn; exact Hclosed. }
  eapply Forall_impl; [exact Hclosed|]. by intros c [_ Hdeps].
Qed.

(** X19: a sheet with its headers that is not a tool reference gives
    one field for each row between the header row and the end of the
    range, in the order of the rows: the names of the fields of the
    schema are the paths of the answer cells of those rows. *)
Theorem fields_follow_the_rows (worksheet : Worksheet.t)
    (xlsxResult : XlsxResult.t) :
  let range := Worksheet.getRange worksheet in
  let table :=
    Table.setEnd (Addr.c (Range.e range))
      (XlsxToJson.scanHeaders worksheet).1
      (XlsxToJson.scanHeaders worksheet).2 in
  let row := (Addr.r (Table.tend table) + 1)%Z in
  let schema := (XlsxToJson.parseSheet worksheet xlsxResult).1 in
  Table.getErrorHeader (XlsxToJson.scanHeaders worksheet).2 = None →
  Schema.category schema = POLICY →
  SchemaField.name <$> Schema.fields schema
  = (λ k : nat,
       Worksheet.getPath worksheet (Table.getCol Dictionary.ANSWER table)
         (row + Z.of_nat k)%Z)
    <$> seq 0 (Z.to_nat (Addr.r (Range.e range) - row)).
Proof.
  unfold XlsxToJson.parseSheet. cbv zeta.
  destruct (XlsxToJson.scanHeaders worksheet) as [row table].
  cbn [fst snd]. intros ->.
  destruct (_ || _).
  { repeat match goal with
           | |- context [if ?b then _ else _] => destruct b
           end; cbn; discriminate. }
  intros _.
  match goal with
  | |- context [XlsxToJson.readFields ?w ?t ?n ?r [] ∅ xlsxResult] =>
      destruct (parseSheet_rows w t n r xlsxResult)
        as (fields & fieldCache & xlsxResult1 & conditionCache & store
            & xlsxResult2 & -> & -> & Hnames & _)
  end.
  destruct (Schema_buildDocument _);
    repeat match goal with
           | |- context [if ?b then _ else _] => destruct b
           end; cbn; exact Hnames.
Qed.

(** What the schema of a sheet is called and whether it is a tool
    reference does not depend on what was parsed before. *)
Lemma parseSheet_identity (worksheet : Worksheet.t)
    (xlsxResult xlsxResult' : XlsxResult.t) :
  Schema.name (XlsxToJson.parseSheet worksheet xlsxResult).1
  = Schema.name (XlsxToJson.parseSheet worksheet xlsxResult').1
  ∧ Schema.category (XlsxToJson.parseSheet worksheet xlsxResult).1
    = Schema.category (XlsxToJson.parseSheet worksheet xlsxResult').1.
Proof.
  unfold XlsxToJson.parseSheet. cbv zeta.
  destruct (XlsxToJson.scanHeaders worksheet) as [row table].
  destruct (Table.getErrorHeader table); [done|].
  destruct (_ || _); [done|].
  repeat match goal with
         | |- context [XlsxToJson.readFields ?a ?b ?c ?d ?e ?f ?g] =>
             destruct (XlsxToJson.readFields a b c d e f g) as [[? ?] ?]
         end.
  repeat match goal with
         | |- context [XlsxToJson.readConditions ?a ?b ?c ?d ?e ?f ?g ?h] =>
             destruct (XlsxToJson.readConditions a b c d e f g h)
               as [[? ?] ?]
         end.
  repeat match goal with
         | |- context [Schema_buildDocument ?s] =>
             destruct (Schema_buildDocument s)
         end;
    repeat match goal with
           | |- context [if ?b then _ else _] => destruct b
           end; done.
Qed.

(** One turn of the loop of [parse]. *)
Lemma parseWorksheet_spec (xlsxResult : XlsxResult.t)
    (worksheet : Worksheet.t) :
  let schema := (XlsxToJson.parseSheet worksheet xlsxResult).1 in
  let xlsxResult' := XlsxToJson.parseWorksheet xlsxResult worksheet in
  XlsxResult._tools xlsxResult' = XlsxResult._tools xlsxResult
  ∧ XlsxResult._schemas xlsxResult'
    = XlsxResult._schemas xlsxResult
      ++ match Schema.category schema with
         | POLICY => [schema]
         | TOOL => []
         end
  ∧ (∃ cache,
       XlsxResult._schemaWorksheetCache xlsxResult'
       = <[Worksheet.name worksheet := cache]>
           (XlsxResult._schemaWorksheetCache xlsxResult)
       ∧ (Schema.category schema = POLICY →
          ICache.iri cache = Schema.iri schema))
  ∧ XlsxResult._linkCache xlsxResult'
    = XlsxResult._linkCache
        (XlsxToJson.parseSheet worksheet xlsxResult).2
  ∧ XlsxResult._errors xlsxResult `prefix_of` XlsxResult._errors xlsxResult'
  ∧ (denseLinks (XlsxResult._linkCache xlsxResult) →
     denseLinks (XlsxResult._linkCache xlsxResult')
     ∧ XlsxResult._linkCache xlsxResult
       ⊆ XlsxResult._linkCache xlsxResult').
Proof.
  cbv zeta. unfold XlsxToJson.parseWorksheet.
  pose proof (parseSheet_keeps worksheet xlsxResult) as Hkeeps.
  destruct (XlsxToJson.parseSheet worksheet xlsxResult)
    as [schema xlsxResult1].
  cbn [fst snd] in *.
  destruct Hkeeps as (Hschemas & Htools & _ & Hcache & _ & Herrors & Hlinks).
  destruct (Schema.category schema);
    destruct xlsxResult1; cbn in *; subst;
    (split_and!;
       [done|by rewrite ?app_nil_r|eexists; split; [reflexivity|done]
       |done|done|done]).
Qed.

Lemma parse_loop_spec (worksheets : list Worksheet.t) :
  ∀ xlsxResult,
    let xlsxResult' :=
      fold_left XlsxToJson.parseWorksheet worksheets xlsxResult in
    XlsxResult._tools xlsxResult' = XlsxResult._tools xlsxResult
    ∧ Schema.name <$> XlsxResult._schemas xlsxResult'
      = (Schema.name <$> XlsxResult._schemas xlsxResult)
        ++ omap (λ w,
                   match Schema.category
                           (XlsxToJson.parseSheet w XlsxResult.new).1 with
                   | POLICY =>
                       Some (Schema.name
                               (XlsxToJson.parseSheet w XlsxResult.new).1)
                   | TOOL => None
                   end) worksheets
    ∧ (∀ name,
         is_Some (XlsxResult._schemaWorksheetCache xlsxResult !! name)
         ∨ (∃ w, w ∈ worksheets ∧ Worksheet.name w = name) →
         is_Some (XlsxResult._schemaWorksheetCache xlsxResult' !! name))
    ∧ XlsxResult._errors xlsxResult
      `prefix_of` XlsxResult._errors xlsxResult'
    ∧ (denseLinks (XlsxResult._linkCache xlsxResult) →
       denseLinks (XlsxResult._linkCache xlsxResult')
       ∧ XlsxResult._linkCache xlsxResult
         ⊆ XlsxResult._linkCache xlsxResult').
Proof.
  induction worksheets as [|w worksheets IH]; intros xlsxResult; cbv zeta.
  - cbn. split_and!; [done|by rewrite app_nil_r| |done|done].
    intros name [Hsome|(w & Hw & _)]; [done|]. by apply elem_of_nil in Hw.
  - cbn [fold_left].
    destruct (parseWorksheet_spec xlsxResult w)
      as (Htools & Hschemas & (cache & Hcache & _) & _ & Herrors & Hlinks).
    destruct (IH (XlsxToJson.parseWorksheet xlsxResult w))
      as (Htools' & Hschemas' & Hcache' & Herrors' & Hlinks').
    split_and!.
    + congruence.
    + rewrite Hschemas', Hschemas, fmap_app, <- app_assoc. f_equal.
      cbn [omap list_omap].
      destruct (parseSheet_identity w xlsxResult XlsxResult.new)
        as [<- <-].
      by destruct (Schema.category _).
    + intros name Hname. apply Hcache'. rewrite Hcache.
      destruct (decide (Worksheet.name w = name)) as [<-|Hne].
      * left. rewrite lookup_insert_eq. eauto.
      * destruct Hname as [Hsome|(w' & Hw' & Hname)].
        -- left. by rewrite lookup_insert_ne.
        -- apply elem_of_cons in Hw' as [->|Hw']; [done|]. right. eauto.
    + by etrans.
    + intros Hdense. destruct (Hlinks Hdense) as [Hdense1 Hsub].
      destruct (Hlinks' Hdense1) as [Hdense2 Hsub']. split; [done|].
      by etrans.
Qed.

Lemma parseWorksheets_returning (worksheets : list Worksheet.t) :
  ∀ k xlsxResult,
    XlsxToJson.parseWorksheets (λ _, None) k worksheets xlsxResult
    = (None, fold_left XlsxToJson.parseWorksheet worksheets xlsxResult).
Proof.
  induction worksheets as [|w worksheets IH]; intros k xlsxResult; cbn;
    [done|apply IH].
Qed.

(** X20: when the workbook can be read, [parse] resolves with a result
    that lists the sheets that are not tool references in the order of
    the workbook, each under the name it has when parsed alone, that
    has registered every worksheet by its name, that holds no tool, and
    whose link ids are the ids [addLink] mints. *)
Theorem parse_lists_sheets_in_order (buffer : Buffer)
    (worksheets : list Worksheet.t) :
  Workbook_read buffer = inr worksheets →
  ∃ xlsxResult,
    XlsxToJson.parse buffer = inr xlsxResult
    ∧ Schema.name <$> XlsxResult.schemas xlsxResult
      = omap (λ w,
                match Schema.category
                        (XlsxToJson.parseSheet w XlsxResult.new).1 with
                | POLICY =>
                    Some (Schema.name
                            (XlsxToJson.parseSheet w XlsxResult.new).1)
                | TOOL => None
                end) worksheets
    ∧ (∀ w, w ∈ worksheets →
            is_Some
              (XlsxResult._schemaWorksheetCache xlsxResult
                 !! Worksheet.name w))
    ∧ XlsxResult.tools xlsxResult = []
    ∧ denseLinks (XlsxResult._linkCache xlsxResult).
Proof.
  intros Hread.
  unfold XlsxToJson.parse, XlsxToJson.parseWith, XlsxToJson.parseTry.
  rewrite Hread, parseWorksheets_returning.
  eexists. split; [reflexivity|].
  destruct (parse_loop_spec worksheets XlsxResult.new)
    as (Htools & Hschemas & Hcache & _ & Hlinks).
  split_and!.
  - exact Hschemas.
  - intros w Hw. apply Hcache. right. eauto.
  - exact Htools.
  - apply Hlinks, denseLinks_empty.
Qed.

(** X21: a sheet whose schema comes back without an IRI, as after an
    error, is still listed as a schema and registered under the name
    of its worksheet.  A link that leads to that worksheet finds the
    registration and stops there: the reference does not resolve,
    whatever the name cache holds. *)
Theorem reference_to_sheet_without_iri (worksheet : Worksheet.t)
    (xlsxResult : XlsxResult.t) (id : string) (link : ILink.t) :
  let schema := (XlsxToJson.parseSheet worksheet xlsxResult).1 in
  let xlsxResult' := XlsxToJson.parseWorksheet xlsxResult worksheet in
  Schema.category schema = POLICY →
  text_truthy (Schema.iri schema) = false →
  denseLinks (XlsxResult._linkCache xlsxResult) →
  XlsxResult._linkCache xlsxResult !! id = Some link →
  ILink.worksheet link = Some (Worksheet.name worksheet) →
  Worksheet.name worksheet ≠ "" →
  XlsxResult.schemas xlsxResult' = XlsxResult.schemas xlsxResult ++ [schema]
  ∧ XlsxResult.findIri (VStr id) xlsxResult' = None.
Proof.
  intros schema xlsxResult' Hcategory Hiri Hdense Hlink Hworksheet Hname.
  subst schema xlsxResult'.
  destruct (parseWorksheet_spec xlsxResult worksheet)
    as (_ & Hschemas & (cache & Hcache & Hcached) & _ & _ & Hlinks).
  rewrite Hcategory in Hschemas. specialize (Hcached Hcategory).
  destruct (Hlinks Hdense) as [_ Hsub].
  split; [exact Hschemas|].
  unfold XlsxResult.findIri, XlsxResult.getLink.
  rewrite (lookup_weaken _ _ _ _ Hlink Hsub).
  unfold XlsxResult.findCache. rewrite Hworksheet.
  rewrite (text_truthy_nonempty _ Hname), Hcache, lookup_insert_eq.
  by rewrite Hcached, Hiri.
Qed.

(** X22: when the document of a schema cannot be built, [parseSheet]
    still returns the schema of the sheet.  Its IRI is the one the
    constructor gave, [SchemaHelper.updateIRI] has not run; the error
    "Failed to parse sheet." with the text of the exception is the one
    error the schema has got and the last one of the result. *)
Theorem document_failure_is_recorded (worksheet : Worksheet.t)
    (xlsxResult : XlsxResult.t) (error : Exn) :
  let schema := (XlsxToJson.parseSheet worksheet xlsxResult).1 in
  let xlsxResult' := (XlsxToJson.parseSheet worksheet xlsxResult).2 in
  (∀ schema, Schema_buildDocument schema = inl error) →
  Table.getErrorHeader (XlsxToJson.scanHeaders worksheet).2 = None →
  Schema.category schema = POLICY →
  Schema.iri schema = Schema.iri Schema.new
  ∧ Schema.errors schema
    = push_error (XlsxToJson.parseSheetError worksheet error)
        (Schema.errors Schema.new)
  ∧ last (XlsxResult._errors xlsxResult')
    = Some (XlsxToJson.parseSheetError worksheet error)
  ∧ XlsxError.text (XlsxToJson.parseSheetError worksheet error)
    = "Failed to parse sheet."
  ∧ XlsxError.message (XlsxToJson.parseSheetError worksheet error)
    = Exn_toString error.
Proof.
  cbv zeta. intros Hbuild. unfold XlsxToJson.parseSheet. cbv zeta.
  destruct (XlsxToJson.scanHeaders worksheet) as [row table].
  cbn [snd]. intros ->.
  destruct (_ || _).
  { repeat match goal with
           | |- context [if ?b then _ else _] => destruct b
           end; cbn; discriminate. }
  intros _.
  repeat match goal with
         | |- context [XlsxToJson.readFields ?a ?b ?c ?d ?e ?f ?g] =>
             destruct (XlsxToJson.readFields a b c d e f g) as [[? ?] ?]
         end.
  repeat match goal with
         | |- context [XlsxToJson.readConditions ?a ?b ?c ?d ?e ?f ?g ?h] =>
             destruct (XlsxToJson.readConditions a b c d e f g h)
               as [[? ?] ?]
         end.
  rewrite Hbuild. cbn [fst snd].
  split_and!; [| | |reflexivity|reflexivity].
  - repeat match goal with
           | |- context [if ?b then _ else _] => destruct b
           end; reflexivity.
  - repeat match goal with
           | |- context [if ?b then _ else _] => destruct b
           end; reflexivity.
  - match goal with
    | |- context [XlsxResult.addError ?e ?r] => destruct r
    end.
    cbn. apply last_snoc.
Qed.

(** X23: a visibility cell that holds a value and no formula never
    gives a condition and never an error.  It hides the field unless
    the value converts to true, and it never shows a field that was
    hidden. *)
Theorem plain_visibility_hides_unless_true (worksheet : Worksheet.t)
    (table : T) (fieldCache : gmap string nat) (conditionCache : list nat)
    (row : Z) (store : Store.t) (xlsxResult : XlsxResult.t) (i : nat)
    (field : SchemaField.t) :
  let col := Table.getCol Dictionary.VISIBILITY table in
  let cell := Worksheet.getCell worksheet col row in
  let shown := xlsxToBoolean (Cell.getValue cell) in
  Worksheet.outColumnRange worksheet col = false →
  Cell.isFormulae cell = false →
  Cell.isValue cell = true →
  fieldCache
    !! Worksheet.getPath worksheet (Table.getCol Dictionary.ANSWER table) row
  = Some i →
  Store.fields store !! i = Some field →
  ∃ hidden,
    XlsxToJson.readCondition worksheet table fieldCache conditionCache row
      store xlsxResult
    = (None,
       Store.mk (<[i := SchemaField.set_hidden hidden field]>
                   (Store.fields store))
         (Store.conditions store),
       xlsxResult)
    ∧ truthy hidden = truthy (SchemaField.hidden field) || negb shown
    ∧ (truthy (SchemaField.hidden field) = true →
       hidden = SchemaField.hidden field).
Proof.
  intros col cell shown Hrange Hformulae Hvalue Hcache Hfield.
  subst shown cell col.
  exists (js_or (SchemaField.hidden field)
            (VBool (negb (xlsxToBoolean
                            (Cell.getValue
                               (Worksheet.getCell worksheet
                                  (Table.getCol Dictionary.VISIBILITY table)
                                  row)))))).
  split_and!.
  - unfold XlsxToJson.readCondition. cbv beta zeta.
    rewrite Hrange, Hcache. unfold XlsxToJson.visibility.
    rewrite Hformulae, Hvalue.
    destruct (xlsxToBoolean _); cbn [XlsxToJson.parseCondition];
      cbv beta iota; do 2 f_equal;
      f_equal; apply list_eq; intros j;
      rewrite list_lookup_alter, list_lookup_insert;
      (destruct (decide (i = j)) as [<-|Hne];
       [rewrite Hfield; cbn;
        destruct (decide _) as [_|Hno];
        [done|exfalso; apply Hno; split; [done|by eapply lookup_lt_Some]]
       |destruct (decide _) as [[Heq _]|_]; done]).
  - unfold js_or. destruct (truthy (SchemaField.hidden field)) eqn:Hhidden.
    + by rewrite Hhidden.
    + cbn. by destruct (xlsxToBoolean _).
  - intros Hhidden. unfold js_or. by rewrite Hhidden.
Qed.

End rows.

Lemma unknown_type_witness :
  FieldTypes_findByName (Worksheet.getValue Sample.sensor 1 10) = None
  ∧ ∃ field,
      (XlsxToJson.readField Sample.sensor (Sample.tableOf Sample.sensor) 10
         XlsxResult.new).1 = Some field
      ∧ SchemaField.type field = VStr "link_0"
      ∧ SchemaField.isRef field = VBool true.
Proof.
  split; [vm_compute; reflexivity|].
  pose proof (unknown_type_becomes_reference Sample.sensor
                (Sample.tableOf Sample.sensor) 10 XlsxResult.new) as Hrow.
  cbv zeta in Hrow.
  destruct Hrow as (field & Hread & Htype & Hisref & _).
  - vm_compute; reflexivity.
  - vm_compute; reflexivity.
  - exists field. rewrite Hread. split_and!; [reflexivity| |exact Hisref].
    rewrite Htype. vm_compute; reflexivity.
Defined.

Lemma auto_calculate_witness :
  Worksheet.getValue computed 1 2 = Some "Auto-Calculate"
  ∧ ∃ field,
      (XlsxToJson.readField computed (Sample.tableOf computed) 2
         XlsxResult.new).1 = Some field
      ∧ SchemaField.examples field = None.
Proof.
  split; [vm_compute; reflexivity|].
  apply (auto_calculate_has_no_examples computed (Sample.tableOf computed) 2
           XlsxResult.new).
  vm_compute; reflexivity.
Defined.

Lemma fields_follow_the_rows_witness :
  SchemaField.name
    <$> Schema.fields
          (XlsxToJson.parseSheet (T := HeaderTable.t) Sample.sensor
             XlsxResult.new).1
  = ["G5"; "G6"; "G7"; "G8"; "G9"; "G10"; "G11"; "G12"].
Proof.
  pose proof (fields_follow_the_rows (T := HeaderTable.t) Sample.sensor
                XlsxResult.new) as Hrows.
  cbv zeta in Hrows.
  etrans; [apply Hrows; vm_compute; reflexivity|].
  vm_compute; reflexivity.
Defined.

Lemma parse_lists_sheets_witness :
  ∃ xlsxResult,
    XlsxToJson.parse (T := HeaderTable.t) Sample.workbook = inr xlsxResult
    ∧ Schema.name <$> XlsxResult.schemas xlsxResult
      = [Some "Sensor"; Some "Place"; Some "Headless"]
    ∧ XlsxResult.tools xlsxResult = [].
Proof.
  destruct (parse_lists_sheets_in_order (T := HeaderTable.t) Sample.workbook
              [Sample.sensor; Sample.place; Sample.headless; Sample.co2tool])
    as (xlsxResult & Hparse & Hnames & _ & Htools & _).
  - vm_compute; reflexivity.
  - exists xlsxResult. split_and!; [exact Hparse| |exact Htools].
    rewrite Hnames. vm_compute; reflexivity.
Defined.

Lemma reference_to_sheet_without_iri_witness :
  let xlsxResult :=
    (XlsxResult.addLink (Some "Headless")
       (Some (Hyperlink.mk (Some "Headless"))) XlsxResult.new).2 in
  Schema.iri (XlsxToJson.parseSheet Sample.headless xlsxResult).1 = None
  ∧ XlsxResult.findIri (VStr "link_0")
      (XlsxToJson.parseWorksheet xlsxResult Sample.headless) = None.
Proof.
  cbv zeta. split; [vm_compute; reflexivity|].
  pose proof (reference_to_sheet_without_iri Sample.headless
                (XlsxResult.addLink (Some "Headless")
                   (Some (Hyperlink.mk (Some "Headless")))
                   XlsxResult.new).2
                "link_0"
                (ILink.mk (Some "Headless") (Some "Headless"))) as Hparse.
  cbv zeta in Hparse.
  destruct Hparse as (_ & Hiri).
  - vm_compute; reflexivity.
  - vm_compute; reflexivity.
  - apply (denseLinks_insert ∅
             (ILink.mk (Some "Headless") (Some "Headless"))
             denseLinks_empty).
  - vm_compute; reflexivity.
  - reflexivity.
  - vm_compute; discriminate.
  - exact Hiri.
Defined.

Lemma document_failure_witness :
  Schema.errors
    (@XlsxToJson.parseSheet failing HeaderTable.t _ Sample.sensor
       XlsxResult.new).1
  = Some [XlsxToJson.parseSheetError Sample.sensor (TypeError "document")]
  ∧ length
      (Schema.fields
         (@XlsxToJson.parseSheet failing HeaderTable.t _ Sample.sensor
            XlsxResult.new).1) = 8.
Proof.
  pose proof (@document_failure_is_recorded failing HeaderTable.t _
                Sample.sensor XlsxResult.new (TypeError "document")) as Hparse.
  cbv zeta in Hparse.
  destruct Hparse as (_ & Herrors & _).
  - intros schema. reflexivity.
  - vm_compute; reflexivity.
  - vm_compute; reflexivity.
  - split; [exact Herrors|vm_compute; reflexivity].
Defined.

Lemma plain_visibility_witness :
  Cell.getValue (Worksheet.getCell computed 3 2) = Some "No"
  ∧ ∃ hidden,
      XlsxToJson.readCondition computed (Sample.tableOf computed)
        (<["G3" := 0]> ∅) [] 2 (Store.mk [XlsxToJson.emptyField] [])
        XlsxResult.new
      = (None,
         Store.mk [SchemaField.set_hidden hidden XlsxToJson.emptyField] [],
         XlsxResult.new)
      ∧ truthy hidden = true.
Proof.
  split; [vm_compute; reflexivity|].
  pose proof (plain_visibility_hides_unless_true computed
                (Sample.tableOf computed) (<["G3" := 0]> ∅) [] 2
                (Store.mk [XlsxToJson.emptyField] []) XlsxResult.new 0
                XlsxToJson.emptyField) as Hrow.
  cbv zeta in Hrow.
  destruct Hrow as (hidden & Hread & Htruthy & _).
  - vm_compute; reflexivity.
  - vm_compute; reflexivity.
  - vm_compute; reflexivity.
  - vm_compute; reflexivity.
  - reflexivity.
  - exists hidden. split; [exact Hread|]. rewrite Htruthy.
    vm_compute; reflexivity.
Defined.

(** ** Parameters and reported errors *)

Section parameters.
Context `{Collaborators} {T : Type} `{Table.Ops T}.

(** X24: the parameter cell counts for four types only.  For a type of
    any other name [readFieldParams] leaves the field as it is,
    whatever the parameter cell, the format, the list and the font of
    the row hold, and records nothing. *)
Theorem parameter_is_ignored_for_other_types (worksheet : Worksheet.t)
    (table : T) (field : SchemaField.t) (fieldType : IFieldTypes.t)
    (row : Z) (xlsxResult : XlsxResult.t) :
  IFieldTypes.name fieldType ∉ ["Prefix"; "Postfix"; "Enum"; "Help Text"] →
  XlsxToJson.readFieldParams worksheet table field fieldType row xlsxResult
  = (field, xlsxResult).
Proof.
  intros Hname. unfold XlsxToJson.readFieldParams. cbv zeta.
  assert (Hneq : ∀ name,
    name ∈ ["Prefix"; "Postfix"; "Enum"; "Help Text"] →
    String.eqb (IFieldTypes.name fieldType) name = false).
  { intros name Hin. apply String.eqb_neq. intros Heq. apply Hname.
    by rewrite Heq. }
  rewrite !Hneq by (repeat constructor).
  by destruct (Worksheet.getValue _ _ _) as [text|];
    [destruct (text_truthy _)|].
Qed.

End parameters.

Lemma parameter_is_ignored_witness :
  XlsxToJson.readFieldParams Sample.sensor (Sample.tableOf Sample.sensor)
    XlsxToJson.emptyField
    (IFieldTypes.mk "String" (VStr "string") VUndef VUndef VUndef VUndef
       VUndef VUndef (VBool false))
    7 XlsxResult.new
  = (XlsxToJson.emptyField, XlsxResult.new).
Proof.
  apply (parameter_is_ignored_for_other_types Sample.sensor
           (Sample.tableOf Sample.sensor)).
  vm_compute. intros Hin.
  repeat (apply elem_of_cons in Hin as [Heq|Hin]; [discriminate|]).
  by apply elem_of_nil in Hin.
Defined.

(** X25: [addErrors] stores every error it is given after those of the
    result, in the order given and with the type 'error' whatever type
    it came with; the text, the message and the place of each are
    kept.  Adding two lists in turn is adding them joined. *)
Theorem addErrors_appends_as_errors (errors errors' : list XlsxError.t)
    (this : XlsxResult.t) :
  XlsxResult.addErrors errors' (XlsxResult.addErrors errors this)
  = XlsxResult.addErrors (errors ++ errors') this
  ∧ ∃ added,
      XlsxResult.addErrors errors this
      = XlsxResult.set_errors (XlsxResult._errors this ++ added) this
      ∧ Forall2
          (λ error stored,
             XlsxError.type stored = "error"
             ∧ stored = XlsxError.mk "error" (XlsxError.text error)
                          (XlsxError.message error)
                          (XlsxError.worksheet error) (XlsxError.cell error)
                          (XlsxError.row error) (XlsxError.col error))
          errors added.
Proof.
  split.
  - unfold XlsxResult.addErrors. destruct this; cbn.
    by rewrite map_app, app_assoc.
  - eexists. split; [reflexivity|].
    induction errors as [|error errors IH]; cbn; constructor; done.
Qed.
